(** * AlphaFX Trader: indicators, signal consensus, trading engine, backtest

    A shallow embedding of the Node.js server of the repository:
    - [TradingAlgorithms]  (trading/TradingAlgorithms.js): price history,
      SMA, RSI, Bollinger Bands, the three strategies and their consensus;
    - [FXDataSimulator]    (trading/FXDataSimulator.js): the price table
      and the generator of historical bars;
    - [TradingEngine]      (trading/TradingEngine.js): risk checks, sizing,
      order execution, the position table;
    - [runBacktest]        (server/app.js).

    Numbers.  JavaScript numbers are IEEE doubles; they are modelled here
    by exact rationals [Q], compared with [Qeq] ([==]).  Rounding,
    [NaN] and the infinities are outside the model: wherever the source
    could divide by zero the statements below carry a hypothesis that
    excludes it, or the source guards the division itself. *)

From Stdlib Require Import QArith Qminmax Qabs Qround Lqa ZArith Lia List.
From stdpp Require Import gmap strings list fin_maps.
Import ListNotations.

Local Open Scope Q_scope.

(** ** Numbers *)

Module Num.

(** [a < b] and [a > b] of the source, as booleans. *)
Definition ltb (a b : Q) : bool := negb (Qle_bool b a).
Definition gtb (a b : Q) : bool := ltb b a.
Definition leb (a b : Q) : bool := Qle_bool a b.
Definition geb (a b : Q) : bool := Qle_bool b a.
(** [a === b] on numbers. *)
Definition eqb (a b : Q) : bool := Qeq_bool a b.

(** [Math.min], [Math.max], [Math.abs], [Math.floor]. *)
Definition min (a b : Q) : Q := if Qle_bool a b then a else b.
Definition max (a b : Q) : Q := if Qle_bool a b then b else a.
Definition abs (a : Q) : Q := Qabs a.
Definition floor (a : Q) : Q := inject_Z (Qfloor a).

(** A number used as a condition: [0] is falsy. *)
Definition truthy (a : Q) : bool := negb (Qeq_bool a 0).

(** [x || d] on a possibly missing number. *)
Definition or_default (x : option Q) (d : Q) : Q :=
  match x with
  | Some q => if truthy q then q else d
  | None => d
  end.

Definition of_nat (n : nat) : Q := inject_Z (Z.of_nat n).

(** [arr.reduce((acc, x) => acc + f(x), 0)]. *)
Definition sum_by {A} (f : A -> Q) (l : list A) : Q :=
  fold_left (fun acc x => acc + f x) l 0.

End Num.

(** [arr.slice(-n)]: the last [n] elements, the whole array when it is
    shorter; [slice(-0)] is [slice(0)], the whole array. *)
Definition slice_last {A} (n : nat) (l : list A) : list A :=
  match n with
  | O => l
  | S _ => drop (length l - n) l
  end.

(** [arr.slice(0, -1)]: all but the last element. *)
Definition slice_init {A} (l : list A) : list A :=
  take (length l - 1) l.

(** ** Signals *)

Inductive Side := buy | sell | hold.

Definition Side_eqb (a b : Side) : bool :=
  match a, b with
  | buy, buy | sell, sell | hold, hold => true
  | _, _ => false
  end.

Record Bands := mkBands {
  middle : Q;
  upper : Q;
  lower : Q;
  bandwidth : Q
}.

(** The strategy-specific fields a signal object carries besides
    [signal], [confidence] and [reason]. *)
Inductive Extra :=
| ExNone
| ExSMA (shortSMA longSMA : Q) (crossover : bool)
| ExRSINull
| ExRSI (rsi overbought oversold : Q)
| ExBBNull
| ExBB (bands : Bands) (currentPrice : Q) (position : string).

Record Signal := mkSignal {
  signal : Side;
  confidence : Q;
  reason : string;
  extra : Extra
}.

Record Components := mkComponents {
  sma : Signal;
  rsi : Signal;
  bb : Signal
}.

Record Counts := mkCounts {
  buyCount : nat;
  sellCount : nat;
  totalSignals : nat
}.

Record CombinedSignal := mkCombined {
  c_signal : Side;
  c_confidence : Q;
  c_reason : string;
  components : Components;
  counts : option Counts
}.

(** ** TradingAlgorithms *)

Record HistoryPoint := mkPoint {
  timestamp : Z;
  price : Q;
  high : Q;
  low : Q;
  volume : Q
}.

(** What [addPriceData] reads of its [price] argument. *)
Record Quote := mkQuote {
  q_bid : Q;
  q_ask : Q;
  q_volume : option Q
}.

Record TradingAlgorithms := mkAlgorithms {
  priceHistory : gmap string (list HistoryPoint);
  maxHistory : nat
}.

Definition newTradingAlgorithms : TradingAlgorithms :=
  {| priceHistory := ∅; maxHistory := 200 |}.

Section Algorithms.

(** [Math.sqrt]: the rationals have no exact square root, so the
    function is a parameter of the development. *)
Variable Math_sqrt : Q -> Q.

(** [timestamp || new Date()]: the caller's clock supplies [now]. *)
Definition addPriceData (now : Z) (a : TradingAlgorithms) (symbol : string)
    (p : Quote) (ts : option Z) : TradingAlgorithms :=
  let history := default [] (priceHistory a !! symbol) in
  let mid := (q_bid p + q_ask p) / 2 in
  let pt := {| timestamp := default now ts;
               price := mid;
               high := mid + (q_ask p - q_bid p) / 2;
               low := mid - (q_ask p - q_bid p) / 2;
               volume := Num.or_default (q_volume p) 0 |} in
  let history := history ++ [pt] in
  let history :=
    if (maxHistory a <? length history)%nat
    then drop (length history - maxHistory a) history
    else history in
  {| priceHistory := <[symbol := history]> (priceHistory a);
     maxHistory := maxHistory a |}.

(** [periods = null] and [periods = 0] both return the whole history. *)
Definition getPriceHistory (a : TradingAlgorithms) (symbol : string)
    (periods : option nat) : list HistoryPoint :=
  let history := default [] (priceHistory a !! symbol) in
  match periods with
  | Some (S n) => slice_last (S n) history
  | _ => history
  end.

Definition calculateSMA (a : TradingAlgorithms) (symbol : string)
    (period : nat) : option Q :=
  let history := getPriceHistory a symbol (Some period) in
  if (length history <? period)%nat then None
  else Some (Num.sum_by price history / Num.of_nat period).

(** [!x] on the result of [calculateSMA]: [null] and [0] are falsy. *)
Definition falsy (x : option Q) : bool :=
  match x with
  | None => true
  | Some q => negb (Num.truthy q)
  end.

Definition getSMACrossoverSignal (a : TradingAlgorithms) (symbol : string)
    (shortPeriod longPeriod : nat) : Signal :=
  match calculateSMA a symbol shortPeriod, calculateSMA a symbol longPeriod with
  | Some shortSMA, Some longSMA =>
    if falsy (Some shortSMA) || falsy (Some longSMA)
    then mkSignal hold 0 "insufficient_data" ExNone
    else
      let history := getPriceHistory a symbol None in
      if (length history <? longPeriod + 1)%nat
      then mkSignal hold 0 "insufficient_history" ExNone
      else
        let prevHistory := slice_init history in
        let prevShortSum := Num.sum_by price (slice_last shortPeriod prevHistory) in
        let prevLongSum := Num.sum_by price (slice_last longPeriod prevHistory) in
        let prevShortSMA := prevShortSum / Num.of_nat shortPeriod in
        let prevLongSMA := prevLongSum / Num.of_nat longPeriod in
        let currentCross := Num.gtb shortSMA longSMA in
        let prevCross := Num.gtb prevShortSMA prevLongSMA in
        let ex := ExSMA shortSMA longSMA (negb (eqb currentCross prevCross)) in
        if currentCross && negb prevCross then
          mkSignal buy (Num.min (((shortSMA - longSMA) / longSMA) * 100) 1)
                   "golden_cross" ex
        else if negb currentCross && prevCross then
          mkSignal sell (Num.min (((longSMA - shortSMA) / shortSMA) * 100) 1)
                   "death_cross" ex
        else mkSignal hold 0 "no_crossover" ex
  | _, _ => mkSignal hold 0 "insufficient_data" ExNone
  end.

(** The [for] loop of [calculateRSI]: one step per consecutive pair,
    pushing onto [gains] and [losses]. *)
Fixpoint rsi_loop (prev : Q) (rest : list HistoryPoint) (gains losses : list Q)
    : list Q * list Q :=
  match rest with
  | [] => (gains, losses)
  | h :: rest' =>
    let change := price h - prev in
    if Num.gtb change 0
    then rsi_loop (price h) rest' (gains ++ [change]) (losses ++ [0])
    else rsi_loop (price h) rest' (gains ++ [0]) (losses ++ [Num.abs change])
  end.

Definition calculateRSI (a : TradingAlgorithms) (symbol : string)
    (period : nat) : option Q :=
  let history := getPriceHistory a symbol (Some (period + 1)%nat) in
  if (length history <? period + 1)%nat then None
  else
    let '(gains, losses) :=
      match history with
      | [] => ([], [])
      | h0 :: rest => rsi_loop (price h0) rest [] []
      end in
    let avgGain := Num.sum_by id gains / Num.of_nat period in
    let avgLoss := Num.sum_by id losses / Num.of_nat period in
    if Num.eqb avgLoss 0 then Some 100
    else
      let rs := avgGain / avgLoss in
      Some (100 - 100 / (1 + rs)).

Definition getRSISignal (a : TradingAlgorithms) (symbol : string)
    (period : nat) (overbought oversold : Q) : Signal :=
  match calculateRSI a symbol period with
  | None => mkSignal hold 0 "insufficient_data" ExRSINull
  | Some r =>
    let ex := ExRSI r overbought oversold in
    if Num.gtb r overbought then
      mkSignal sell (Num.min ((r - overbought) / (100 - overbought)) 1)
               "overbought" ex
    else if Num.ltb r oversold then
      mkSignal buy (Num.min ((oversold - r) / oversold) 1) "oversold" ex
    else mkSignal hold 0 "neutral" ex
  end.

Definition calculateBollingerBands (a : TradingAlgorithms) (symbol : string)
    (period : nat) (standardDeviations : Q) : option Bands :=
  let history := getPriceHistory a symbol (Some period) in
  if (length history <? period)%nat then None
  else
    let prices := map price history in
    let sma := Num.sum_by id prices / Num.of_nat period in
    let squaredDifferences := map (fun p => (p - sma) * (p - sma)) prices in
    let variance := Num.sum_by id squaredDifferences / Num.of_nat period in
    let stdDev := Math_sqrt variance in
    Some {| middle := sma;
            upper := sma + standardDeviations * stdDev;
            lower := sma - standardDeviations * stdDev;
            bandwidth := (2 * standardDeviations * stdDev) / sma * 100 |}.

Definition getBollingerBandsSignal (a : TradingAlgorithms) (symbol : string)
    (period : nat) (standardDeviations : Q) : Signal :=
  let history := getPriceHistory a symbol (Some 1%nat) in
  match calculateBollingerBands a symbol period standardDeviations, last history with
  | Some bands, Some pt =>
    let currentPrice := price pt in
    let pos :=
      if Num.gtb currentPrice (upper bands) then "above_upper"
      else if Num.ltb currentPrice (lower bands) then "below_lower"
      else "within_bands" in
    let ex := ExBB bands currentPrice pos in
    if Num.gtb currentPrice (upper bands) then
      mkSignal sell
        (Num.min ((currentPrice - upper bands) / (upper bands - middle bands)) 1)
        "above_upper_band" ex
    else if Num.ltb currentPrice (lower bands) then
      mkSignal buy
        (Num.min ((lower bands - currentPrice) / (middle bands - lower bands)) 1)
        "below_lower_band" ex
    else mkSignal hold 0 "within_bands" ex
  | _, _ => mkSignal hold 0 "insufficient_data" ExBBNull
  end.

(** The [options] object of [getCombinedSignal]; a missing key takes
    the default of the destructuring pattern. *)
Record Options := mkOptions {
  smaShort : option nat;
  smaLong : option nat;
  rsiPeriod : option nat;
  rsiOverbought : option Q;
  rsiOversold : option Q;
  bbPeriod : option nat;
  bbStdDev : option Q
}.

Definition noOptions : Options :=
  mkOptions None None None None None None None.

(** The part of [getCombinedSignal] after the three strategies have
    answered. *)
Definition combineSignals (smaSignal rsiSignal bbSignal : Signal)
    : CombinedSignal :=
  let signals := [smaSignal; rsiSignal; bbSignal] in
  let comps := mkComponents smaSignal rsiSignal bbSignal in
  let validSignals := List.filter (fun s => Num.gtb (confidence s) 0) signals in
  if (length validSignals =? 0)%nat then
    mkCombined hold 0 "no_valid_signals" comps None
  else
    let buySignals := List.filter (fun s => Side_eqb (signal s) buy) validSignals in
    let sellSignals := List.filter (fun s => Side_eqb (signal s) sell) validSignals in
    let '(finalSignal, conf) :=
      if (length sellSignals <? length buySignals)%nat then
        (buy, Num.sum_by confidence buySignals / Num.of_nat (length buySignals))
      else if (length buySignals <? length sellSignals)%nat then
        (sell, Num.sum_by confidence sellSignals / Num.of_nat (length sellSignals))
      else (hold, 0) in
    mkCombined finalSignal (Num.min conf 1) "combined_analysis" comps
      (Some (mkCounts (length buySignals) (length sellSignals)
                      (length validSignals))).

Definition getCombinedSignal (a : TradingAlgorithms) (symbol : string)
    (o : Options) : CombinedSignal :=
  let smaSignal :=
    getSMACrossoverSignal a symbol (default 10%nat (smaShort o))
                          (default 50%nat (smaLong o)) in
  let rsiSignal :=
    getRSISignal a symbol (default 14%nat (rsiPeriod o))
                 (default 70 (rsiOverbought o)) (default 30 (rsiOversold o)) in
  let bbSignal :=
    getBollingerBandsSignal a symbol (default 20%nat (bbPeriod o))
                            (default 2 (bbStdDev o)) in
  combineSignals smaSignal rsiSignal bbSignal.

End Algorithms.

(** ** FXDataSimulator *)

(** A stored price of the simulator. *)
Record SimPrice := mkSimPrice {
  s_bid : Q;
  s_ask : Q
}.

Record FXDataSimulator := mkSimulator {
  prices : gmap string SimPrice;
  volatility : Q
}.

(** The constructor with [initializePrices]; the random initial volume
    of a price is not kept in [SimPrice]. *)
Definition basePrices : list (string * Q) :=
  [("EURUSD", 1.0850); ("GBPUSD", 1.2650); ("USDJPY", 148.50);
   ("AUDUSD", 0.6850); ("USDCAD", 1.3450); ("USDCHF", 0.8950)].

Definition newFXDataSimulator : FXDataSimulator :=
  {| prices :=
       list_to_map
         (map (fun sb : string * Q =>
                 let basePrice := sb.2 in
                 let spread := basePrice * 0.0002 in
                 (sb.1, mkSimPrice (basePrice - spread / 2) (basePrice + spread / 2)))
              basePrices);
     volatility := 0.001 |}.

Record Bar := mkBar {
  b_timestamp : Z;
  b_symbol : string;
  b_open : Q;
  b_high : Q;
  b_low : Q;
  b_close : Q;
  b_volume : Q
}.

Definition getIntervalMilliseconds (interval : string) : Z :=
  let intervals : gmap string Z :=
    list_to_map [("1min", 60 * 1000); ("5min", 5 * 60 * 1000);
                 ("15min", 15 * 60 * 1000); ("30min", 30 * 60 * 1000);
                 ("1hour", 60 * 60 * 1000); ("4hour", 4 * 60 * 60 * 1000);
                 ("1day", 24 * 60 * 60 * 1000)]%Z in
  default (60 * 60 * 1000)%Z (intervals !! interval).

(** [Math.random] is an effect: the draws are read off a stream [rnd],
    [k] counting the draws made so far. *)
Definition Random := nat -> Q.

(** The [while (current <= end)] loop of [generateHistoricalData].
    [None] when the fuel runs out before the loop condition fails. *)
Fixpoint historical_loop (fuel : nat) (rnd : Random) (k : nat) (vol : Q)
    (symbol : string) (current end_ intervalMs : Z) (price : Q)
    (data : list Bar) : option (list Bar * nat) :=
  if (current <=? end_)%Z then
    match fuel with
    | O => None
    | S fuel' =>
      let open := price in
      let change := (rnd k - 0.5) * 2 * vol * price in
      let close := open + change in
      let high := Num.max open close + rnd (k + 1)%nat * Num.abs change * 0.5 in
      let low := Num.min open close - rnd (k + 2)%nat * Num.abs change * 0.5 in
      let volume := rnd (k + 3)%nat * 1000000 + 100000 in
      let bar := mkBar current symbol open high low close volume in
      historical_loop fuel' rnd (k + 4) vol symbol
                      (current + intervalMs)%Z end_ intervalMs close
                      (data ++ [bar])
    end
  else Some (data, k).

(** Iterations the loop needs: one per multiple of [intervalMs] that
    fits between [start] and [end_]. *)
Definition historical_fuel (start end_ intervalMs : Z) : nat :=
  Z.to_nat ((end_ - start) / intervalMs + 1).

(** [start] and [end_] are the two dates in milliseconds. *)
Definition generateHistoricalData (s : FXDataSimulator) (rnd : Random) (k : nat)
    (symbol : string) (start end_ : Z) (interval : string)
    : option (list Bar * nat) :=
  let price :=
    match prices s !! symbol with
    | Some p => (s_bid p + s_ask p) / 2
    | None => 1
    end in
  let intervalMs := getIntervalMilliseconds interval in
  historical_loop (historical_fuel start end_ intervalMs) rnd k (volatility s)
                  symbol start end_ intervalMs price [].

(** The [priceUpdate] event: the new price with [symbol], [mid] and
    [spread] added. *)
Record PriceUpdate := mkUpdate {
  u_symbol : string;
  u_bid : Q;
  u_ask : Q;
  u_timestamp : Z;
  u_volume : Q;
  u_change : Q;
  u_changePercent : Q;
  u_mid : Q;
  u_spread : Q
}.

(** [updatePrice]: one step of the random walk, three draws.  [None]
    when the symbol has no stored price (the call throws on reading its
    [bid]). *)
Definition updatePrice (s : FXDataSimulator) (rnd : Random) (k : nat) (now : Z)
    (symbol : string) : option (FXDataSimulator * PriceUpdate * nat) :=
  match prices s !! symbol with
  | None => None
  | Some currentPrice =>
    let mid := (s_bid currentPrice + s_ask currentPrice) / 2 in
    let change := (rnd k - 0.5) * 2 * volatility s * mid in
    let newMid := mid + change in
    let spread := newMid * (0.0001 + rnd (k + 1)%nat * 0.0003) in
    let newBid := newMid - spread / 2 in
    let newAsk := newMid + spread / 2 in
    let volume := rnd (k + 2)%nat * 1000000 + 100000 in
    Some (mkSimulator (<[symbol := mkSimPrice newBid newAsk]> (prices s))
                      (volatility s),
          mkUpdate symbol newBid newAsk now volume change ((change / mid) * 100)
                   newMid spread,
          (k + 3)%nat)
  end.

(** The [newsEvent] event. *)
Record NewsEvent := mkNews {
  n_symbol : string;
  n_impact : string;
  n_movement : Q;
  n_price : SimPrice
}.

(** [impacts[impact] || impacts['medium']]. *)
Definition impactMultiplier (impact : string) : Q :=
  let impacts : gmap string Q :=
    list_to_map [("low", 0.002); ("medium", 0.005); ("high", 0.01)] in
  default 0.005 (impacts !! impact).

(** [simulateNewsEvent]: two draws, the direction and the volume. *)
Definition simulateNewsEvent (s : FXDataSimulator) (rnd : Random) (k : nat)
    (symbol impact : string) : option (FXDataSimulator * NewsEvent * nat) :=
  let volatilityMultiplier := impactMultiplier impact in
  let direction := if Num.gtb (rnd k) 0.5 then 1 else - (1) in
  match prices s !! symbol with
  | None => None
  | Some currentPrice =>
    let mid := (s_bid currentPrice + s_ask currentPrice) / 2 in
    let movement := mid * volatilityMultiplier * direction in
    let newMid := mid + movement in
    let spread := newMid * 0.0003 in
    let newPrice := mkSimPrice (newMid - spread / 2) (newMid + spread / 2) in
    Some (mkSimulator (<[symbol := newPrice]> (prices s)) (volatility s),
          mkNews symbol impact movement newPrice,
          (k + 2)%nat)
  end.

(** ** TradingEngine *)

(** What the engine reads of the object its price provider returns. *)
Record PriceData := mkPrice {
  bid : Q;
  ask : Q;
  mid : Q
}.

Record Position := mkPosition {
  quantity : Q;
  avg_price : Q;
  total_value : Q;
  pnl : Q
}.

(** A row of [trades]; [algorithm] is always ['combined'] and [status]
    always ['executed']. *)
Record Trade := mkTrade {
  t_symbol : string;
  t_side : Side;
  t_quantity : Q;
  t_price : Q;
  t_value : Q;
  t_date : string
}.

Record Stats := mkStats {
  total_volume : Q;
  total_trades : nat;
  total_pnl : Q;
  active_positions : nat
}.

Record Database := mkDatabase {
  positions : gmap string Position;
  trades : list Trade;
  trading_stats : gmap string Stats
}.

Definition emptyDatabase : Database := mkDatabase ∅ [] ∅.

Record TradingEngine := mkEngine {
  db : Database;
  isActive : bool;
  maxDailyVolume : Q;
  defaultPositionSize : Q;
  currentDailyVolume : Q;
  riskManagement : bool
}.

(** The environment variables the constructor reads; the two numbers
    after [parseFloat] ([None] when it yields no number). *)
Record Env := mkEnv {
  MAX_TRADING_VOLUME : option Q;
  DEFAULT_POSITION_SIZE : option Q;
  RISK_MANAGEMENT : option string
}.

Definition defaultEnv : Env := mkEnv None None None.

(** The collaborators of one evaluation: the price provider, the
    algorithms object and the clock. *)
Record Market := mkMarket {
  getPrice : string -> option PriceData;
  getSymbols : list string;
  signalOf : string -> CombinedSignal;
  today : string
}.

Definition loadCurrentVolume (e : TradingEngine) (today : string) : TradingEngine :=
  let stats := trading_stats (db e) !! today in
  mkEngine (db e) (isActive e) (maxDailyVolume e) (defaultPositionSize e)
           (match stats with Some s => total_volume s | None => 0 end)
           (riskManagement e).

Definition newTradingEngine (env : Env) (database : Database) (today : string)
    : TradingEngine :=
  loadCurrentVolume
    {| db := database;
       isActive := false;
       maxDailyVolume := Num.or_default (MAX_TRADING_VOLUME env) 10000000;
       defaultPositionSize := Num.or_default (DEFAULT_POSITION_SIZE env) 10000;
       currentDailyVolume := 0;
       riskManagement :=
         match RISK_MANAGEMENT env with
         | Some s => bool_decide (s = "true")
         | None => false
         end |}
    today.

Definition set_active (b : bool) (e : TradingEngine) : TradingEngine :=
  mkEngine (db e) b (maxDailyVolume e) (defaultPositionSize e)
           (currentDailyVolume e) (riskManagement e).

Definition start (e : TradingEngine) : TradingEngine :=
  if isActive e then e else set_active true e.

Definition stop (e : TradingEngine) : TradingEngine :=
  if negb (isActive e) then e else set_active false e.

Definition calculatePositionSize (e : TradingEngine) (p : PriceData)
    (confidence : Q) : Q :=
  let size := defaultPositionSize e * confidence in
  let minTradeValue := 1000 in
  let minSize := minTradeValue / mid p in
  Num.max size minSize.

Definition passesRiskChecks (e : TradingEngine) (p : PriceData)
    (sig : CombinedSignal) (existingPosition : option Position) : bool :=
  if Num.geb (currentDailyVolume e) (maxDailyVolume e) then false
  else
    let positionSize := calculatePositionSize e p (c_confidence sig) in
    let tradeValue := positionSize * mid p in
    if Num.gtb tradeValue (maxDailyVolume e * 0.1) then false
    else
      match existingPosition with
      | Some pos =>
        let currentExposure := Num.abs (quantity pos * avg_price pos) in
        let newExposure := currentExposure + tradeValue in
        if Num.gtb newExposure (maxDailyVolume e * 0.2) then false else true
      | None => true
      end.

(** [updatePosition] of the engine, on the [positions] table. *)
Definition updatePosition (d : Database) (symbol : string)
    (qty price : Q) (isClosing : bool) : Database :=
  let row :=
    match positions d !! symbol with
    | None => mkPosition qty price (qty * price) 0
    | Some currentPosition =>
      if isClosing then
        let newQuantity := quantity currentPosition + qty in
        let newAvgPrice :=
          if Num.eqb newQuantity 0 then 0 else avg_price currentPosition in
        let newTotalValue := newQuantity * newAvgPrice in
        mkPosition newQuantity newAvgPrice newTotalValue (pnl currentPosition)
      else
        let oldValue := quantity currentPosition * avg_price currentPosition in
        let newValue := qty * price in
        let newTotalValue := oldValue + newValue in
        let newQuantity := quantity currentPosition + qty in
        let newAvgPrice :=
          if negb (Num.eqb newQuantity 0) then newTotalValue / newQuantity else 0 in
        mkPosition newQuantity newAvgPrice newTotalValue (pnl currentPosition)
    end in
  mkDatabase (<[symbol := row]> (positions d)) (trades d) (trading_stats d).

(** [PositionModel.updatePosition] (database/PositionModel.js): the same
    table, the closing branch subtracting [|quantity|]. *)
Definition PositionModel_updatePosition (d : Database) (symbol : string)
    (qty price : Q) (isClosing : bool) : Database :=
  let row :=
    match positions d !! symbol with
    | None => mkPosition qty price (qty * price) 0
    | Some currentPosition =>
      if isClosing then
        let newQuantity := quantity currentPosition - Num.abs qty in
        let newAvgPrice :=
          if Num.eqb newQuantity 0 then 0 else avg_price currentPosition in
        let newTotalValue := newQuantity * newAvgPrice in
        mkPosition newQuantity newAvgPrice newTotalValue (pnl currentPosition)
      else
        let oldValue := quantity currentPosition * avg_price currentPosition in
        let newValue := qty * price in
        let newTotalValue := oldValue + newValue in
        let newQuantity := quantity currentPosition + qty in
        let newAvgPrice :=
          if negb (Num.eqb newQuantity 0) then newTotalValue / newQuantity else 0 in
        mkPosition newQuantity newAvgPrice newTotalValue (pnl currentPosition)
    end in
  mkDatabase (<[symbol := row]> (positions d)) (trades d) (trading_stats d).

Definition insertTrade (d : Database) (t : Trade) : Database :=
  mkDatabase (positions d) (trades d ++ [t]) (trading_stats d).

Definition set_db (d : Database) (e : TradingEngine) : TradingEngine :=
  mkEngine d (isActive e) (maxDailyVolume e) (defaultPositionSize e)
           (currentDailyVolume e) (riskManagement e).

Definition add_volume (v : Q) (e : TradingEngine) : TradingEngine :=
  mkEngine (db e) (isActive e) (maxDailyVolume e) (defaultPositionSize e)
           (currentDailyVolume e + v) (riskManagement e).

Definition updateTradingStats (e : TradingEngine) (today : string) : TradingEngine :=
  let d := db e in
  let todays := List.filter (fun t => bool_decide (t_date t = today)) (trades d) in
  let totalTrades := length todays in
  let totalPnL :=
    Num.sum_by (fun t => match t_side t with buy => - t_value t | _ => t_value t end)
               todays in
  let activePositions :=
    length (List.filter (fun kp => negb (Num.eqb (quantity kp.2) 0))
                        (map_to_list (positions d))) in
  let row := mkStats (currentDailyVolume e) totalTrades totalPnL activePositions in
  set_db (mkDatabase (positions d) (trades d) (<[today := row]> (trading_stats d))) e.

(** [executeBuy]; [None] is the [null] it returns when the order would
    exceed the daily volume limit. *)
Definition executeBuy (e : TradingEngine) (m : Market) (symbol : string)
    (qty : Q) : TradingEngine * option Trade :=
  match getPrice m symbol with
  | None => (e, None)
  | Some priceData =>
    let price := ask priceData in
    let value := qty * price in
    if Num.gtb (currentDailyVolume e + value) (maxDailyVolume e) then (e, None)
    else
      let trade := mkTrade symbol buy qty price value (today m) in
      let d := insertTrade (db e) trade in
      let d := updatePosition d symbol qty price false in
      let e := add_volume value (set_db d e) in
      (updateTradingStats e (today m), Some trade)
  end.

Definition executeSell (e : TradingEngine) (m : Market) (symbol : string)
    (qty : Q) : TradingEngine * option Trade :=
  match getPrice m symbol with
  | None => (e, None)
  | Some priceData =>
    let price := bid priceData in
    let value := qty * price in
    let trade := mkTrade symbol sell qty price value (today m) in
    let d := insertTrade (db e) trade in
    let d := updatePosition d symbol (- qty) price true in
    let e := add_volume value (set_db d e) in
    (updateTradingStats e (today m), Some trade)
  end.

(** How one call of [evaluateSymbol] ended. *)
Inductive Outcome :=
| NoPrice
| NotConfident
| RiskRejected
| NoOrder
| CalledBuy (result : option Trade)
| CalledSell (result : option Trade).

Definition evaluateSymbol (e : TradingEngine) (m : Market) (symbol : string)
    : TradingEngine * Outcome :=
  match getPrice m symbol with
  | None => (e, NoPrice)
  | Some currentPrice =>
    let sig := signalOf m symbol in
    if Num.ltb (c_confidence sig) 0.6 then (e, NotConfident)
    else
      let existingPosition := positions (db e) !! symbol in
      if riskManagement e && negb (passesRiskChecks e currentPrice sig existingPosition)
      then (e, RiskRejected)
      else
        let positionSize := calculatePositionSize e currentPrice (c_confidence sig) in
        let flat_or (test : Q -> bool) :=
          match existingPosition with
          | None => true
          | Some pos => test (quantity pos)
          end in
        if Side_eqb (c_signal sig) buy && flat_or (fun q => Num.leb q 0) then
          let '(e', r) := executeBuy e m symbol positionSize in (e', CalledBuy r)
        else if Side_eqb (c_signal sig) sell && flat_or (fun q => Num.geb q 0) then
          let '(e', r) := executeSell e m symbol positionSize in (e', CalledSell r)
        else (e, NoOrder)
  end.

(** The [for] loop of [evaluateTradingOpportunities]. *)
Fixpoint evaluateSymbols (e : TradingEngine) (m : Market) (symbols : list string)
    : TradingEngine * list Outcome :=
  match symbols with
  | [] => (e, [])
  | symbol :: rest =>
    let '(e1, o) := evaluateSymbol e m symbol in
    let '(e2, os) := evaluateSymbols e1 m rest in
    (e2, o :: os)
  end.

Definition evaluateTradingOpportunities (e : TradingEngine) (m : Market)
    : TradingEngine * list Outcome :=
  if negb (isActive e) || Num.geb (currentDailyVolume e) (maxDailyVolume e) then
    if Num.geb (currentDailyVolume e) (maxDailyVolume e) then (stop e, [])
    else (e, [])
  else evaluateSymbols e m (getSymbols m).

(** [updatePositionPnL]: marks an open position at [currentPrice]; a
    missing row and a row of quantity 0 are left alone. *)
Definition updatePositionPnL (d : Database) (symbol : string) (currentPrice : Q)
    : Database :=
  match positions d !! symbol with
  | Some position =>
    if negb (Num.eqb (quantity position) 0) then
      let unrealizedPnL := (currentPrice - avg_price position) * quantity position in
      mkDatabase
        (<[symbol := mkPosition (quantity position) (avg_price position)
                                (total_value position) unrealizedPnL]>
           (positions d))
        (trades d) (trading_stats d)
    else d
  | None => d
  end.

(** [onPriceUpdate]: the handler of the simulator's [priceUpdate] event;
    [checkStopOrders] has an empty body. *)
Definition onPriceUpdate (a : TradingAlgorithms) (e : TradingEngine)
    (priceData : PriceUpdate) : TradingAlgorithms * TradingEngine :=
  let a' :=
    addPriceData (u_timestamp priceData) a (u_symbol priceData)
                 (mkQuote (u_bid priceData) (u_ask priceData)
                          (Some (u_volume priceData)))
                 (Some (u_timestamp priceData)) in
  (a', set_db (updatePositionPnL (db e) (u_symbol priceData) (u_mid priceData)) e).

(** [PositionModel.getPosition], [calculatePnL] and [closePosition]. *)
Definition PositionModel_getPosition (d : Database) (symbol : string)
    : option Position :=
  positions d !! symbol.

Definition PositionModel_calculatePnL (d : Database) (symbol : string)
    (currentPrice : Q) : Database * Q :=
  match PositionModel_getPosition d symbol with
  | None => (d, 0)
  | Some position =>
    if Num.eqb (quantity position) 0 then (d, 0)
    else
      let unrealizedPnL := (currentPrice - avg_price position) * quantity position in
      (mkDatabase
         (<[symbol := mkPosition (quantity position) (avg_price position)
                                 (total_value position) unrealizedPnL]>
            (positions d))
         (trades d) (trading_stats d),
       unrealizedPnL)
  end.

Definition PositionModel_closePosition (d : Database) (symbol : string) : Database :=
  mkDatabase (delete symbol (positions d)) (trades d) (trading_stats d).

(** [TradeModel.getTotalVolume]: [SUM(value)] over all trades, or over
    those of [date] when it is given and not empty; the sum over no row
    is [NULL], turned into 0. *)
Definition TradeModel_getTotalVolume (d : Database) (date : option string) : Q :=
  let rows :=
    match date with
    | Some day =>
      if bool_decide (day = "") then trades d
      else List.filter (fun t => bool_decide (t_date t = day)) (trades d)
    | None => trades d
    end in
  Num.or_default
    (match rows with [] => None | _ => Some (Num.sum_by t_value rows) end) 0.

(** ** runBacktest (server/app.js) *)

Record BacktestTrade := mkBtTrade {
  bt_timestamp : Z;
  bt_side : Side;
  bt_quantity : Q;
  bt_price : Q;
  bt_value : Q;
  bt_pnl : option Q;
  bt_signal : CombinedSignal
}.

Record BacktestStats := mkBtStats {
  totalTrades : nat;
  profitableTrades : nat;
  winRate : Q;
  totalPnL : Q;
  startingBalance : Q;
  finalBalance : Q;
  returnPercent : Q
}.

Record BacktestResult := mkBtResult {
  r_symbol : string;
  r_startDate : Z;
  r_endDate : Z;
  r_algorithm : string;
  r_parameters : Options;
  r_trades : list BacktestTrade;
  r_stats : BacktestStats
}.

(** The local variables of the replay loop. *)
Record Replay := mkReplay {
  backtestAlgorithms : TradingAlgorithms;
  bt_trades : list BacktestTrade;
  balance : Q;
  bt_position : Q;
  positionPrice : Q
}.

Section Backtest.

Variable Math_sqrt : Q -> Q.

(** One iteration of the [for] loop over the bars. *)
Definition replay_bar (symbol : string) (parameters : Options)
    (st : Replay) (data : Bar) : Replay :=
  let alg :=
    addPriceData 0%Z (backtestAlgorithms st) symbol
                 (mkQuote (b_close data) (b_close data) (Some (b_volume data)))
                 (Some (b_timestamp data)) in
  let sig := getCombinedSignal Math_sqrt alg symbol parameters in
  let st := mkReplay alg (bt_trades st) (balance st) (bt_position st)
                     (positionPrice st) in
  if Num.gtb (c_confidence sig) 0.6 then
    if Side_eqb (c_signal sig) buy && Num.leb (bt_position st) 0 then
      let qty := Num.floor (balance st * 0.1 / b_close data) in
      if Num.gtb qty 0 then
        mkReplay alg
          (bt_trades st ++
             [mkBtTrade (b_timestamp data) buy qty (b_close data)
                        (qty * b_close data) None sig])
          (balance st - qty * b_close data) qty (b_close data)
      else st
    else if Side_eqb (c_signal sig) sell && Num.gtb (bt_position st) 0 then
      let sellValue := bt_position st * b_close data in
      let pnl := sellValue - bt_position st * positionPrice st in
      mkReplay alg
        (bt_trades st ++
           [mkBtTrade (b_timestamp data) sell (bt_position st) (b_close data)
                      sellValue (Some pnl) sig])
        (balance st + sellValue) 0 0
    else st
  else st.

Definition replay (symbol : string) (parameters : Options)
    (historicalData : list Bar) : Replay :=
  fold_left (replay_bar symbol parameters) historicalData
            (mkReplay newTradingAlgorithms [] 100000 0 0).

(** [t.pnl && t.pnl > 0] and [t.pnl || 0] on a trade. *)
Definition is_profitable (t : BacktestTrade) : bool :=
  match bt_pnl t with
  | Some p => Num.truthy p && Num.gtb p 0
  | None => false
  end.

Definition pnl_or_zero (t : BacktestTrade) : Q :=
  Num.or_default (bt_pnl t) 0.

Definition backtestStats (st : Replay) (lastClose : Q) : BacktestStats :=
  let trades := bt_trades st in
  let totalTrades := length trades in
  let profitableTrades := length (List.filter is_profitable trades) in
  let totalPnL := Num.sum_by pnl_or_zero trades in
  let finalBalance := balance st + bt_position st * lastClose in
  let returnPercent := ((finalBalance - 100000) / 100000) * 100 in
  {| totalTrades := totalTrades;
     profitableTrades := profitableTrades;
     winRate :=
       if (0 <? totalTrades)%nat
       then (Num.of_nat profitableTrades / Num.of_nat totalTrades) * 100
       else 0;
     totalPnL := totalPnL;
     startingBalance := 100000;
     finalBalance := finalBalance;
     returnPercent := returnPercent |}.

(** [None]: the call throws, which it does when no bar was generated
    (reading [close] of a missing last bar). *)
Definition runBacktest (s : FXDataSimulator) (rnd : Random) (k : nat)
    (symbol : string) (startDate endDate : Z) (algorithm : string)
    (parameters : Options) : option BacktestResult :=
  match generateHistoricalData s rnd k symbol startDate endDate "1hour" with
  | None => None
  | Some (historicalData, _) =>
    let st := replay symbol parameters historicalData in
    match last historicalData with
    | None => None
    | Some lastBar =>
      Some (mkBtResult symbol startDate endDate algorithm parameters
                       (bt_trades st) (backtestStats st (b_close lastBar)))
    end
  end.

End Backtest.

(** ** Drivers and scenarios *)

(** What reaches the engine from outside: the two API routes that call
    [start] and [stop], and the timer that calls
    [evaluateTradingOpportunities]. *)
Inductive Event :=
| DoStart
| DoStop
| Cycle (m : Market).

Definition step (e : TradingEngine) (ev : Event) : TradingEngine * list Outcome :=
  match ev with
  | DoStart => (start e, [])
  | DoStop => (stop e, [])
  | Cycle m => evaluateTradingOpportunities e m
  end.

Fixpoint run (e : TradingEngine) (evs : list Event) : TradingEngine * list Outcome :=
  match evs with
  | [] => (e, [])
  | ev :: rest =>
    let '(e1, o1) := step e ev in
    let '(e2, o2) := run e1 rest in
    (e2, o1 ++ o2)
  end.

(** The simulator's timers and the route that injects news. *)
Inductive SimEvent :=
| Tick (symbol : string)
| News (symbol impact : string).

Definition sim_step (s : FXDataSimulator) (rnd : Random) (k : nat) (ev : SimEvent)
    : option (FXDataSimulator * nat) :=
  match ev with
  | Tick symbol =>
    match updatePrice s rnd k 0%Z symbol with
    | Some (s', _, k') => Some (s', k')
    | None => None
    end
  | News symbol impact =>
    match simulateNewsEvent s rnd k symbol impact with
    | Some (s', _, k') => Some (s', k')
    | None => None
    end
  end.

Fixpoint sim_run (s : FXDataSimulator) (rnd : Random) (k : nat)
    (evs : list SimEvent) : option (FXDataSimulator * nat) :=
  match evs with
  | [] => Some (s, k)
  | ev :: rest =>
    match sim_step s rnd k ev with
    | Some (s', k') => sim_run s' rnd k' rest
    | None => None
    end
  end.

(** The point [addPriceData] appends for a quote. *)
Definition point_of (now : Z) (p : Quote) (ts : option Z) : HistoryPoint :=
  let mid := (q_bid p + q_ask p) / 2 in
  {| timestamp := default now ts;
     price := mid;
     high := mid + (q_ask p - q_bid p) / 2;
     low := mid - (q_ask p - q_bid p) / 2;
     volume := Num.or_default (q_volume p) 0 |}.

(** A stream of quotes for one symbol, all stamped by the caller. *)
Definition feed (a : TradingAlgorithms) (symbol : string)
    (quotes : list (Quote * Z)) : TradingAlgorithms :=
  fold_left (fun a qt => addPriceData 0%Z a symbol qt.1 (Some qt.2)) quotes a.

Module Scenario.

Definition day : string := "2024-01-02".

(** A consensus in which only the RSI strategy votes. *)
Definition consensus (s : Side) (c : Q) : CombinedSignal :=
  combineSignals (mkSignal hold 0 "insufficient_data" ExNone)
                 (mkSignal s c (match s with buy => "oversold" | _ => "overbought" end)
                           ExRSINull)
                 (mkSignal hold 0 "insufficient_data" ExBBNull).

(** One symbol quoted at [b]/[a], with consensus [s] at confidence [c]. *)
Definition market (symbol : string) (s : Side) (c b a : Q) : Market :=
  {| getPrice := fun x => if bool_decide (x = symbol)
                          then Some (mkPrice b a ((b + a) / 2)) else None;
     getSymbols := [symbol];
     signalOf := fun _ => consensus s c;
     today := day |}.

(** A started engine under the default configuration, on an empty
    store. *)
Definition fresh : TradingEngine :=
  start (newTradingEngine defaultEnv emptyDatabase day).

(** The same after a restart late in a day whose statistics row
    records [v] of volume. *)
Definition late (v : Q) : TradingEngine :=
  start (newTradingEngine defaultEnv
           (mkDatabase ∅ [] {[ day := mkStats v 0 0 0 ]}) day).

(** Scenario S4: long 10,000 at 1.0800. *)
Definition long_10000 : Database :=
  mkDatabase {[ "EURUSD" := mkPosition 10000 1.08 10800 0 ]} [] ∅.

Definition short_10000 : Database :=
  mkDatabase {[ "EURUSD" := mkPosition (-10000) 1.08 (-10800) 0 ]} [] ∅.

(** A stand-in for [Math.sqrt] where a scenario needs one: the
    square root to nine decimals, rounded down. *)
Definition sqrt9 (x : Q) : Q :=
  inject_Z (Z.sqrt (Qfloor (x * 1000000000000000000))) / 1000000000.

(** Three hourly bars, and a backtest whose RSI looks one bar back. *)
Definition first_hour : Z := 1704067200000.
Definition last_hour : Z := (first_hour + 2 * 3600000)%Z.

Definition quick_rsi : Options :=
  mkOptions None None (Some 1%nat) None None None None.

Definition falling : list Q := [15; 14; 13; 12; 11; 10; 9; 8; 7; 6; 5; 4; 3; 2; 1].

Definition with_history (l : list Q) : TradingAlgorithms :=
  {| priceHistory := {[ "EURUSD" := map (fun p => mkPoint 0 p p p 0) l ]};
     maxHistory := 200 |}.

End Scenario.

(** ** The specification's vocabulary *)

(** The quantity held in a symbol; no row counts as flat. *)
Definition position_quantity (pos : option Position) : Q :=
  match pos with
  | Some row => quantity row
  | None => 0
  end.

(** Section 4.9: BUY is allowed when [quantity <= 0], SELL when
    [quantity >= 0]. *)
Definition compatible (s : Side) (pos : option Position) : Prop :=
  (s = buy /\ position_quantity pos <= 0)
  \/ (s = sell /\ 0 <= position_quantity pos).

(** Section 4.9: the signal is not HOLD, its confidence is at least 0.6
    and its direction is compatible with the position. *)
Definition should_attempt (sig : CombinedSignal) (pos : option Position) : Prop :=
  c_signal sig <> hold /\ 0.6 <= c_confidence sig /\ compatible (c_signal sig) pos.

(** Sum and arithmetic mean of a series, oldest first. *)
Definition sum (l : list Q) : Q := fold_left Qplus l 0.

Definition mean (l : list Q) : Q := sum l / Num.of_nat (length l).

(** Section 4.5, [SMA(p, n)]: the mean of the last [n] values. *)
Definition SMA (p : list Q) (n : nat) : Q := mean (slice_last n p).

(** Section 4.5: the pairwise differences [d_i = p_i - p_(i-1)]. *)
Fixpoint diffs (p : list Q) : list Q :=
  match p with
  | [] => []
  | a :: rest =>
    match rest with
    | [] => []
    | b :: _ => (b - a) :: diffs rest
    end
  end.

(** Section 4.5, [RSI(p, n)], in the specification's words. *)
Definition RSI_reference (p : list Q) (n : nat) : option Q :=
  if (length p <? n + 1)%nat then None
  else
    let d := diffs (slice_last (n + 1) p) in
    let avg_gain := mean (map (fun x => Qmax x 0) d) in
    let avg_loss := mean (map (fun x => Qmax (- x) 0) d) in
    if Qeq_dec avg_loss 0 then Some 100
    else Some (100 - 100 / (1 + avg_gain / avg_loss)).

(** Equality of possibly missing numbers. *)
Definition same_number (x y : option Q) : Prop :=
  match x, y with
  | Some a, Some b => a == b
  | None, None => True
  | _, _ => False
  end.

(** Section 4.6, consensus: the confidences of the signals of side [s]
    among those with positive confidence. *)
Fixpoint votes (s : Side) (signals : list Signal) : list Q :=
  match signals with
  | [] => []
  | x :: rest =>
    if Qlt_le_dec 0 (confidence x) then
      if Side_eqb (signal x) s then confidence x :: votes s rest
      else votes s rest
    else votes s rest
  end.

(** The whole history kept for a symbol, and its prices. *)
Definition history_of (a : TradingAlgorithms) (symbol : string) : list HistoryPoint :=
  getPriceHistory a symbol None.

Definition prices_of (a : TradingAlgorithms) (symbol : string) : list Q :=
  map price (history_of a symbol).

(** What the loop of [calculateRSI] pushes for a difference [d]. *)
Definition gain_of (d : Q) : Q := if Num.gtb d 0 then d else 0.
Definition loss_of (d : Q) : Q := if Num.gtb d 0 then 0 else Num.abs d.

(** [executeBuy] or [executeSell] was called. *)
Definition is_order (o : Outcome) : Prop :=
  match o with
  | CalledBuy _ | CalledSell _ => True
  | _ => False
  end.

(** The trade an outcome reports as executed, if any. *)
Definition executed (o : Outcome) : option Trade :=
  match o with
  | CalledBuy r | CalledSell r => r
  | _ => None
  end.

(** A two-sided quote: positive bid below the ask. *)
Definition good_quote (p : SimPrice) : Prop := 0 < s_bid p /\ s_bid p < s_ask p.

(** Every draw of [Math.random] is in [0, 1). *)
Definition unit_draws (rnd : Random) : Prop := forall j, 0 <= rnd j /\ rnd j < 1.

(** Consecutive bars: each opens where the one before closed, one
    interval later. *)
Fixpoint chained (ms : Z) (bars : list Bar) : Prop :=
  match bars with
  | [] => True
  | b :: rest =>
    match rest with
    | [] => True
    | b' :: _ =>
      b_open b' = b_close b /\ b_timestamp b' = (b_timestamp b + ms)%Z
      /\ chained ms rest
    end
  end.

(** The BUY and the SELL trades of a backtest. *)
Definition bt_buys (l : list BacktestTrade) : nat :=
  length (List.filter (fun t => Side_eqb (bt_side t) buy) l).

Definition bt_sells (l : list BacktestTrade) : nat :=
  length (List.filter (fun t => Side_eqb (bt_side t) sell) l).

(** A market whose quotes are positive. *)
Definition positive_market (m : Market) : Prop :=
  forall symbol p, getPrice m symbol = Some p ->
    0 < mid p /\ 0 <= bid p /\ 0 <= ask p.

Definition positive_events (evs : list Event) : Prop :=
  Forall (fun ev => match ev with Cycle m => positive_market m | _ => True end) evs.

Definition is_executed_sell (o : Outcome) : Prop :=
  match o with
  | CalledSell (Some _) => True
  | _ => False
  end.

(** The books of a replay: no short position; cash plus the position
    at cost is the starting 100,000 plus the PnL of the trades; BUYs and
    SELLs alternate, starting with a BUY; only SELLs carry a PnL. *)
Definition sound_replay (st : Replay) : Prop :=
  0 <= bt_position st
  /\ balance st + bt_position st * positionPrice st
     == 100000 + sum (map pnl_or_zero (bt_trades st))
  /\ ((bt_position st == 0 /\ bt_buys (bt_trades st) = bt_sells (bt_trades st))
      \/ (0 < bt_position st
          /\ bt_buys (bt_trades st) = S (bt_sells (bt_trades st))))
  /\ Forall (fun t => (bt_side t = buy /\ bt_pnl t = None)
                      \/ (bt_side t = sell /\ exists p, bt_pnl t = Some p))
            (bt_trades st).

(** The simulator keeps its prices, and looks up intervals and impacts,
    in plain objects.  A key that names a member every object inherits
    from [Object.prototype] finds that member instead of [undefined];
    what the code computes from it is not a number and is outside this
    model, so the statements about arbitrary keys exclude these names. *)
Definition inherited_names : list string :=
  ["constructor"; "__defineGetter__"; "__defineSetter__"; "hasOwnProperty";
   "__lookupGetter__"; "__lookupSetter__"; "isPrototypeOf";
   "propertyIsEnumerable"; "toString"; "valueOf"; "__proto__";
   "toLocaleString"].

Definition plain_key (key : string) : Prop := ~ In key inherited_names.

(** The symbols the simulator's timers run on. *)
Definition simulator_symbols : list string := map fst basePrices.

(** An event on one of the simulator's symbols, with a plain impact. *)
Definition known_event (ev : SimEvent) : Prop :=
  match ev with
  | Tick symbol => In symbol simulator_symbols
  | News symbol impact => In symbol simulator_symbols /\ plain_key impact
  end.

(** * Properties *)

(** ** Comparisons *)

Lemma gtb_true (a b : Q) : Num.gtb a b = true <-> b < a.
Proof.
  unfold Num.gtb, Num.ltb. rewrite negb_true_iff.
  split; intros H.
  - apply Qnot_le_lt. intro Hle. apply Qle_bool_iff in Hle. congruence.
  - destruct (Qle_bool a b) eqn:E; [|reflexivity].
    apply Qle_bool_iff in E. lra.
Qed.

Lemma gtb_false (a b : Q) : Num.gtb a b = false <-> a <= b.
Proof.
  unfold Num.gtb, Num.ltb. rewrite negb_false_iff. apply Qle_bool_iff.
Qed.

Lemma ltb_true (a b : Q) : Num.ltb a b = true <-> a < b.
Proof. apply (gtb_true b a). Qed.

Lemma ltb_false (a b : Q) : Num.ltb a b = false <-> b <= a.
Proof. apply (gtb_false b a). Qed.

Lemma geb_true (a b : Q) : Num.geb a b = true <-> b <= a.
Proof. apply Qle_bool_iff. Qed.

Lemma leb_true (a b : Q) : Num.leb a b = true <-> a <= b.
Proof. apply Qle_bool_iff. Qed.

Lemma geb_false (a b : Q) : Num.geb a b = false <-> a < b.
Proof.
  unfold Num.geb. split; intros H.
  - apply Qnot_le_lt. intro Hle. apply Qle_bool_iff in Hle. congruence.
  - destruct (Qle_bool b a) eqn:E; [|reflexivity].
    apply Qle_bool_iff in E. lra.
Qed.

Lemma leb_false (a b : Q) : Num.leb a b = false <-> b < a.
Proof. apply (geb_false b a). Qed.

Lemma eqb_true (a b : Q) : Num.eqb a b = true <-> a == b.
Proof. apply Qeq_bool_iff. Qed.

Lemma eqb_false (a b : Q) : Num.eqb a b = false <-> ~ a == b.
Proof.
  unfold Num.eqb. split; intros H.
  - intro E. apply Qeq_bool_iff in E. congruence.
  - destruct (Qeq_bool a b) eqn:E; [|reflexivity].
    apply Qeq_bool_iff in E. contradiction.
Qed.

Lemma min_spec (a b : Q) :
  (a <= b /\ Num.min a b = a) \/ (b < a /\ Num.min a b = b).
Proof.
  unfold Num.min. destruct (Qle_bool a b) eqn:E.
  - left. split; [now apply Qle_bool_iff|reflexivity].
  - right. split; [now apply (geb_false b a)|reflexivity].
Qed.

Lemma max_spec (a b : Q) :
  (a <= b /\ Num.max a b = b) \/ (b < a /\ Num.max a b = a).
Proof.
  unfold Num.max. destruct (Qle_bool a b) eqn:E.
  - left. split; [now apply Qle_bool_iff|reflexivity].
  - right. split; [now apply (geb_false b a)|reflexivity].
Qed.

Create Rewrite HintDb cmp.
#[global] Hint Rewrite gtb_true gtb_false ltb_true ltb_false geb_true geb_false
  leb_true leb_false eqb_true eqb_false : cmp.

(** ** The position table *)

Lemma updatePosition_row (d : Database) (symbol : string) (q p : Q) (c : bool) :
  exists row, positions (updatePosition d symbol q p c) !! symbol = Some row.
Proof. unfold updatePosition. cbn. rewrite lookup_insert_eq. eauto. Qed.

Lemma updatePosition_closing (d : Database) (symbol : string) (pos : Position)
    (q p : Q) :
  positions d !! symbol = Some pos ->
  positions (updatePosition d symbol q p true) !! symbol =
    Some (mkPosition (quantity pos + q)
            (if Num.eqb (quantity pos + q) 0 then 0 else avg_price pos)
            ((quantity pos + q) *
               (if Num.eqb (quantity pos + q) 0 then 0 else avg_price pos))
            (pnl pos)).
Proof. intros H. unfold updatePosition. rewrite H. cbn. now rewrite lookup_insert_eq. Qed.

Lemma updatePosition_adding (d : Database) (symbol : string) (pos : Position)
    (q p : Q) :
  positions d !! symbol = Some pos ->
  positions (updatePosition d symbol q p false) !! symbol =
    Some (mkPosition (quantity pos + q)
            (if negb (Num.eqb (quantity pos + q) 0)
             then (quantity pos * avg_price pos + q * p) / (quantity pos + q)
             else 0)
            (quantity pos * avg_price pos + q * p)
            (pnl pos)).
Proof. intros H. unfold updatePosition. rewrite H. cbn. now rewrite lookup_insert_eq. Qed.

Lemma updatePosition_other (d : Database) (symbol other : string) (q p : Q) (c : bool) :
  symbol <> other ->
  positions (updatePosition d symbol q p c) !! other = positions d !! other.
Proof. intros H. unfold updatePosition. cbn. now rewrite lookup_insert_ne. Qed.

(** C3, as the code has it.  A trade on the opposite side of an existing
    position and larger than it leaves the residual quantity
    [q0 - quantity] (for a SELL on a long) or [q0 + quantity] (for a BUY
    on a short), of the opposite sign, and does not touch the row's
    [pnl]: the position update computes no realized PnL. *)
Theorem updatePosition_flip (d : Database) (symbol : string) (pos : Position)
    (q p : Q) :
  positions d !! symbol = Some pos ->
  0 < q ->
  (0 < quantity pos -> quantity pos < q ->
     exists row,
       positions (updatePosition d symbol (- q) p true) !! symbol = Some row
       /\ quantity row == quantity pos - q /\ quantity row < 0
       /\ pnl row = pnl pos)
  /\ (quantity pos < 0 -> - quantity pos < q ->
     exists row,
       positions (updatePosition d symbol q p false) !! symbol = Some row
       /\ quantity row == quantity pos + q /\ 0 < quantity row
       /\ pnl row = pnl pos).
Proof.
  intros Hpos Hq. split; intros H0 Hlt.
  - eexists. split; [apply (updatePosition_closing _ _ _ _ _ Hpos)|].
    cbn. repeat split; lra.
  - eexists. split; [apply (updatePosition_adding _ _ _ _ _ Hpos)|].
    cbn. repeat split; lra.
Qed.

(** Scenario S4 under [updatePosition_flip]: the residual is -5,000. *)
Lemma updatePosition_flip_S4 :
  exists row,
    positions (updatePosition Scenario.long_10000 "EURUSD" (- 15000) 1.09 true)
      !! "EURUSD" = Some row
    /\ quantity row == 10000 - 15000 /\ quantity row < 0 /\ pnl row = 0.
Proof.
  refine (proj1 (updatePosition_flip Scenario.long_10000 "EURUSD"
                   (mkPosition 10000 1.08 10800 0) 15000 1.09 _ _) _ _).
  - reflexivity.
  - reflexivity.
  - reflexivity.
  - reflexivity.
Defined.

(** C3 as the specification states it fails on scenario S4: after the
    SELL of 15,000 at 1.0900 the row is -5,000 at 1.0800, not at 1.0900,
    and no realized PnL of 100 is recorded: the row's [pnl] is still 0
    and the day's [total_pnl] is the cash flow of the sale. *)
Lemma flip_S4_keeps_entry_price :
  let e := set_db Scenario.long_10000 Scenario.fresh in
  let m := Scenario.market "EURUSD" sell 1 1.09 1.0902 in
  let '(e', sold) := executeSell e m "EURUSD" 15000 in
  sold = Some (mkTrade "EURUSD" sell 15000 1.09 (15000 * 1.09) Scenario.day)
  /\ exists row stats,
       positions (db e') !! "EURUSD" = Some row
       /\ trading_stats (db e') !! Scenario.day = Some stats
       /\ quantity row == - 5000
       /\ avg_price row == 1.08 /\ ~ avg_price row == 1.09
       /\ pnl row == 0 /\ ~ pnl row == 100
       /\ total_pnl stats == 16350 /\ ~ total_pnl stats == 100.
Proof.
  vm_compute. split; [reflexivity|].
  do 2 eexists. repeat split; try reflexivity; discriminate.
Qed.

(** What [updatePosition] does keep on an existing row: a zero quantity
    is stored with a zero average price. *)
Lemma updatePosition_zero_quantity (d : Database) (symbol : string)
    (pos row : Position) (q p : Q) (c : bool) :
  positions d !! symbol = Some pos ->
  positions (updatePosition d symbol q p c) !! symbol = Some row ->
  quantity row == 0 -> avg_price row == 0.
Proof.
  intros Hpos Hrow Hz. destruct c.
  - rewrite (updatePosition_closing _ _ _ _ _ Hpos) in Hrow.
    injection Hrow as <-. cbn in *.
    apply eqb_true in Hz. now rewrite Hz.
  - rewrite (updatePosition_adding _ _ _ _ _ Hpos) in Hrow.
    injection Hrow as <-. cbn in *.
    apply eqb_true in Hz. now rewrite Hz.
Qed.

(** C4 fails on the code.  Two runs of the engine under the default
    configuration, each violating the ledger invariant:
    - a SELL of 10,000 at 1.0800 from flat, then a BUY of 9,990 at 1.0900
      that partially covers the short, leaves -10 units at an average
      price of -8.91;
    - a BUY of 10,000, a SELL of 10,000 that closes it, and one more
      SELL of 10,000 leave -10,000 units at an average price of 0.
    [PositionModel.updatePosition] computes the same rows. *)
Theorem updatePosition_breaks_ledger_invariant :
  (let '(e, outs) :=
     run Scenario.fresh
       [Cycle (Scenario.market "EURUSD" sell 1 1.08 1.0802);
        Cycle (Scenario.market "EURUSD" buy 0.999 1.0898 1.09)] in
   (exists t1 t2, outs = [CalledSell (Some t1); CalledBuy (Some t2)])
   /\ exists row, positions (db e) !! "EURUSD" = Some row
        /\ quantity row == - 10 /\ avg_price row == - 8.91
        /\ avg_price row < 0)
  /\ (let '(e, outs) :=
        run Scenario.fresh
          [Cycle (Scenario.market "EURUSD" buy 1 1.0848 1.0850);
           Cycle (Scenario.market "EURUSD" sell 1 1.0849 1.0851);
           Cycle (Scenario.market "EURUSD" sell 1 1.0849 1.0851)] in
      (exists t1 t2 t3,
         outs = [CalledBuy (Some t1); CalledSell (Some t2); CalledSell (Some t3)])
      /\ exists row, positions (db e) !! "EURUSD" = Some row
           /\ quantity row == - 10000 /\ ~ quantity row == 0
           /\ avg_price row == 0)
  /\ (exists row,
        positions
          (PositionModel_updatePosition Scenario.short_10000 "EURUSD" 9990 1.09 false)
          !! "EURUSD" = Some row
        /\ quantity row == - 10 /\ avg_price row < 0).
Proof.
  split; [|split].
  - vm_compute. split; [do 2 eexists; reflexivity|].
    eexists. repeat split; reflexivity.
  - vm_compute. split; [do 3 eexists; reflexivity|].
    eexists. split; [reflexivity|]. repeat split; try reflexivity. discriminate.
  - vm_compute. eexists. repeat split; reflexivity.
Qed.

(** ** The daily volume limit *)

Lemma executeBuy_rejects (e : TradingEngine) (m : Market) (symbol : string)
    (q : Q) (p : PriceData) :
  getPrice m symbol = Some p ->
  maxDailyVolume e < currentDailyVolume e + q * ask p ->
  executeBuy e m symbol q = (e, None).
Proof.
  intros Hp Hgt. unfold executeBuy. rewrite Hp.
  apply gtb_true in Hgt. now rewrite Hgt.
Qed.

Lemma updateTradingStats_engine (e : TradingEngine) (day : string) :
  currentDailyVolume (updateTradingStats e day) = currentDailyVolume e
  /\ maxDailyVolume (updateTradingStats e day) = maxDailyVolume e
  /\ isActive (updateTradingStats e day) = isActive e
  /\ riskManagement (updateTradingStats e day) = riskManagement e
  /\ defaultPositionSize (updateTradingStats e day) = defaultPositionSize e
  /\ positions (db (updateTradingStats e day)) = positions (db e)
  /\ trades (db (updateTradingStats e day)) = trades (db e).
Proof. repeat split. Qed.

(** A BUY is entered only within the limit, and then the limit still
    holds afterwards. *)
Lemma executeBuy_within_limit (e e' : TradingEngine) (m : Market)
    (symbol : string) (q : Q) (t : Trade) :
  executeBuy e m symbol q = (e', Some t) ->
  currentDailyVolume e' = currentDailyVolume e + t_value t
  /\ currentDailyVolume e' <= maxDailyVolume e'.
Proof.
  unfold executeBuy. destruct (getPrice m symbol) as [p|]; [|discriminate].
  destruct (Num.gtb _ _) eqn:E; [discriminate|].
  intros H. injection H as <- <-. cbn. split; [reflexivity|].
  now apply gtb_false in E.
Qed.

(** A SELL is entered whatever the day's volume. *)
Lemma executeSell_unchecked (e : TradingEngine) (m : Market) (symbol : string)
    (q : Q) (p : PriceData) :
  getPrice m symbol = Some p ->
  exists e',
    executeSell e m symbol q =
      (e', Some (mkTrade symbol sell q (bid p) (q * bid p) (today m)))
    /\ currentDailyVolume e' = currentDailyVolume e + q * bid p
    /\ maxDailyVolume e' = maxDailyVolume e
    /\ isActive e' = isActive e.
Proof.
  intros Hp. unfold executeSell. rewrite Hp. eexists. split; [reflexivity|].
  repeat split.
Qed.

(** C2 fails on the code.  Under the default configuration, with
    9,995,000 already traded in the day, a SELL of 10,000 at 1.0849 is
    executed and takes the day's volume to 10,005,849, past the limit of
    10,000,000; the BUY of the same size is refused. *)
Theorem executeSell_exceeds_daily_cap :
  let e := Scenario.late 9995000 in
  (let '(e', outs) :=
     evaluateTradingOpportunities e (Scenario.market "EURUSD" sell 1 1.0849 1.0851) in
   outs = [CalledSell (Some (mkTrade "EURUSD" sell 10000 1.0849 (10000 * 1.0849)
                                     Scenario.day))]
   /\ maxDailyVolume e' == 10000000
   /\ currentDailyVolume e' == 10005849
   /\ maxDailyVolume e' < currentDailyVolume e')
  /\ (evaluateTradingOpportunities e (Scenario.market "EURUSD" buy 1 1.0849 1.0851)
      = (e, [CalledBuy None])).
Proof.
  split.
  - vm_compute. repeat split; reflexivity.
  - vm_compute. reflexivity.
Qed.

Lemma stop_fields (e : TradingEngine) :
  db (stop e) = db e
  /\ currentDailyVolume (stop e) = currentDailyVolume e
  /\ maxDailyVolume (stop e) = maxDailyVolume e
  /\ isActive (stop e) = false.
Proof. unfold stop. destruct (isActive e) eqn:E; cbn; auto. Qed.

Lemma start_fields (e : TradingEngine) :
  db (start e) = db e
  /\ currentDailyVolume (start e) = currentDailyVolume e
  /\ maxDailyVolume (start e) = maxDailyVolume e
  /\ isActive (start e) = true.
Proof. unfold start. destruct (isActive e) eqn:E; cbn; auto. Qed.

Lemma cycle_at_limit (e : TradingEngine) (m : Market) :
  maxDailyVolume e <= currentDailyVolume e ->
  evaluateTradingOpportunities e m = (stop e, []).
Proof.
  intros H. apply geb_true in H. unfold evaluateTradingOpportunities.
  rewrite H. now rewrite orb_true_r.
Qed.

Lemma step_at_limit (e : TradingEngine) (ev : Event) :
  maxDailyVolume e <= currentDailyVolume e ->
  (step e ev).2 = []
  /\ db (step e ev).1 = db e
  /\ currentDailyVolume (step e ev).1 = currentDailyVolume e
  /\ maxDailyVolume (step e ev).1 = maxDailyVolume e.
Proof.
  intros H. destruct ev as [| |m]; cbn.
  - pose proof (start_fields e). intuition.
  - pose proof (stop_fields e). intuition.
  - rewrite (cycle_at_limit _ _ H). cbn. pose proof (stop_fields e). intuition.
Qed.

Lemma run_at_limit (evs : list Event) (e : TradingEngine) :
  maxDailyVolume e <= currentDailyVolume e ->
  (run e evs).2 = []
  /\ db (run e evs).1 = db e
  /\ currentDailyVolume (run e evs).1 = currentDailyVolume e.
Proof.
  revert e. induction evs as [|ev rest IH]; intros e H; [now cbn|].
  cbn. destruct (step_at_limit e ev H) as (Ho & Hd & Hc & Hm).
  destruct (step e ev) as [e1 o1]. cbn in *.
  assert (H1 : maxDailyVolume e1 <= currentDailyVolume e1) by (rewrite Hc, Hm; exact H).
  destruct (IH e1 H1) as (Ho2 & Hd2 & Hc2).
  destruct (run e1 rest) as [e2 o2]. cbn in *.
  subst. repeat split; congruence.
Qed.

(** C1, as the code has it.  Under the default configuration the limit
    is 10,000,000.  A BUY whose value added to the day's volume exceeds
    the limit is refused: [executeBuy] returns [null] and the engine is
    exactly as before, still active if it was.  A cycle that starts with
    the day's volume at or above the limit stops the engine, and from
    such a state no sequence of cycles, [start] and [stop] calls any
    order: the store and the day's volume stay as they are. *)
Theorem daily_limit_gate (e : TradingEngine) (m : Market) (symbol : string)
    (q : Q) (p : PriceData) (evs : list Event) :
  getPrice m symbol = Some p ->
  (forall d day, maxDailyVolume (newTradingEngine defaultEnv d day) = 10000000)
  /\ (maxDailyVolume e < currentDailyVolume e + q * ask p ->
      executeBuy e m symbol q = (e, None))
  /\ (maxDailyVolume e <= currentDailyVolume e ->
      evaluateTradingOpportunities e m = (stop e, [])
      /\ isActive (stop e) = false
      /\ (run e evs).2 = []
      /\ db (run e evs).1 = db e
      /\ currentDailyVolume (run e evs).1 = currentDailyVolume e).
Proof.
  intros Hp. split; [reflexivity|]. split.
  - now apply executeBuy_rejects.
  - intros H. split; [now apply cycle_at_limit|].
    split; [apply stop_fields|]. now apply run_at_limit.
Qed.

(** [daily_limit_gate] at work: a BUY refused with 9,995,000 traded in
    the day, and an engine left past the limit by a SELL, on which two
    further cycles order nothing. *)
Lemma daily_limit_gate_witness :
  let e := Scenario.late 9995000 in
  let m := Scenario.market "EURUSD" buy 1 1.0849 1.0851 in
  executeBuy e m "EURUSD" 10000 = (e, None)
  /\ let e' := (evaluateTradingOpportunities e
                  (Scenario.market "EURUSD" sell 1 1.0849 1.0851)).1 in
     (run e' [Cycle m; DoStart; Cycle m]).2 = [].
Proof.
  split.
  - refine (proj1 (proj2 (daily_limit_gate (Scenario.late 9995000)
              (Scenario.market "EURUSD" buy 1 1.0849 1.0851) "EURUSD" 10000
              (mkPrice 1.0849 1.0851 ((1.0849 + 1.0851) / 2)) [] _)) _);
      reflexivity.
  - refine (proj1 (proj2 (proj2 (proj2 (proj2 (daily_limit_gate _
              (Scenario.market "EURUSD" buy 1 1.0849 1.0851) "EURUSD" 10000
              (mkPrice 1.0849 1.0851 ((1.0849 + 1.0851) / 2))
              [Cycle (Scenario.market "EURUSD" buy 1 1.0849 1.0851); DoStart;
               Cycle (Scenario.market "EURUSD" buy 1 1.0849 1.0851)] _)) _))));
      vm_compute; congruence.
Defined.

(** C1 as the specification states it fails.  With 9,992,000 traded in
    the day, a BUY of 10,000 at 1.0851 is refused for the limit; the
    engine is unchanged and still active, and in the next cycle a BUY of
    6,000 at 1.0851 is executed, as is a SELL. *)
Lemma rejected_buy_does_not_halt :
  let e := Scenario.late 9992000 in
  let '(e1, outs1) :=
    evaluateTradingOpportunities e (Scenario.market "EURUSD" buy 1 1.0849 1.0851) in
  outs1 = [CalledBuy None]
  /\ e1 = e /\ isActive e1 = true
  /\ (evaluateTradingOpportunities e1
        (Scenario.market "EURUSD" buy 0.6 1.0849 1.0851)).2
     = [CalledBuy (Some (mkTrade "EURUSD" buy (10000 * 0.6) 1.0851
                                 (10000 * 0.6 * 1.0851) Scenario.day))]
  /\ (evaluateTradingOpportunities e1
        (Scenario.market "EURUSD" sell 1 1.0849 1.0851)).2
     = [CalledSell (Some (mkTrade "EURUSD" sell 10000 1.0849
                                  (10000 * 1.0849) Scenario.day))].
Proof. vm_compute. repeat split; reflexivity. Qed.

(** ** evaluateSymbol *)

Lemma flat_or_buy (pos : option Position) :
  match pos with
  | None => true
  | Some row => Num.leb (quantity row) 0
  end = true <-> position_quantity pos <= 0.
Proof.
  destruct pos as [row|]; cbn.
  - apply leb_true.
  - split; [lra|reflexivity].
Qed.

Lemma flat_or_sell (pos : option Position) :
  match pos with
  | None => true
  | Some row => Num.geb (quantity row) 0
  end = true <-> 0 <= position_quantity pos.
Proof.
  destruct pos as [row|]; cbn.
  - apply geb_true.
  - split; [lra|reflexivity].
Qed.

Lemma Side_eqb_eq (a b : Side) : Side_eqb a b = true <-> a = b.
Proof. destruct a, b; cbn; split; congruence. Qed.

(** The body of [evaluateSymbol] once a price is there, by cases on its
    tests. *)
Lemma evaluateSymbol_cases (e : TradingEngine) (m : Market) (symbol : string)
    (p : PriceData) :
  getPrice m symbol = Some p ->
  let sig := signalOf m symbol in
  let pos := positions (db e) !! symbol in
  let size := calculatePositionSize e p (c_confidence sig) in
  (c_confidence sig < 0.6 /\ evaluateSymbol e m symbol = (e, NotConfident))
  \/ (0.6 <= c_confidence sig /\ riskManagement e = true
      /\ passesRiskChecks e p sig pos = false
      /\ evaluateSymbol e m symbol = (e, RiskRejected))
  \/ (0.6 <= c_confidence sig
      /\ (riskManagement e = false \/ passesRiskChecks e p sig pos = true)
      /\ ((c_signal sig = buy /\ position_quantity pos <= 0
           /\ evaluateSymbol e m symbol =
                ((executeBuy e m symbol size).1,
                 CalledBuy (executeBuy e m symbol size).2))
          \/ (c_signal sig = sell /\ 0 <= position_quantity pos
              /\ evaluateSymbol e m symbol =
                   ((executeSell e m symbol size).1,
                    CalledSell (executeSell e m symbol size).2))
          \/ (~ compatible (c_signal sig) pos
              /\ evaluateSymbol e m symbol = (e, NoOrder)))).
Proof.
  intros Hp sig pos size. unfold evaluateSymbol. rewrite Hp.
  fold sig. fold pos. fold size.
  destruct (Num.ltb (c_confidence sig) 0.6) eqn:Hc.
  { left. apply ltb_true in Hc. auto. }
  apply ltb_false in Hc. right.
  destruct (riskManagement e && negb (passesRiskChecks e p sig pos)) eqn:Hg.
  { left. apply andb_true_iff in Hg as [Hr Hn]. apply negb_true_iff in Hn. auto. }
  right. split; [exact Hc|]. split.
  { apply andb_false_iff in Hg as [Hr|Hn]; [now left|right].
    now apply negb_false_iff in Hn. }
  destruct (Side_eqb (c_signal sig) buy && _) eqn:Hb.
  { left. apply andb_true_iff in Hb as [Hs Hq].
    apply Side_eqb_eq in Hs. apply flat_or_buy in Hq.
    repeat split; try assumption.
    now destruct (executeBuy e m symbol size). }
  destruct (Side_eqb (c_signal sig) sell && _) eqn:Hs.
  { right. left. apply andb_true_iff in Hs as [Hs Hq].
    apply Side_eqb_eq in Hs. apply flat_or_sell in Hq.
    repeat split; try assumption.
    now destruct (executeSell e m symbol size). }
  right. right. split; [|reflexivity].
  intros [[Hsb Hq]|[Hss Hq]].
  - apply Side_eqb_eq in Hsb. apply flat_or_buy in Hq.
    rewrite Hsb, Hq in Hb. discriminate.
  - apply Side_eqb_eq in Hss. apply flat_or_sell in Hq.
    rewrite Hss, Hq in Hs. discriminate.
Qed.

(** C9.  With a current price [p] for the symbol, [evaluateSymbol]
    attempts a trade exactly when the consensus signal is not HOLD, its
    confidence is at least 0.6 and its direction is compatible with the
    position held: otherwise it calls neither [executeBuy] nor
    [executeSell] and leaves the engine as it is.  When the three hold,
    the order is sized and one of four things happens: the risk checks
    (enabled and failing) reject it; or it is a BUY whose value at the
    ask would take the day's volume above the limit, and [executeBuy]
    returns [null] with the engine unchanged; or it is a BUY within the
    limit, and it is executed: the trade is a BUY of the sized quantity
    at the ask, it is appended to the trades, the position table is
    updated with it and its value is added to the day's volume; or it is
    a SELL, and it is executed likewise at the bid.  So an executed BUY
    is priced at the ask, an executed SELL at the bid, and the value of
    either is added to the day's volume. *)
Theorem evaluateSymbol_attempts (e : TradingEngine) (m : Market)
    (symbol : string) (p : PriceData) :
  getPrice m symbol = Some p ->
  let sig := signalOf m symbol in
  let pos := positions (db e) !! symbol in
  let size := calculatePositionSize e p (c_confidence sig) in
  let gate_open := riskManagement e = false \/ passesRiskChecks e p sig pos = true in
  let bought := mkTrade symbol buy size (ask p) (size * ask p) (today m) in
  let sold := mkTrade symbol sell size (bid p) (size * bid p) (today m) in
  (is_order (evaluateSymbol e m symbol).2 -> should_attempt sig pos)
  /\ (~ should_attempt sig pos -> (evaluateSymbol e m symbol).1 = e)
  /\ (should_attempt sig pos ->
      (riskManagement e = true /\ passesRiskChecks e p sig pos = false
       /\ evaluateSymbol e m symbol = (e, RiskRejected))
      \/ (gate_open /\ c_signal sig = buy
          /\ maxDailyVolume e < currentDailyVolume e + size * ask p
          /\ evaluateSymbol e m symbol = (e, CalledBuy None))
      \/ (gate_open /\ c_signal sig = buy
          /\ currentDailyVolume e + size * ask p <= maxDailyVolume e
          /\ exists e',
               evaluateSymbol e m symbol = (e', CalledBuy (Some bought))
               /\ currentDailyVolume e' = currentDailyVolume e + size * ask p
               /\ trades (db e') = trades (db e) ++ [bought]
               /\ positions (db e')
                  = positions (updatePosition (db e) symbol size (ask p) false))
      \/ (gate_open /\ c_signal sig = sell
          /\ exists e',
               evaluateSymbol e m symbol = (e', CalledSell (Some sold))
               /\ currentDailyVolume e' = currentDailyVolume e + size * bid p
               /\ trades (db e') = trades (db e) ++ [sold]
               /\ positions (db e')
                  = positions (updatePosition (db e) symbol (- size) (bid p) true)))
  /\ (forall e' t,
        evaluateSymbol e m symbol = (e', CalledBuy (Some t)) ->
        t_side t = buy /\ t_price t = ask p
        /\ t_value t = t_quantity t * t_price t
        /\ currentDailyVolume e' = currentDailyVolume e + t_value t)
  /\ (forall e' t,
        evaluateSymbol e m symbol = (e', CalledSell (Some t)) ->
        t_side t = sell /\ t_price t = bid p
        /\ t_value t = t_quantity t * t_price t
        /\ currentDailyVolume e' = currentDailyVolume e + t_value t).
Proof.
  intros Hp sig pos size gate_open bought sold.
  pose proof (evaluateSymbol_cases e m symbol p Hp) as H. cbn zeta in H.
  fold sig pos size in H.
  assert (Hne : c_signal sig = buy \/ c_signal sig = sell -> c_signal sig <> hold)
    by (intros [-> | ->]; discriminate).
  split; [|split; [|split; [|split]]].
  - (* an order only under the three conditions *)
    destruct H as [[_ ->]|[(_ & _ & _ & ->)|(Hc & _ & [(Hs & Hq & ->)|[(Hs & Hq & ->)|[_ ->]]])]];
      cbn; try contradiction; intros _.
    + split; [auto|]. split; [exact Hc|]. left. auto.
    + split; [auto|]. split; [exact Hc|]. right. auto.
  - (* otherwise the engine is untouched *)
    intros Hn.
    destruct H as [[_ ->]|[(_ & _ & _ & ->)|(Hc & _ & [(Hs & Hq & _)|[(Hs & Hq & _)|[_ ->]]])]];
      try reflexivity; exfalso; apply Hn.
    + split; [auto|]. split; [exact Hc|]. left. auto.
    + split; [auto|]. split; [exact Hc|]. right. auto.
  - (* under the three conditions: the gate, then the execution *)
    intros (Hh & Hconf & Hcompat).
    destruct H as [[Hlow _]|[(_ & Hr & Hf & Heq)|(_ & Hg & [(Hs & _ & Heq)|[(Hs & _ & Heq)|[Hn _]]])]].
    + lra.
    + left. auto.
    + right. rewrite Heq. unfold executeBuy. rewrite Hp. cbn zeta.
      destruct (Num.gtb (currentDailyVolume e + size * ask p) (maxDailyVolume e))
        eqn:Hcap.
      * left. apply gtb_true in Hcap. auto.
      * right. left. apply gtb_false in Hcap.
        split; [exact Hg|]. split; [exact Hs|]. split; [exact Hcap|].
        eexists. split; [reflexivity|]. repeat split.
    + right. right. right. rewrite Heq. unfold executeSell. rewrite Hp. cbn zeta.
      split; [exact Hg|]. split; [exact Hs|].
      eexists. split; [reflexivity|]. repeat split.
    + contradiction.
  - (* executed BUY *)
    intros e' t Heq.
    destruct H as [[_ H]|[(_ & _ & _ & H)|(_ & _ & [(_ & _ & H)|[(_ & _ & H)|[_ H]]])]];
      rewrite H in Heq; try discriminate.
    injection Heq as <- Hr.
    unfold executeBuy in *. rewrite Hp in *.
    destruct (Num.gtb _ _); [discriminate|].
    injection Hr as <-. cbn. repeat split.
  - (* executed SELL *)
    intros e' t Heq.
    destruct H as [[_ H]|[(_ & _ & _ & H)|(_ & _ & [(_ & _ & H)|[(_ & _ & H)|[_ H]]])]];
      rewrite H in Heq; try discriminate.
    injection Heq as <- Hr.
    unfold executeSell in *. rewrite Hp in *.
    injection Hr as <-. cbn. repeat split.
Qed.

(** [evaluateSymbol_attempts] on a flat EURUSD quoted 1.0849/1.0851.
    With a BUY consensus of confidence 1 the three conditions hold and
    10,000 units are bought at the ask, 10,851 being added to the day's
    volume; with a SELL consensus of confidence 1, 10,000 units are sold
    at the bid and 10,849 added. *)
Lemma evaluateSymbol_attempts_witness :
  let e := Scenario.fresh in
  let p := mkPrice 1.0849 1.0851 ((1.0849 + 1.0851) / 2) in
  let mb := Scenario.market "EURUSD" buy 1 1.0849 1.0851 in
  let ms := Scenario.market "EURUSD" sell 1 1.0849 1.0851 in
  let pos := positions (db e) !! "EURUSD" in
  (getPrice mb "EURUSD" = Some p
   /\ should_attempt (signalOf mb "EURUSD") pos
   /\ exists e' t,
        evaluateSymbol e mb "EURUSD" = (e', CalledBuy (Some t))
        /\ t_side t = buy /\ t_quantity t == 10000 /\ t_price t == 1.0851
        /\ t_value t == 10851
        /\ currentDailyVolume e' == currentDailyVolume e + 10851
        /\ trades (db e') = [t])
  /\ (getPrice ms "EURUSD" = Some p
      /\ should_attempt (signalOf ms "EURUSD") pos
      /\ exists e' t,
           evaluateSymbol e ms "EURUSD" = (e', CalledSell (Some t))
           /\ t_side t = sell /\ t_quantity t == 10000 /\ t_price t == 1.0849
           /\ t_value t == 10849
           /\ currentDailyVolume e' == currentDailyVolume e + 10849
           /\ trades (db e') = [t]).
Proof.
  intros e p mb ms pos. split.
  - assert (Hp : getPrice mb "EURUSD" = Some p) by reflexivity.
    assert (Hs : should_attempt (signalOf mb "EURUSD") pos).
    { split; [discriminate|]. split; [vm_compute; discriminate|].
      left. split; [reflexivity|]. vm_compute. discriminate. }
    split; [exact Hp|]. split; [exact Hs|].
    destruct (proj1 (proj2 (proj2 (evaluateSymbol_attempts e mb "EURUSD" p Hp))) Hs)
      as [(Hr & _)|[(_ & _ & Hcap & _)|[(_ & _ & _ & e' & Heq & Hvol & Htr & _)
                                        |(_ & Hsell & _)]]].
    + discriminate Hr.
    + exfalso. vm_compute in Hcap. discriminate Hcap.
    + eexists e', _. split; [exact Heq|]. cbn [t_side t_quantity t_price t_value].
      split; [reflexivity|]. split; [reflexivity|]. split; [reflexivity|].
      split; [reflexivity|]. split; [rewrite Hvol; reflexivity|exact Htr].
    + discriminate Hsell.
  - assert (Hp : getPrice ms "EURUSD" = Some p) by reflexivity.
    assert (Hs : should_attempt (signalOf ms "EURUSD") pos).
    { split; [discriminate|]. split; [vm_compute; discriminate|].
      right. split; [reflexivity|]. vm_compute. discriminate. }
    split; [exact Hp|]. split; [exact Hs|].
    destruct (proj1 (proj2 (proj2 (evaluateSymbol_attempts e ms "EURUSD" p Hp))) Hs)
      as [(Hr & _)|[(_ & Hbuy & _)|[(_ & Hbuy & _)
                                    |(_ & _ & e' & Heq & Hvol & Htr & _)]]].
    + discriminate Hr.
    + discriminate Hbuy.
    + discriminate Hbuy.
    + eexists e', _. split; [exact Heq|]. cbn [t_side t_quantity t_price t_value].
      split; [reflexivity|]. split; [reflexivity|]. split; [reflexivity|].
      split; [reflexivity|]. split; [rewrite Hvol; reflexivity|exact Htr].
Defined.

(** ** The risk checks *)

Lemma passesRiskChecks_trade_too_large (e : TradingEngine) (p : PriceData)
    (sig : CombinedSignal) (pos : option Position) :
  maxDailyVolume e * 0.1 < calculatePositionSize e p (c_confidence sig) * mid p ->
  passesRiskChecks e p sig pos = false.
Proof.
  intros H. unfold passesRiskChecks.
  destruct (Num.geb _ _); [reflexivity|].
  apply gtb_true in H. now rewrite H.
Qed.

Lemma passesRiskChecks_exposure (e : TradingEngine) (p : PriceData)
    (sig : CombinedSignal) (row : Position) :
  maxDailyVolume e * 0.2 <
    Num.abs (quantity row * avg_price row)
    + calculatePositionSize e p (c_confidence sig) * mid p ->
  passesRiskChecks e p sig (Some row) = false.
Proof.
  intros H. unfold passesRiskChecks.
  destruct (Num.geb _ _); [reflexivity|].
  destruct (Num.gtb (_ * mid p) _); [reflexivity|].
  apply gtb_true in H. now rewrite H.
Qed.

Lemma evaluateSymbol_risk_rejected (e : TradingEngine) (m : Market)
    (symbol : string) (p : PriceData) :
  getPrice m symbol = Some p ->
  0.6 <= c_confidence (signalOf m symbol) ->
  riskManagement e = true ->
  passesRiskChecks e p (signalOf m symbol) (positions (db e) !! symbol) = false ->
  evaluateSymbol e m symbol = (e, RiskRejected).
Proof.
  intros Hp Hc Hr Hf. unfold evaluateSymbol. rewrite Hp.
  apply ltb_false in Hc. rewrite Hc, Hr, Hf. reflexivity.
Qed.

(** C6.  The engine's [riskManagement] flag is set exactly when the
    RISK_MANAGEMENT variable is the string [true]; [evaluateSymbol] ends
    on the risk checks only when the flag is set, in which case an order
    worth more than 10% of the daily limit (at mid), or taking the
    symbol's exposure past 20% of it, is rejected.  Under the default
    configuration the flag is off, and a BUY of 10,000 USDJPY at 148.51,
    worth 1,485,100 against a 10% cap of 1,000,000, is executed; the
    same order is rejected when RISK_MANAGEMENT is [true]. *)
Theorem risk_checks_only_when_enabled :
  (forall env d day,
     riskManagement (newTradingEngine env d day) = true
     <-> RISK_MANAGEMENT env = Some "true")
  /\ (forall e m symbol,
        (evaluateSymbol e m symbol).2 = RiskRejected -> riskManagement e = true)
  /\ (forall e m symbol p,
        riskManagement e = true ->
        getPrice m symbol = Some p ->
        0.6 <= c_confidence (signalOf m symbol) ->
        maxDailyVolume e * 0.1 <
          calculatePositionSize e p (c_confidence (signalOf m symbol)) * mid p ->
        evaluateSymbol e m symbol = (e, RiskRejected))
  /\ (forall e m symbol p row,
        riskManagement e = true ->
        getPrice m symbol = Some p ->
        0.6 <= c_confidence (signalOf m symbol) ->
        positions (db e) !! symbol = Some row ->
        maxDailyVolume e * 0.2 <
          Num.abs (quantity row * avg_price row)
          + calculatePositionSize e p (c_confidence (signalOf m symbol)) * mid p ->
        evaluateSymbol e m symbol = (e, RiskRejected))
  /\ riskManagement Scenario.fresh = false
  /\ (exists e' t,
        evaluateSymbol Scenario.fresh
          (Scenario.market "USDJPY" buy 1 148.49 148.51) "USDJPY"
        = (e', CalledBuy (Some t))
        /\ t_value t == 1485100
        /\ maxDailyVolume Scenario.fresh * 0.1 < t_value t
        /\ currentDailyVolume e' == 1485100)
  /\ (let e := start (newTradingEngine (mkEnv None None (Some "true"))
                        emptyDatabase Scenario.day) in
      evaluateSymbol e (Scenario.market "USDJPY" buy 1 148.49 148.51) "USDJPY"
      = (e, RiskRejected)).
Proof.
  split; [|split; [|split; [|split; [|split; [|split]]]]].
  - intros env d day. cbn. destruct (RISK_MANAGEMENT env) as [s|]; [|easy].
    rewrite bool_decide_eq_true. split; congruence.
  - intros e m symbol. unfold evaluateSymbol.
    destruct (getPrice m symbol) as [p|]; [|discriminate].
    destruct (Num.ltb _ _); [discriminate|].
    destruct (riskManagement e); [reflexivity|]. cbn [andb].
    destruct (_ && _).
    { destruct (executeBuy _ _ _ _). discriminate. }
    destruct (_ && _); [|discriminate].
    destruct (executeSell _ _ _ _). discriminate.
  - intros e m symbol p Hr Hp Hc Hbig.
    apply (evaluateSymbol_risk_rejected e m symbol p Hp Hc Hr).
    now apply passesRiskChecks_trade_too_large.
  - intros e m symbol p row Hr Hp Hc Hrow Hbig.
    apply (evaluateSymbol_risk_rejected e m symbol p Hp Hc Hr).
    rewrite Hrow. now apply passesRiskChecks_exposure.
  - reflexivity.
  - vm_compute. do 2 eexists. repeat split; reflexivity.
  - vm_compute. reflexivity.
Qed.

(** [risk_checks_only_when_enabled] with RISK_MANAGEMENT set to [true],
    on the USDJPY order. *)
Lemma risk_checks_only_when_enabled_witness :
  let e := start (newTradingEngine (mkEnv None None (Some "true"))
                    emptyDatabase Scenario.day) in
  let m := Scenario.market "USDJPY" buy 1 148.49 148.51 in
  riskManagement e = true
  /\ evaluateSymbol e m "USDJPY" = (e, RiskRejected).
Proof.
  intros e m.
  assert (Hr : riskManagement e = true).
  { apply (proj1 risk_checks_only_when_enabled). reflexivity. }
  split; [exact Hr|].
  apply (proj1 (proj2 (proj2 risk_checks_only_when_enabled)) e m "USDJPY"
           (mkPrice 148.49 148.51 ((148.49 + 148.51) / 2)) Hr).
  - reflexivity.
  - vm_compute. discriminate.
  - vm_compute. reflexivity.
Defined.

(** ** Sums and slices *)

Lemma sum_by_acc {A} (f : A -> Q) (l : list A) (a : Q) :
  fold_left (fun acc x => acc + f x) l a = fold_left Qplus (map f l) a.
Proof. revert a. induction l as [|x l IH]; intros a; cbn; [reflexivity|apply IH]. Qed.

Lemma sum_by_map {A} (f : A -> Q) (l : list A) : Num.sum_by f l = sum (map f l).
Proof. apply sum_by_acc. Qed.

Lemma sum_by_id (l : list Q) : Num.sum_by id l = sum l.
Proof. rewrite sum_by_map. now rewrite map_id. Qed.

Lemma fold_Qplus_acc (l : list Q) (a : Q) :
  fold_left Qplus l a == a + sum l.
Proof.
  unfold sum. revert a. induction l as [|x l IH]; intros a; cbn.
  - lra.
  - rewrite IH, (IH (0 + x)). lra.
Qed.

Lemma sum_cons (x : Q) (l : list Q) : sum (x :: l) == x + sum l.
Proof. unfold sum at 1. cbn. rewrite fold_Qplus_acc. lra. Qed.

Lemma sum_app (l1 l2 : list Q) : sum (l1 ++ l2) == sum l1 + sum l2.
Proof.
  induction l1 as [|x l1 IH].
  - change (sum l2 == 0 + sum l2). lra.
  - change (sum (x :: (l1 ++ l2)) == sum (x :: l1) + sum l2).
    rewrite !sum_cons, IH. lra.
Qed.

(** Sums of list that agree pointwise up to [==]. *)
Lemma sum_pointwise {A} (f g : A -> Q) (l : list A) :
  (forall x, f x == g x) -> sum (map f l) == sum (map g l).
Proof.
  intros H. induction l as [|x l IH]; [reflexivity|].
  change (sum (f x :: map f l) == sum (g x :: map g l)).
  rewrite !sum_cons, IH, H. reflexivity.
Qed.

Lemma slice_last_length {A} (n : nat) (l : list A) :
  (0 < n)%nat -> length (slice_last n l) = Nat.min n (length l).
Proof.
  intros Hn. unfold slice_last. destruct n as [|n]; [lia|].
  rewrite length_drop. lia.
Qed.

Lemma slice_last_map {A B} (f : A -> B) (n : nat) (l : list A) :
  map f (slice_last n l) = slice_last n (map f l).
Proof.
  unfold slice_last. destruct n; [reflexivity|].
  rewrite length_map. symmetry. apply skipn_map.
Qed.

Lemma slice_init_map {A B} (f : A -> B) (l : list A) :
  map f (slice_init l) = slice_init (map f l).
Proof. unfold slice_init. rewrite length_map. symmetry. apply firstn_map. Qed.

Lemma slice_init_length {A} (l : list A) :
  length (slice_init l) = (length l - 1)%nat.
Proof. unfold slice_init. rewrite length_take. lia. Qed.

Lemma of_nat_pos (n : nat) : (0 < n)%nat -> 0 < Num.of_nat n.
Proof.
  intros H. unfold Num.of_nat. change 0 with (inject_Z 0).
  rewrite <- Zlt_Qlt. lia.
Qed.

Lemma Num_min_Qmin (a b : Q) : Num.min a b == Qmin a b.
Proof.
  destruct (min_spec a b) as [[H ->]|[H ->]].
  - now rewrite Q.min_l.
  - rewrite Q.min_r; [reflexivity|lra].
Qed.

(** ** The consensus *)

Lemma votes_filter (s : Side) (l : list Signal) :
  votes s l =
    map confidence
      (List.filter (fun x => Side_eqb (signal x) s)
         (List.filter (fun x => Num.gtb (confidence x) 0) l)).
Proof.
  induction l as [|x l IH]; [reflexivity|].
  cbn [votes List.filter].
  destruct (Qlt_le_dec 0 (confidence x)) as [Hpos|Hneg].
  - apply gtb_true in Hpos. rewrite Hpos. cbn [List.filter].
    destruct (Side_eqb (signal x) s); cbn [map]; now rewrite IH.
  - apply gtb_false in Hneg. now rewrite Hneg.
Qed.

Lemma votes_none (s : Side) (l : list Signal) :
  Forall (fun x => confidence x <= 0) l -> votes s l = [].
Proof.
  induction 1 as [|x l Hx _ IH]; [reflexivity|].
  cbn [votes]. destruct (Qlt_le_dec 0 (confidence x)); [lra|exact IH].
Qed.

(** C8.  The consensus is a function of the three component signals
    alone.  With B and S the confidences of the BUY and of the SELL
    signals among those of positive confidence: more BUYs than SELLs
    give BUY with the mean of B capped at 1, more SELLs than BUYs give
    SELL with the mean of S capped at 1, a tie gives HOLD with
    confidence 0, as does the absence of any positive confidence; the
    three component signals are embedded in the result;
    [getCombinedSignal] is this function applied to the answers of the
    three strategies. *)
Theorem combineSignals_consensus (s1 s2 s3 : Signal) :
  let c := combineSignals s1 s2 s3 in
  let B := votes buy [s1; s2; s3] in
  let S := votes sell [s1; s2; s3] in
  components c = mkComponents s1 s2 s3
  /\ ((length S < length B)%nat ->
      c_signal c = buy /\ c_confidence c == Qmin (mean B) 1)
  /\ ((length B < length S)%nat ->
      c_signal c = sell /\ c_confidence c == Qmin (mean S) 1)
  /\ (length B = length S -> c_signal c = hold /\ c_confidence c == 0)
  /\ (confidence s1 <= 0 -> confidence s2 <= 0 -> confidence s3 <= 0 ->
      c_signal c = hold /\ c_confidence c == 0)
  /\ (forall Math_sqrt a symbol o,
        getCombinedSignal Math_sqrt a symbol o =
          combineSignals
            (getSMACrossoverSignal a symbol (default 10%nat (smaShort o))
                                   (default 50%nat (smaLong o)))
            (getRSISignal a symbol (default 14%nat (rsiPeriod o))
                          (default 70 (rsiOverbought o))
                          (default 30 (rsiOversold o)))
            (getBollingerBandsSignal Math_sqrt a symbol
                                     (default 20%nat (bbPeriod o))
                                     (default 2 (bbStdDev o)))).
Proof.
  intros c B S.
  assert (Hcases :
    components c = mkComponents s1 s2 s3
    /\ (((length S < length B)%nat /\ c_signal c = buy
         /\ c_confidence c == Qmin (mean B) 1)
        \/ ((length B < length S)%nat /\ c_signal c = sell
            /\ c_confidence c == Qmin (mean S) 1)
        \/ (length B = length S /\ c_signal c = hold /\ c_confidence c == 0))).
  { subst c B S. rewrite !votes_filter. unfold combineSignals.
    set (V := List.filter (fun s => Num.gtb (confidence s) 0) [s1; s2; s3]).
    set (FB := List.filter (fun s => Side_eqb (signal s) buy) V).
    set (FS := List.filter (fun s => Side_eqb (signal s) sell) V).
    unfold mean. rewrite !length_map.
    destruct (length V =? 0)%nat eqn:HV.
    { split; [reflexivity|]. right. right.
      apply Nat.eqb_eq in HV. destruct V; [|discriminate].
      subst FB FS. cbn. repeat split; reflexivity. }
    destruct (length FS <? length FB)%nat eqn:Hb.
    { split; [reflexivity|]. left. apply Nat.ltb_lt in Hb.
      split; [exact Hb|]. split; [reflexivity|].
      cbn [c_confidence]. rewrite sum_by_map. apply Num_min_Qmin. }
    destruct (length FB <? length FS)%nat eqn:Hs.
    { split; [reflexivity|]. right. left. apply Nat.ltb_lt in Hs.
      split; [exact Hs|]. split; [reflexivity|].
      cbn [c_confidence]. rewrite sum_by_map. apply Num_min_Qmin. }
    split; [reflexivity|]. right. right.
    apply Nat.ltb_ge in Hb, Hs. split; [lia|]. split; reflexivity. }
  destruct Hcases as [Hcomp Hcases].
  split; [exact Hcomp|].
  split; [|split; [|split; [|split]]].
  - intros H. destruct Hcases as [(_ & ? & ?)|[(? & _)|(? & _)]]; [auto|lia|lia].
  - intros H. destruct Hcases as [(? & _)|[(_ & ? & ?)|(? & _)]]; [lia|auto|lia].
  - intros H. destruct Hcases as [(? & _)|[(? & _)|(_ & ? & ?)]]; [lia|lia|auto].
  - intros H1 H2 H3.
    assert (HB : B = []) by (apply votes_none; repeat constructor; assumption).
    assert (HS : S = []) by (apply votes_none; repeat constructor; assumption).
    rewrite HB, HS in Hcases. cbn in Hcases.
    destruct Hcases as [(? & _)|[(? & _)|(_ & ? & ?)]]; [lia|lia|auto].
  - reflexivity.
Qed.

(** [combineSignals_consensus] on two BUY votes of confidence 0.8 and
    0.6 against none: BUY at their mean, 0.7. *)
Lemma combineSignals_consensus_witness :
  let s1 := mkSignal buy 0.8 "golden_cross" ExNone in
  let s2 := mkSignal buy 0.6 "oversold" ExRSINull in
  let s3 := mkSignal hold 0 "within_bands" ExBBNull in
  (length (votes sell [s1; s2; s3]) < length (votes buy [s1; s2; s3]))%nat
  /\ c_signal (combineSignals s1 s2 s3) = buy
  /\ c_confidence (combineSignals s1 s2 s3) == 0.7.
Proof.
  intros s1 s2 s3.
  assert (H : (length (votes sell [s1; s2; s3]) < length (votes buy [s1; s2; s3]))%nat)
    by (vm_compute; lia).
  split; [exact H|].
  destruct (proj1 (proj2 (combineSignals_consensus s1 s2 s3)) H) as [Hs Hc].
  split; [exact Hs|]. rewrite Hc. reflexivity.
Defined.

(** ** RSI *)

Lemma gain_of_max (d : Q) : gain_of d == Qmax d 0.
Proof.
  unfold gain_of. destruct (Num.gtb d 0) eqn:E.
  - apply gtb_true in E. rewrite Q.max_l; [reflexivity|lra].
  - apply gtb_false in E. rewrite Q.max_r; [reflexivity|lra].
Qed.

Lemma loss_of_max (d : Q) : loss_of d == Qmax (- d) 0.
Proof.
  unfold loss_of, Num.abs. destruct (Num.gtb d 0) eqn:E.
  - apply gtb_true in E. rewrite Q.max_r; [reflexivity|lra].
  - apply gtb_false in E. rewrite Q.max_l; [|lra].
    apply Qabs_neg. exact E.
Qed.

Lemma diffs_length (p : list Q) : length (diffs p) = (length p - 1)%nat.
Proof.
  induction p as [|a rest IH]; [reflexivity|].
  destruct rest as [|b rest]; [reflexivity|].
  change (diffs (a :: b :: rest)) with ((b - a) :: diffs (b :: rest)).
  cbn [length] in *. lia.
Qed.

(** The loop pushes, pair by pair, the gain and the loss of each
    difference. *)
Lemma rsi_loop_diffs (rest : list HistoryPoint) (prev : Q) (gains losses : list Q) :
  rsi_loop prev rest gains losses =
    (gains ++ map gain_of (diffs (prev :: map price rest)),
     losses ++ map loss_of (diffs (prev :: map price rest))).
Proof.
  revert prev gains losses.
  induction rest as [|h rest IH]; intros prev gains losses.
  - cbn. now rewrite !app_nil_r.
  - cbn [rsi_loop map].
    change (diffs (prev :: price h :: map price rest))
      with ((price h - prev) :: diffs (price h :: map price rest)).
    cbn [map]. unfold gain_of at 1, loss_of at 1.
    destruct (Num.gtb (price h - prev) 0); rewrite IH, <- !app_assoc; reflexivity.
Qed.

Lemma getPriceHistory_some (a : TradingAlgorithms) (symbol : string) (n : nat) :
  (0 < n)%nat ->
  getPriceHistory a symbol (Some n) = slice_last n (history_of a symbol).
Proof. intros H. destruct n; [lia|reflexivity]. Qed.

(** C10.  For a period [n >= 1], [calculateRSI] is the reference RSI of
    the symbol's prices: no value with fewer than [n + 1] points;
    otherwise, over the differences of the last [n + 1] points, 100 when
    the mean loss is 0 and [100 - 100 / (1 + mean gain / mean loss)]
    when it is not. *)
Theorem calculateRSI_reference (a : TradingAlgorithms) (symbol : string) (n : nat) :
  (0 < n)%nat ->
  same_number (calculateRSI a symbol n) (RSI_reference (prices_of a symbol) n).
Proof.
  intros Hn. unfold calculateRSI, RSI_reference, prices_of.
  rewrite getPriceHistory_some by lia.
  set (h := history_of a symbol).
  rewrite slice_last_length by lia. rewrite length_map.
  destruct (length h <? n + 1)%nat eqn:Hlen.
  { apply Nat.ltb_lt in Hlen.
    replace (Nat.min (n + 1) (length h) <? n + 1)%nat with true
      by (symmetry; apply Nat.ltb_lt; lia).
    exact I. }
  apply Nat.ltb_ge in Hlen.
  replace (Nat.min (n + 1) (length h) <? n + 1)%nat with false
    by (symmetry; apply Nat.ltb_ge; lia).
  rewrite <- slice_last_map.
  assert (Hw : length (slice_last (n + 1) h) = (n + 1)%nat)
    by (rewrite slice_last_length by lia; lia).
  destruct (slice_last (n + 1) h) as [|h0 rest] eqn:Hh; [cbn in Hw; lia|].
  rewrite rsi_loop_diffs. cbn [app map].
  set (d := diffs (price h0 :: map price rest)).
  assert (Hd : length d = n).
  { subst d. rewrite diffs_length. cbn [length] in *. rewrite length_map. lia. }
  unfold mean. rewrite !length_map, Hd, !sum_by_id.
  assert (Hg : sum (map gain_of d) == sum (map (fun x => Qmax x 0) d))
    by (apply sum_pointwise, gain_of_max).
  assert (Hl : sum (map loss_of d) == sum (map (fun x => Qmax (- x) 0) d))
    by (apply sum_pointwise, loss_of_max).
  destruct (Qeq_dec _ 0) as [Hz|Hnz].
  - rewrite <- Hl in Hz. apply eqb_true in Hz. rewrite Hz.
    unfold same_number. reflexivity.
  - rewrite <- Hl in Hnz. apply eqb_false in Hnz. rewrite Hnz.
    unfold same_number. rewrite Hg, Hl. reflexivity.
Qed.

(** [calculateRSI_reference] on fifteen falling prices, period 14:
    every difference is a loss and the RSI is 0. *)
Lemma calculateRSI_reference_witness :
  let a := Scenario.with_history Scenario.falling in
  (0 < 14)%nat
  /\ same_number (calculateRSI a "EURUSD" 14) (RSI_reference Scenario.falling 14)
  /\ same_number (calculateRSI a "EURUSD" 14) (Some 0).
Proof.
  intros a. split; [lia|]. split.
  - apply (calculateRSI_reference a "EURUSD" 14). lia.
  - vm_compute. reflexivity.
Defined.

(** ** SMA crossover *)

Lemma window_mean (h : list HistoryPoint) (n : nat) :
  (0 < n)%nat -> (n <= length h)%nat ->
  Num.sum_by price (slice_last n h) / Num.of_nat n = SMA (map price h) n.
Proof.
  intros Hn Hle. unfold SMA, mean.
  rewrite <- slice_last_map, length_map, slice_last_length by lia.
  rewrite Nat.min_l by lia. now rewrite sum_by_map.
Qed.

Lemma calculateSMA_spec (a : TradingAlgorithms) (symbol : string) (n : nat) :
  (0 < n)%nat ->
  calculateSMA a symbol n =
    if (length (prices_of a symbol) <? n)%nat then None
    else Some (SMA (prices_of a symbol) n).
Proof.
  intros Hn. unfold calculateSMA, prices_of.
  rewrite getPriceHistory_some by lia.
  set (h := history_of a symbol).
  rewrite slice_last_length by lia. rewrite length_map.
  destruct (length h <? n)%nat eqn:Hlen.
  - apply Nat.ltb_lt in Hlen.
    replace (Nat.min n (length h) <? n)%nat with true
      by (symmetry; apply Nat.ltb_lt; lia).
    reflexivity.
  - apply Nat.ltb_ge in Hlen.
    replace (Nat.min n (length h) <? n)%nat with false
      by (symmetry; apply Nat.ltb_ge; lia).
    now rewrite window_mean.
Qed.

Lemma falsy_some (v : Q) : falsy (Some v) = false <-> ~ v == 0.
Proof.
  unfold falsy, Num.truthy. rewrite negb_involutive. apply (eqb_false v 0).
Qed.

Lemma falsy_zero (v : Q) : v == 0 -> falsy (Some v) = true.
Proof.
  intros H. unfold falsy, Num.truthy. rewrite negb_involutive.
  now apply Qeq_bool_iff.
Qed.

(** C7, as the code has it.  With [0 < short <= long], S and L the
    short and long SMA at the latest point and S', L' one point back:
    - fewer than [long] points: HOLD, reason [insufficient_data];
    - enough points for both averages but one of them 0: the same;
    - exactly [long] points: HOLD, reason [insufficient_history];
    - more than [long] points: BUY exactly when [S' <= L'] and [S > L],
      with confidence [min(1, (S - L) / L * 100)] and reason
      [golden_cross]; SELL exactly when [S' > L'] and [S <= L], with
      confidence [min(1, (L - S) / S * 100)] and reason [death_cross];
      HOLD with confidence 0 and reason [no_crossover] otherwise. *)
Theorem getSMACrossoverSignal_spec (a : TradingAlgorithms) (symbol : string)
    (short long : nat) :
  (0 < short)%nat -> (short <= long)%nat ->
  let p := prices_of a symbol in
  let S := SMA p short in
  let L := SMA p long in
  let S' := SMA (slice_init p) short in
  let L' := SMA (slice_init p) long in
  let sg := getSMACrossoverSignal a symbol short long in
  ((length p < long)%nat -> sg = mkSignal hold 0 "insufficient_data" ExNone)
  /\ ((long <= length p)%nat -> S == 0 \/ L == 0 ->
      sg = mkSignal hold 0 "insufficient_data" ExNone)
  /\ (length p = long -> ~ S == 0 -> ~ L == 0 ->
      sg = mkSignal hold 0 "insufficient_history" ExNone)
  /\ ((long < length p)%nat -> ~ S == 0 -> ~ L == 0 ->
      (signal sg = buy <-> S' <= L' /\ L < S)
      /\ (signal sg = buy ->
          confidence sg == Qmin 1 ((S - L) / L * 100)
          /\ reason sg = "golden_cross")
      /\ (signal sg = sell <-> L' < S' /\ S <= L)
      /\ (signal sg = sell ->
          confidence sg == Qmin 1 ((L - S) / S * 100)
          /\ reason sg = "death_cross")
      /\ (signal sg = hold ->
          confidence sg == 0 /\ reason sg = "no_crossover")).
Proof.
  intros Hs Hsl p S L S' L' sg.
  assert (Hlenp : length p = length (history_of a symbol))
    by (unfold p, prices_of; apply length_map).
  split; [|split; [|split]].
  - intros Hlt. unfold sg, getSMACrossoverSignal.
    rewrite (calculateSMA_spec a symbol long) by lia. fold p.
    replace (length p <? long)%nat with true by (symmetry; apply Nat.ltb_lt; lia).
    now destruct (calculateSMA a symbol short).
  - intros Hge Hz. unfold sg, getSMACrossoverSignal.
    rewrite !calculateSMA_spec by lia. fold p.
    replace (length p <? long)%nat with false by (symmetry; apply Nat.ltb_ge; lia).
    replace (length p <? short)%nat with false by (symmetry; apply Nat.ltb_ge; lia).
    fold S L. destruct Hz as [Hz|Hz].
    + now rewrite (falsy_zero S Hz).
    + rewrite (falsy_zero L Hz). now rewrite orb_true_r.
  - intros Heq HS HL. unfold sg, getSMACrossoverSignal.
    rewrite !calculateSMA_spec by lia. fold p.
    replace (length p <? long)%nat with false by (symmetry; apply Nat.ltb_ge; lia).
    replace (length p <? short)%nat with false by (symmetry; apply Nat.ltb_ge; lia).
    fold S L. apply falsy_some in HS, HL. rewrite HS, HL. cbn [orb].
    change (getPriceHistory a symbol None) with (history_of a symbol).
    replace (length (history_of a symbol) <? long + 1)%nat with true
      by (symmetry; apply Nat.ltb_lt; lia).
    reflexivity.
  - intros Hgt HS HL. unfold sg, getSMACrossoverSignal.
    rewrite !calculateSMA_spec by lia. fold p.
    replace (length p <? long)%nat with false by (symmetry; apply Nat.ltb_ge; lia).
    replace (length p <? short)%nat with false by (symmetry; apply Nat.ltb_ge; lia).
    fold S L. apply falsy_some in HS, HL. rewrite HS, HL. cbn [orb].
    change (getPriceHistory a symbol None) with (history_of a symbol).
    replace (length (history_of a symbol) <? long + 1)%nat with false
      by (symmetry; apply Nat.ltb_ge; lia).
    rewrite !window_mean by (rewrite ?slice_init_length; lia).
    rewrite slice_init_map. fold (prices_of a symbol). fold p. fold S' L'.
    destruct (Num.gtb S L) eqn:E1; destruct (Num.gtb S' L') eqn:E2;
      cbn [andb negb signal confidence reason];
      first [apply gtb_true in E1 | apply gtb_false in E1];
      first [apply gtb_true in E2 | apply gtb_false in E2].
    all: split; [|split; [|split; [|split]]].
    all: try (intros H; discriminate H).
    all: try (split; [intros H; discriminate H|intros [H1 H2]; lra]).
    all: try (split; [intros _; split; lra|reflexivity]).
    all: try (intros _; split;
              [rewrite Num_min_Qmin; apply Q.min_comm|reflexivity]).
    all: intros _; split; reflexivity.
Qed.

(** [getSMACrossoverSignal_spec] with periods 1 and 2 on the prices
    1, 2, 2: one point back the short average (2) is above the long one
    (1.5), now both are 2, and the signal is SELL. *)
Lemma getSMACrossoverSignal_spec_witness :
  let a := Scenario.with_history [1; 2; 2] in
  (0 < 1)%nat /\ (1 <= 2)%nat
  /\ signal (getSMACrossoverSignal a "EURUSD" 1 2) = sell.
Proof.
  intros a. split; [lia|]. split; [lia|].
  assert (H01 : (0 < 1)%nat) by lia.
  assert (H12 : (1 <= 2)%nat) by lia.
  destruct (getSMACrossoverSignal_spec a "EURUSD" 1 2 H01 H12)
    as (_ & _ & _ & H).
  assert (Hlen : (2 < length (prices_of a "EURUSD"))%nat) by (vm_compute; lia).
  assert (HS : ~ SMA (prices_of a "EURUSD") 1 == 0) by (vm_compute; discriminate).
  assert (HL : ~ SMA (prices_of a "EURUSD") 2 == 0) by (vm_compute; discriminate).
  destruct (H Hlen HS HL) as (_ & _ & Hsell & _).
  apply Hsell. split; vm_compute; [reflexivity|discriminate].
Defined.

(** C7 as the specification states it fails in three places:
    - with 3 points and periods 10 and 50 the reason is
      [insufficient_data], not [insufficient_history];
    - on the prices 1, 2, 2 with periods 1 and 2 the short average ends
      equal to the long one, not below it, and the signal is SELL;
    - on the prices 2, 2, 1 the averages were equal one point back and
      the short one is now below, and the signal is HOLD. *)
Lemma crossover_boundary_cases :
  (let a := Scenario.with_history [1; 2; 3] in
   (length (prices_of a "EURUSD") < 50 + 1)%nat
   /\ getSMACrossoverSignal a "EURUSD" 10 50
      = mkSignal hold 0 "insufficient_data" ExNone
   /\ reason (getSMACrossoverSignal a "EURUSD" 10 50) <> "insufficient_history")
  /\ (let p := [1; 2; 2] in
      ~ SMA p 1 < SMA p 2
      /\ signal (getSMACrossoverSignal (Scenario.with_history p) "EURUSD" 1 2) = sell)
  /\ (let p := [2; 2; 1] in
      SMA (slice_init p) 2 <= SMA (slice_init p) 1
      /\ SMA p 1 < SMA p 2
      /\ signal (getSMACrossoverSignal (Scenario.with_history p) "EURUSD" 1 2) = hold).
Proof.
  split; [|split].
  - vm_compute. split; [lia|]. split; [reflexivity|discriminate].
  - split; [vm_compute; discriminate|reflexivity].
  - split; [vm_compute; discriminate|]. split; reflexivity.
Qed.

(** ** Historical bars and the backtest *)

Lemma getIntervalMilliseconds_pos (interval : string) :
  (0 < getIntervalMilliseconds interval)%Z.
Proof.
  unfold getIntervalMilliseconds.
  destruct (_ !! interval) as [ms|] eqn:E; cbn [from_option id]; [|lia].
  apply elem_of_list_to_map_2 in E.
  repeat (apply elem_of_cons in E as [E|E]; [injection E as -> ->; lia|]).
  now apply elem_of_nil in E.
Qed.

(** The loop reads four draws per bar and nothing beyond them. *)
Lemma historical_loop_ext (rnd1 rnd2 : Random) (fuel : nat) :
  forall (k : nat) (vol : Q) (symbol : string) (current end_ ms : Z)
         (price : Q) (data : list Bar),
    (forall j, (k <= j < k + 4 * fuel)%nat -> rnd1 j = rnd2 j) ->
    historical_loop fuel rnd1 k vol symbol current end_ ms price data =
    historical_loop fuel rnd2 k vol symbol current end_ ms price data.
Proof.
  induction fuel as [|fuel IH]; intros k vol symbol current end_ ms price data H.
  - reflexivity.
  - cbn [historical_loop]. destruct (current <=? end_)%Z; [|reflexivity].
    rewrite <- (H k), <- (H (k + 1)%nat), <- (H (k + 2)%nat), <- (H (k + 3)%nat)
      by lia.
    apply IH. intros j Hj. apply H. lia.
Qed.

(** With the fuel [generateHistoricalData] gives it, the loop leaves by
    its own condition. *)
Lemma historical_loop_total (fuel : nat) :
  forall (rnd : Random) (k : nat) (vol : Q) (symbol : string)
         (current end_ ms : Z) (price : Q) (data : list Bar),
    (0 < ms)%Z ->
    ((end_ - current) / ms + 1 <= Z.of_nat fuel)%Z ->
    is_Some (historical_loop fuel rnd k vol symbol current end_ ms price data).
Proof.
  induction fuel as [|fuel IH];
    intros rnd k vol symbol current end_ ms price data Hms Hfuel.
  - cbn [historical_loop]. destruct (current <=? end_)%Z eqn:E; [|eauto].
    apply Z.leb_le in E.
    assert (0 <= (end_ - current) / ms)%Z by (apply Z.div_pos; lia). lia.
  - cbn [historical_loop]. destruct (current <=? end_)%Z eqn:E; [|eauto].
    apply IH; [exact Hms|].
    replace (end_ - (current + ms))%Z with ((end_ - current) + (-1) * ms)%Z by lia.
    rewrite Z.div_add by lia. lia.
Qed.

Lemma generateHistoricalData_total (s : FXDataSimulator) (rnd : Random) (k : nat)
    (symbol : string) (start end_ : Z) (interval : string) :
  is_Some (generateHistoricalData s rnd k symbol start end_ interval).
Proof.
  unfold generateHistoricalData, historical_fuel.
  pose proof (getIntervalMilliseconds_pos interval) as Hms.
  apply historical_loop_total; [exact Hms|].
  generalize ((end_ - start) / getIntervalMilliseconds interval)%Z. intros q. lia.
Qed.

(** C5, as the code has it.  The bars are drawn from [Math.random]:
    four draws per bar, none derived from the inputs.  For the same
    simulator state and the same symbol, dates, algorithm name and
    parameters, two runs whose draws agree on the four draws of each bar
    produce the same bars and the same backtest result (trades and
    statistics); the generation always returns. *)
Theorem runBacktest_same_draws (Math_sqrt : Q -> Q) (s : FXDataSimulator)
    (rnd1 rnd2 : Random) (k : nat) (symbol : string) (startDate endDate : Z)
    (algorithm : string) (parameters : Options) :
  (forall j,
     (k <= j < k + 4 * historical_fuel startDate endDate
                         (getIntervalMilliseconds "1hour"))%nat ->
     rnd1 j = rnd2 j) ->
  is_Some (generateHistoricalData s rnd1 k symbol startDate endDate "1hour")
  /\ generateHistoricalData s rnd1 k symbol startDate endDate "1hour" =
     generateHistoricalData s rnd2 k symbol startDate endDate "1hour"
  /\ runBacktest Math_sqrt s rnd1 k symbol startDate endDate algorithm parameters =
     runBacktest Math_sqrt s rnd2 k symbol startDate endDate algorithm parameters.
Proof.
  intros H.
  assert (Hbars :
    generateHistoricalData s rnd1 k symbol startDate endDate "1hour" =
    generateHistoricalData s rnd2 k symbol startDate endDate "1hour").
  { unfold generateHistoricalData. apply historical_loop_ext. exact H. }
  split; [apply generateHistoricalData_total|]. split; [exact Hbars|].
  unfold runBacktest. now rewrite Hbars.
Qed.

(** [runBacktest_same_draws] on two streams that agree on the first
    twelve draws, the three bars of the scenario, and differ after. *)
Lemma runBacktest_same_draws_witness :
  let rnd1 : Random := fun j => if (j <? 12)%nat then 0.25 else 0.5 in
  let rnd2 : Random := fun j => if (j <? 12)%nat then 0.25 else 0.75 in
  rnd1 12%nat <> rnd2 12%nat
  /\ runBacktest Scenario.sqrt9 newFXDataSimulator rnd1 0 "EURUSD"
       Scenario.first_hour Scenario.last_hour "combined" Scenario.quick_rsi =
     runBacktest Scenario.sqrt9 newFXDataSimulator rnd2 0 "EURUSD"
       Scenario.first_hour Scenario.last_hour "combined" Scenario.quick_rsi.
Proof.
  intros rnd1 rnd2. split; [discriminate|].
  apply (runBacktest_same_draws Scenario.sqrt9 newFXDataSimulator rnd1 rnd2 0
           "EURUSD" Scenario.first_hour Scenario.last_hour "combined"
           Scenario.quick_rsi).
  intros j Hj. change (historical_fuel _ _ _) with 3%nat in Hj.
  unfold rnd1, rnd2.
  replace (j <? 12)%nat with true by (symmetry; apply Nat.ltb_lt; lia).
  reflexivity.
Defined.

(** C5 as the specification states it fails.  Two runs of the same
    backtest (EURUSD, the same three hours, the same parameters) on the
    same simulator, one drawing 0.25 and the other 0.125 from
    [Math.random], differ in their bars, in their trades (9,225 units
    bought against 9,230) and in their final balance. *)
Lemma same_inputs_different_backtests :
  let run rnd :=
    runBacktest Scenario.sqrt9 newFXDataSimulator rnd 0 "EURUSD"
      Scenario.first_hour Scenario.last_hour "combined" Scenario.quick_rsi in
  let bars rnd :=
    generateHistoricalData newFXDataSimulator rnd 0 "EURUSD"
      Scenario.first_hour Scenario.last_hour "1hour" in
  match bars (fun _ => 0.25), bars (fun _ => 0.125),
        run (fun _ => 0.25), run (fun _ => 0.125) with
  | Some (bars1, _), Some (bars2, _), Some r1, Some r2 =>
    map b_timestamp bars1 = map b_timestamp bars2
    /\ ~ Forall2 (fun x y => b_close x == b_close y) bars1 bars2
    /\ map bt_quantity (r_trades r1) = [inject_Z 9225]
    /\ map bt_quantity (r_trades r2) = [inject_Z 9230]
    /\ ~ finalBalance (r_stats r1) == finalBalance (r_stats r2)
    /\ ~ returnPercent (r_stats r1) == returnPercent (r_stats r2)
  | _, _, _, _ => False
  end.
Proof.
  vm_compute.
  split; [reflexivity|].
  split.
  { intros H. inversion H as [|x y l1 l2 Hxy _]. discriminate Hxy. }
  split; [reflexivity|]. split; [reflexivity|].
  split; discriminate.
Qed.

(** ** The price history *)

Lemma history_of_lookup (a : TradingAlgorithms) (symbol : string) :
  history_of a symbol = default [] (priceHistory a !! symbol).
Proof. reflexivity. Qed.

Lemma addPriceData_history (now : Z) (a : TradingAlgorithms) (symbol : string)
    (p : Quote) (ts : option Z) :
  history_of (addPriceData now a symbol p ts) symbol =
    drop (length (history_of a symbol) + 1 - maxHistory a)
         (history_of a symbol ++ [point_of now p ts]).
Proof.
  rewrite !history_of_lookup. unfold addPriceData. cbn [priceHistory].
  rewrite lookup_insert_eq. cbn [from_option id].
  fold (point_of now p ts).
  set (h := default [] (priceHistory a !! symbol)).
  rewrite length_app. cbn [length].
  destruct (maxHistory a <? length h + 1)%nat eqn:E; [reflexivity|].
  apply Nat.ltb_ge in E.
  replace (length h + 1 - maxHistory a)%nat with 0%nat by lia. reflexivity.
Qed.

Lemma addPriceData_other (now : Z) (a : TradingAlgorithms) (symbol other : string)
    (p : Quote) (ts : option Z) :
  symbol <> other ->
  history_of (addPriceData now a symbol p ts) other = history_of a other.
Proof.
  intros H. rewrite !history_of_lookup. unfold addPriceData. cbn [priceHistory].
  now rewrite lookup_insert_ne.
Qed.

Lemma addPriceData_maxHistory (now : Z) (a : TradingAlgorithms) (symbol : string)
    (p : Quote) (ts : option Z) :
  maxHistory (addPriceData now a symbol p ts) = maxHistory a.
Proof. reflexivity. Qed.

Lemma history_of_new (symbol : string) :
  history_of newTradingAlgorithms symbol = [].
Proof.
  rewrite history_of_lookup. unfold newTradingAlgorithms. cbn [priceHistory].
  now rewrite lookup_empty.
Qed.

Lemma feed_history (quotes : list (Quote * Z)) :
  forall (a : TradingAlgorithms) (symbol : string),
    (length (history_of a symbol) <= maxHistory a)%nat ->
    let all := history_of a symbol
               ++ map (fun qt => point_of 0 qt.1 (Some qt.2)) quotes in
    history_of (feed a symbol quotes) symbol = drop (length all - maxHistory a) all
    /\ maxHistory (feed a symbol quotes) = maxHistory a.
Proof.
  induction quotes as [|qt quotes IH]; intros a symbol Hlen; cbn zeta.
  - cbn [map feed fold_left]. rewrite app_nil_r.
    replace (length (history_of a symbol) - maxHistory a)%nat with 0%nat by lia.
    split; reflexivity.
  - cbn [map]. unfold feed. cbn [fold_left].
    set (a1 := addPriceData 0 a symbol qt.1 (Some qt.2)).
    fold (feed a1 symbol quotes).
    pose proof (addPriceData_history 0 a symbol qt.1 (Some qt.2)) as H1.
    fold a1 in H1.
    assert (Hm : maxHistory a1 = maxHistory a) by reflexivity.
    assert (Hlen1 : (length (history_of a1 symbol) <= maxHistory a1)%nat).
    { rewrite H1, length_drop, length_app. cbn [length]. lia. }
    destruct (IH a1 symbol Hlen1) as [IH1 IH2]. cbn zeta in IH1.
    split; [|congruence].
    rewrite IH1, Hm, H1.
    set (h := history_of a symbol) in *.
    set (pt := point_of 0 qt.1 (Some qt.2)).
    set (pts := map (fun qt0 : Quote * Z => point_of 0 qt0.1 (Some qt0.2)) quotes).
    set (d := (length h + 1 - maxHistory a)%nat).
    assert (Hd : (d <= length (h ++ [pt]))%nat)
      by (rewrite length_app; cbn [length]; lia).
    rewrite <- (drop_app_le (h ++ [pt]) pts d Hd).
    rewrite drop_drop. rewrite <- app_assoc. cbn [app].
    f_equal. rewrite !length_app, length_drop, !length_app. cbn [length].
    subst d. lia.
Qed.

(** X1.  History bound.  After any number of quotes fed to a new
    algorithms object for one symbol, the symbol's history is the last
    200 of the points in the order received (all of them when there are
    fewer), so it never holds more than 200 points; the histories of the
    other symbols stay empty. *)
Theorem feed_keeps_last_200 (symbol : string) (quotes : list (Quote * Z)) :
  let points := map (fun qt => point_of 0 qt.1 (Some qt.2)) quotes in
  let a := feed newTradingAlgorithms symbol quotes in
  history_of a symbol = drop (length quotes - 200) points
  /\ length (history_of a symbol) = Nat.min (length quotes) 200
  /\ (forall other, other <> symbol -> history_of a other = []).
Proof.
  intros points a.
  assert (H0 : (length (history_of newTradingAlgorithms symbol)
                <= maxHistory newTradingAlgorithms)%nat)
    by (rewrite history_of_new; cbn; lia).
  destruct (feed_history quotes newTradingAlgorithms symbol H0) as [H _].
  cbn zeta in H.
  rewrite history_of_new in H. cbn [app] in H. rewrite length_map in H.
  change (maxHistory newTradingAlgorithms) with 200%nat in H.
  split; [exact H|]. split.
  - fold a in H. rewrite H, length_drop. unfold points. rewrite length_map. lia.
  - intros other Hne. subst a. clear H H0 points.
    assert (G : forall a0, history_of a0 other = [] ->
                history_of (feed a0 symbol quotes) other = []).
    { induction quotes as [|qt quotes IH]; intros a0 Ha0; [exact Ha0|].
      unfold feed. cbn [fold_left]. apply IH.
      rewrite addPriceData_other by congruence. exact Ha0. }
    apply G. apply history_of_new.
Qed.

(** X2.  The point stored for a quote has the quote's mid as price, its
    ask as high and its bid as low, and it is the last of the history
    whenever the history may keep a point at all. *)
Theorem addPriceData_point (now : Z) (a : TradingAlgorithms) (symbol : string)
    (p : Quote) (ts : option Z) :
  (0 < maxHistory a)%nat ->
  exists pt,
    last (history_of (addPriceData now a symbol p ts) symbol) = Some pt
    /\ price pt == (q_bid p + q_ask p) / 2
    /\ high pt == q_ask p
    /\ low pt == q_bid p
    /\ timestamp pt = default now ts.
Proof.
  intros Hmax. exists (point_of now p ts).
  rewrite addPriceData_history. split.
  - set (h := history_of a symbol).
    set (d := (length h + 1 - maxHistory a)%nat).
    assert (Hd : (d <= length h)%nat) by (subst d; lia).
    rewrite drop_app_le by exact Hd. apply last_snoc.
  - unfold point_of. cbn. repeat split; try reflexivity; field.
Qed.

Lemma addPriceData_point_witness :
  (0 < maxHistory newTradingAlgorithms)%nat
  /\ exists pt,
       last (history_of (addPriceData 7 newTradingAlgorithms "EURUSD"
                           (mkQuote 1.0849 1.0851 None) None) "EURUSD") = Some pt
       /\ price pt == 1.0850 /\ high pt == 1.0851 /\ low pt == 1.0849
       /\ timestamp pt = 7%Z.
Proof.
  assert (H : (0 < maxHistory newTradingAlgorithms)%nat) by (cbn; lia).
  split; [exact H|].
  destruct (addPriceData_point 7 newTradingAlgorithms "EURUSD"
              (mkQuote 1.0849 1.0851 None) None H)
    as (pt & Hl & Hp & Hh & Hlo & Ht).
  exists pt. split; [exact Hl|]. split; [rewrite Hp; reflexivity|].
  split; [exact Hh|]. split; [exact Hlo|exact Ht].
Defined.

(** ** Ranges of the indicators *)

Lemma of_nat_S (n : nat) : Num.of_nat (S n) == Num.of_nat n + 1.
Proof.
  unfold Num.of_nat. rewrite Nat2Z.inj_succ, <- Z.add_1_r, inject_Z_plus.
  reflexivity.
Qed.

Lemma sum_between (lo hi : Q) (l : list Q) :
  Forall (fun x => lo <= x <= hi) l ->
  Num.of_nat (length l) * lo <= sum l <= Num.of_nat (length l) * hi.
Proof.
  induction 1 as [|x l [Hlo Hhi] _ IH].
  - change (0 * lo <= 0 <= 0 * hi). lra.
  - cbn [length]. rewrite sum_cons, of_nat_S. lra.
Qed.

Lemma sum_nonneg (l : list Q) : Forall (fun x => 0 <= x) l -> 0 <= sum l.
Proof.
  induction 1 as [|x l Hx _ IH].
  - change (0 <= 0). lra.
  - rewrite sum_cons. lra.
Qed.

Lemma sum_pos (l : list Q) : l <> [] -> Forall (fun x => 0 < x) l -> 0 < sum l.
Proof.
  intros Hne H. destruct H as [|x l Hx Hl]; [congruence|].
  rewrite sum_cons.
  assert (0 <= sum l) by (apply sum_nonneg; eapply Forall_impl; [exact Hl|];
                          cbn; intros; lra).
  lra.
Qed.

Lemma div_between (lo hi s n : Q) :
  0 < n -> n * lo <= s <= n * hi -> lo <= s / n <= hi.
Proof.
  intros Hn [H1 H2]. split.
  - apply Qle_shift_div_l; [exact Hn|]. lra.
  - apply Qle_shift_div_r; [exact Hn|]. lra.
Qed.

Lemma slice_last_Forall {A} (P : A -> Prop) (n : nat) (l : list A) :
  Forall P l -> Forall P (slice_last n l).
Proof.
  intros H. unfold slice_last. destruct n; [exact H|]. now apply Forall_drop.
Qed.

(** X3.  A simple moving average over [n >= 1] points exists exactly
    when the history has at least [n] points, and it lies between any
    two bounds that hold for every price of the history. *)
Theorem calculateSMA_between (a : TradingAlgorithms) (symbol : string) (n : nat)
    (lo hi : Q) :
  (0 < n)%nat ->
  Forall (fun pt => lo <= price pt <= hi) (history_of a symbol) ->
  ((length (history_of a symbol) < n)%nat -> calculateSMA a symbol n = None)
  /\ ((n <= length (history_of a symbol))%nat ->
      exists v, calculateSMA a symbol n = Some v /\ lo <= v <= hi).
Proof.
  intros Hn Hall. rewrite calculateSMA_spec by exact Hn.
  unfold prices_of. rewrite length_map. split; intros Hlen.
  - replace (_ <? _)%nat with true by (symmetry; apply Nat.ltb_lt; lia).
    reflexivity.
  - replace (_ <? _)%nat with false by (symmetry; apply Nat.ltb_ge; lia).
    eexists. split; [reflexivity|].
    unfold SMA, mean.
    assert (Hw : Forall (fun x => lo <= x <= hi)
                   (slice_last n (map price (history_of a symbol)))).
    { apply slice_last_Forall. apply Forall_map. exact Hall. }
    assert (Hl : length (slice_last n (map price (history_of a symbol))) = n).
    { rewrite slice_last_length by exact Hn. rewrite length_map. lia. }
    pose proof (sum_between lo hi _ Hw) as Hs. rewrite Hl in Hs |- *.
    apply div_between; [now apply of_nat_pos|exact Hs].
Qed.

Lemma calculateSMA_between_witness :
  let a := Scenario.with_history [1; 2; 3] in
  (0 < 2)%nat
  /\ Forall (fun pt => 1 <= price pt <= 3) (history_of a "EURUSD")
  /\ exists v, calculateSMA a "EURUSD" 2 = Some v /\ 1 <= v <= 3.
Proof.
  intros a.
  assert (Hn : (0 < 2)%nat) by lia.
  assert (Hall : Forall (fun pt => 1 <= price pt <= 3) (history_of a "EURUSD")).
  { vm_compute. repeat constructor; discriminate. }
  split; [exact Hn|]. split; [exact Hall|].
  apply (proj2 (calculateSMA_between a "EURUSD" 2 1 3 Hn Hall)).
  vm_compute. lia.
Defined.

Lemma gain_of_nonneg (d : Q) : 0 <= gain_of d.
Proof.
  unfold gain_of. destruct (Num.gtb d 0) eqn:E; [|lra].
  apply gtb_true in E. lra.
Qed.

Lemma loss_of_nonneg (d : Q) : 0 <= loss_of d.
Proof.
  unfold loss_of. destruct (Num.gtb d 0); [lra|]. apply Qabs_nonneg.
Qed.

(** [calculateRSI] on a history long enough, in terms of the differences
    of its last [n + 1] prices. *)
Lemma calculateRSI_unfold (a : TradingAlgorithms) (symbol : string) (n : nat) :
  (0 < n)%nat ->
  calculateRSI a symbol n =
    if (length (history_of a symbol) <? n + 1)%nat then None
    else
      let d := diffs (slice_last (n + 1) (prices_of a symbol)) in
      let avgGain := sum (map gain_of d) / Num.of_nat n in
      let avgLoss := sum (map loss_of d) / Num.of_nat n in
      if Num.eqb avgLoss 0 then Some 100
      else Some (100 - 100 / (1 + avgGain / avgLoss)).
Proof.
  intros Hn. unfold calculateRSI, prices_of.
  rewrite getPriceHistory_some by lia.
  set (h := history_of a symbol).
  rewrite slice_last_length by lia.
  destruct (length h <? n + 1)%nat eqn:Hlen.
  { apply Nat.ltb_lt in Hlen.
    replace (Nat.min (n + 1) (length h) <? n + 1)%nat with true
      by (symmetry; apply Nat.ltb_lt; lia).
    reflexivity. }
  apply Nat.ltb_ge in Hlen.
  replace (Nat.min (n + 1) (length h) <? n + 1)%nat with false
    by (symmetry; apply Nat.ltb_ge; lia).
  rewrite <- slice_last_map.
  assert (Hw : length (slice_last (n + 1) h) = (n + 1)%nat)
    by (rewrite slice_last_length by lia; lia).
  destruct (slice_last (n + 1) h) as [|h0 rest] eqn:Hh; [cbn in Hw; lia|].
  rewrite rsi_loop_diffs. cbn [app map]. rewrite !sum_by_id. reflexivity.
Qed.

Lemma rsi_value_range (g l n : Q) :
  0 < n -> 0 <= g -> 0 <= l -> ~ l / n == 0 ->
  0 <= 100 - 100 / (1 + (g / n) / (l / n)) < 100.
Proof.
  intros Hn Hg Hl Hnz.
  assert (Hln : 0 < l / n).
  { assert (0 <= l / n) by (apply Qle_shift_div_l; lra).
    destruct (Qlt_le_dec 0 (l / n)); [assumption|].
    exfalso. apply Hnz. lra. }
  assert (Hgn : 0 <= g / n) by (apply Qle_shift_div_l; lra).
  assert (Hrs : 0 <= (g / n) / (l / n)) by (apply Qle_shift_div_l; lra).
  set (rs := (g / n) / (l / n)) in *.
  assert (Hx : 0 < 1 + rs) by lra.
  assert (H1 : 100 / (1 + rs) <= 100) by (apply Qle_shift_div_r; lra).
  assert (H2 : 0 < 100 / (1 + rs)) by (apply Qlt_shift_div_l; lra).
  lra.
Qed.

Lemma calculateRSI_bounds (a : TradingAlgorithms) (symbol : string) (n : nat)
    (r : Q) :
  (0 < n)%nat -> calculateRSI a symbol n = Some r -> 0 <= r <= 100.
Proof.
  intros Hn. rewrite calculateRSI_unfold by exact Hn.
  destruct (_ <? _)%nat; [discriminate|]. cbn zeta.
  set (d := diffs _).
  destruct (Num.eqb _ 0) eqn:E; intros H; injection H as <-; [lra|].
  apply eqb_false in E.
  pose proof (rsi_value_range (sum (map gain_of d)) (sum (map loss_of d))
                (Num.of_nat n)) as R.
  assert (0 <= sum (map gain_of d))
    by (apply sum_nonneg, Forall_map, Forall_forall; intros; apply gain_of_nonneg).
  assert (0 <= sum (map loss_of d))
    by (apply sum_nonneg, Forall_map, Forall_forall; intros; apply loss_of_nonneg).
  pose proof (of_nat_pos n Hn). specialize (R ltac:(assumption) ltac:(assumption)
    ltac:(assumption) E). lra.
Qed.

Lemma sum_zero (l : list Q) :
  Forall (fun x => 0 <= x) l -> sum l == 0 -> Forall (fun x => x == 0) l.
Proof.
  induction 1 as [|x l Hx Hl IH]; intros Hs; [constructor|].
  rewrite sum_cons in Hs. pose proof (sum_nonneg l Hl).
  constructor; [lra|]. apply IH. lra.
Qed.

Lemma sum_all_zero (l : list Q) : Forall (fun x => x == 0) l -> sum l == 0.
Proof.
  induction 1 as [|x l Hx _ IH]; [reflexivity|]. rewrite sum_cons. lra.
Qed.

Lemma loss_of_zero (d : Q) : loss_of d == 0 <-> 0 <= d.
Proof.
  unfold loss_of, Num.abs. destruct (Num.gtb d 0) eqn:E.
  - apply gtb_true in E. split; intros; lra.
  - apply gtb_false in E. rewrite Qabs_neg by exact E. split; intros; lra.
Qed.

(** X4.  Whenever [calculateRSI] returns a value for a period
    [n >= 1], the value lies between 0 and 100, and it is 100 exactly
    when no price of the window (the last [n + 1] prices) is below the
    price before it. *)
Theorem calculateRSI_range (a : TradingAlgorithms) (symbol : string) (n : nat)
    (r : Q) :
  (0 < n)%nat ->
  calculateRSI a symbol n = Some r ->
  0 <= r <= 100
  /\ (r == 100 <->
      Forall (fun d => 0 <= d) (diffs (slice_last (n + 1) (prices_of a symbol)))).
Proof.
  intros Hn Hr. split; [exact (calculateRSI_bounds a symbol n r Hn Hr)|].
  rewrite calculateRSI_unfold in Hr by exact Hn.
  destruct (_ <? _)%nat; [discriminate|]. cbn zeta in Hr.
  set (d := diffs _) in *.
  assert (Hg : 0 <= sum (map gain_of d))
    by (apply sum_nonneg, Forall_map, Forall_forall; intros; apply gain_of_nonneg).
  assert (Hlf : Forall (fun x => 0 <= x) (map loss_of d))
    by (apply Forall_map, Forall_forall; intros; apply loss_of_nonneg).
  assert (Hl : 0 <= sum (map loss_of d)) by (now apply sum_nonneg).
  pose proof (of_nat_pos n Hn) as Hpos.
  assert (Hzero : sum (map loss_of d) / Num.of_nat n == 0 <->
                  Forall (fun x => 0 <= x) d).
  { split.
    - intros Hz.
      assert (Hs : sum (map loss_of d) == 0).
      { assert (E : sum (map loss_of d)
                    == (sum (map loss_of d) / Num.of_nat n) * Num.of_nat n)
          by (field; lra).
        rewrite E, Hz. lra. }
      pose proof (sum_zero _ Hlf Hs) as Hall.
      apply Forall_map in Hall. eapply Forall_impl; [exact Hall|].
      cbn. intros x Hx. now apply loss_of_zero.
    - intros Hall.
      assert (Hs : sum (map loss_of d) == 0).
      { apply sum_all_zero, Forall_map. eapply Forall_impl; [exact Hall|].
        cbn. intros x Hx. now apply loss_of_zero. }
      rewrite Hs. field. lra. }
  destruct (Num.eqb _ 0) eqn:E; injection Hr as <-.
  - apply eqb_true in E. split; [intros _; now apply Hzero|reflexivity].
  - apply eqb_false in E.
    pose proof (rsi_value_range _ _ _ Hpos Hg Hl E) as [_ Hlt].
    split; [intros H100; lra|]. intros Hall. exfalso. apply E. now apply Hzero.
Qed.

Lemma calculateRSI_range_witness :
  (0 < 2)%nat
  /\ calculateRSI (Scenario.with_history [1; 3; 2]) "EURUSD" 2 = Some (100 - 100 / (1 + (2 / 2) / ((1#1) / 2)))
  /\ 0 <= 100 - 100 / (1 + (2 / 2) / ((1#1) / 2)) <= 100.
Proof.
  assert (Hn : (0 < 2)%nat) by lia.
  assert (H : calculateRSI (Scenario.with_history [1; 3; 2]) "EURUSD" 2
              = Some (100 - 100 / (1 + (2 / 2) / ((1#1) / 2)))) by reflexivity.
  split; [exact Hn|]. split; [exact H|].
  exact (proj1 (calculateRSI_range _ _ _ _ Hn H)).
Defined.

(** ** The strategies *)

Lemma min_one_range (x : Q) : 0 <= x -> 0 <= Num.min x 1 <= 1.
Proof. intros H. destruct (min_spec x 1) as [[? ->]|[? ->]]; lra. Qed.

Lemma min_one_pos (x : Q) : 0 < x -> 0 < Num.min x 1.
Proof. intros H. destruct (min_spec x 1) as [[? ->]|[? ->]]; lra. Qed.

(** X5.  The RSI strategy with thresholds [0 < oversold] and
    [overbought < 100]: without an RSI value it holds with reason
    [insufficient_data]; with a value [r] it sells exactly when
    [r > overbought], buys exactly when [r <= overbought] and
    [r < oversold], and holds otherwise; its confidence is between 0 and
    1, and positive whenever it does not hold. *)
Theorem getRSISignal_spec (a : TradingAlgorithms) (symbol : string) (n : nat)
    (overbought oversold : Q) :
  (0 < n)%nat -> 0 < oversold -> overbought < 100 ->
  let sg := getRSISignal a symbol n overbought oversold in
  (calculateRSI a symbol n = None ->
   sg = mkSignal hold 0 "insufficient_data" ExRSINull)
  /\ (forall r, calculateRSI a symbol n = Some r ->
        (signal sg = sell <-> overbought < r)
        /\ (signal sg = buy <-> r <= overbought /\ r < oversold)
        /\ (signal sg = sell -> reason sg = "overbought")
        /\ (signal sg = buy -> reason sg = "oversold")
        /\ (signal sg = hold -> reason sg = "neutral" /\ confidence sg == 0))
  /\ 0 <= confidence sg <= 1
  /\ (signal sg <> hold -> 0 < confidence sg).
Proof.
  intros Hn Hos Hob sg. subst sg. unfold getRSISignal.
  destruct (calculateRSI a symbol n) as [r|] eqn:Hr.
  2:{ split; [reflexivity|]. split; [discriminate|]. cbn.
      split; [lra|]. intros H. now contradiction H. }
  pose proof (calculateRSI_bounds a symbol n r Hn Hr) as [Hr0 Hr100].
  split; [discriminate|].
  destruct (Num.gtb r overbought) eqn:E1.
  - apply gtb_true in E1. cbn [signal confidence reason].
    assert (Hq : 0 < (r - overbought) / (100 - overbought))
      by (apply Qlt_shift_div_l; lra).
    split; [|split].
    + intros r' [= <-].
      split; [split; [intros _; exact E1|reflexivity]|].
      split; [split; [discriminate|intros [? ?]; lra]|].
      split; [reflexivity|]. split; discriminate.
    + apply min_one_range; lra.
    + intros _. now apply min_one_pos.
  - apply gtb_false in E1. destruct (Num.ltb r oversold) eqn:E2.
    + apply ltb_true in E2. cbn [signal confidence reason].
      assert (Hq : 0 < (oversold - r) / oversold)
        by (apply Qlt_shift_div_l; lra).
      split; [|split].
      * intros r' [= <-].
        split; [split; [discriminate|intros; lra]|].
        split; [split; [intros _; split; assumption|reflexivity]|].
        split; [discriminate|]. split; [reflexivity|discriminate].
      * apply min_one_range; lra.
      * intros _. now apply min_one_pos.
    + apply ltb_false in E2. cbn [signal confidence reason].
      split; [|split].
      * intros r' [= <-].
        split; [split; [discriminate|intros; lra]|].
        split; [split; [discriminate|intros [? ?]; lra]|].
        split; [discriminate|]. split; [discriminate|].
        intros _. split; reflexivity.
      * lra.
      * intros H. now contradiction H.
Qed.

Lemma getRSISignal_spec_witness :
  let a := Scenario.with_history Scenario.falling in
  (0 < 14)%nat /\ 0 < 30 /\ 70 < 100
  /\ signal (getRSISignal a "EURUSD" 14 70 30) = buy
  /\ 0 < confidence (getRSISignal a "EURUSD" 14 70 30) <= 1.
Proof.
  intros a.
  assert (Hn : (0 < 14)%nat) by lia.
  assert (H30 : 0 < 30) by reflexivity.
  assert (H70 : 70 < 100) by reflexivity.
  destruct (getRSISignal_spec a "EURUSD" 14 70 30 Hn H30 H70)
    as (_ & _ & Hrange & Hpos).
  assert (Hs : signal (getRSISignal a "EURUSD" 14 70 30) = buy) by reflexivity.
  split; [exact Hn|]. split; [exact H30|]. split; [exact H70|].
  split; [exact Hs|]. split; [|apply Hrange].
  apply Hpos. rewrite Hs. discriminate.
Defined.

Lemma sqrt9_nonneg (x : Q) : 0 <= Scenario.sqrt9 x.
Proof.
  unfold Scenario.sqrt9. apply Qle_shift_div_l; [reflexivity|].
  rewrite Qmult_0_l. change 0 with (inject_Z 0). rewrite <- Zle_Qle.
  apply Z.sqrt_nonneg.
Qed.

(** X6.  Bollinger bands over [n >= 1] points exist exactly when the
    simple moving average over [n] points does, their middle band is
    that average, the upper and lower bands are at the same distance
    from it, and for [k >= 0] and a square root that is never negative
    they are ordered: lower <= middle <= upper. *)
Theorem calculateBollingerBands_spec (Math_sqrt : Q -> Q) (a : TradingAlgorithms)
    (symbol : string) (n : nat) (k : Q) :
  (0 < n)%nat ->
  ((length (history_of a symbol) < n)%nat ->
   calculateBollingerBands Math_sqrt a symbol n k = None
   /\ calculateSMA a symbol n = None)
  /\ ((n <= length (history_of a symbol))%nat ->
      exists b,
        calculateBollingerBands Math_sqrt a symbol n k = Some b
        /\ calculateSMA a symbol n = Some (middle b)
        /\ upper b - middle b == middle b - lower b
        /\ (0 <= k -> (forall x, 0 <= Math_sqrt x) ->
            lower b <= middle b <= upper b)).
Proof.
  intros Hn. unfold calculateBollingerBands, calculateSMA.
  rewrite getPriceHistory_some by exact Hn.
  set (h := history_of a symbol).
  rewrite slice_last_length by exact Hn.
  split; intros Hlen.
  - replace (_ <? _)%nat with true by (symmetry; apply Nat.ltb_lt; lia).
    split; reflexivity.
  - replace (_ <? _)%nat with false by (symmetry; apply Nat.ltb_ge; lia).
    eexists. split; [reflexivity|]. cbn [middle upper lower].
    split; [now rewrite sum_by_id, sum_by_map|].
    split; [ring|].
    intros Hk Hsqrt.
    match goal with |- context [Math_sqrt ?v] => pose proof (Hsqrt v) as Hv end.
    assert (0 <= k * Math_sqrt
                     (Num.sum_by id
                        (map (fun p => (p - Num.sum_by id (map price (slice_last n h))
                                              / Num.of_nat n)
                                       * (p - Num.sum_by id (map price (slice_last n h))
                                              / Num.of_nat n))
                             (map price (slice_last n h))) / Num.of_nat n))
      by (apply Qmult_le_0_compat; assumption).
    split; lra.
Qed.

Lemma calculateBollingerBands_spec_witness :
  let a := Scenario.with_history [1; 3] in
  (0 < 2)%nat /\ 0 <= 2 /\ (forall x, 0 <= Scenario.sqrt9 x)
  /\ exists b,
       calculateBollingerBands Scenario.sqrt9 a "EURUSD" 2 2 = Some b
       /\ lower b <= middle b <= upper b.
Proof.
  intros a.
  assert (Hn : (0 < 2)%nat) by lia.
  assert (Hk : 0 <= 2) by discriminate.
  assert (Hlen : (2 <= length (history_of a "EURUSD"))%nat) by (vm_compute; lia).
  split; [exact Hn|]. split; [exact Hk|]. split; [exact sqrt9_nonneg|].
  destruct (proj2 (calculateBollingerBands_spec Scenario.sqrt9 a "EURUSD" 2 2 Hn) Hlen)
    as (b & Hb & _ & _ & Hord).
  exists b. split; [exact Hb|]. exact (Hord Hk sqrt9_nonneg).
Defined.

(** ** More on the consensus *)

Lemma combineSignals_by_votes (s1 s2 s3 : Signal) :
  let c := combineSignals s1 s2 s3 in
  let B := votes buy [s1; s2; s3] in
  let S := votes sell [s1; s2; s3] in
  ((length S < length B)%nat /\ c_signal c = buy
   /\ c_confidence c == Qmin (mean B) 1)
  \/ ((length B < length S)%nat /\ c_signal c = sell
      /\ c_confidence c == Qmin (mean S) 1)
  \/ (length B = length S /\ c_signal c = hold /\ c_confidence c == 0).
Proof.
  intros c B S. subst c B S. rewrite !votes_filter. unfold combineSignals.
  set (V := List.filter (fun s => Num.gtb (confidence s) 0) [s1; s2; s3]).
  set (FB := List.filter (fun s => Side_eqb (signal s) buy) V).
  set (FS := List.filter (fun s => Side_eqb (signal s) sell) V).
  unfold mean. rewrite !length_map.
  destruct (length V =? 0)%nat eqn:HV.
  { right. right. apply Nat.eqb_eq in HV. destruct V; [|discriminate].
    subst FB FS. cbn. repeat split; reflexivity. }
  destruct (length FS <? length FB)%nat eqn:Hb.
  { left. apply Nat.ltb_lt in Hb. split; [exact Hb|]. split; [reflexivity|].
    cbn [c_confidence]. rewrite sum_by_map. apply Num_min_Qmin. }
  destruct (length FB <? length FS)%nat eqn:Hs.
  { right. left. apply Nat.ltb_lt in Hs. split; [exact Hs|]. split; [reflexivity|].
    cbn [c_confidence]. rewrite sum_by_map. apply Num_min_Qmin. }
  right. right. apply Nat.ltb_ge in Hb, Hs. split; [lia|]. split; reflexivity.
Qed.

Lemma votes_positive (s : Side) (l : list Signal) :
  Forall (fun x => 0 < x) (votes s l).
Proof.
  induction l as [|x l IH]; [constructor|]. cbn [votes].
  destruct (Qlt_le_dec 0 (confidence x)); [|exact IH].
  destruct (Side_eqb (signal x) s); [|exact IH]. now constructor.
Qed.

Lemma mean_positive (l : list Q) :
  (0 < length l)%nat -> Forall (fun x => 0 < x) l -> 0 < mean l.
Proof.
  intros Hlen Hall. unfold mean.
  apply Qlt_shift_div_l; [now apply of_nat_pos|]. rewrite Qmult_0_l.
  apply sum_pos; [|exact Hall]. intros ->. cbn in Hlen. lia.
Qed.

Lemma Qmin_one_range (x : Q) : 0 < x -> 0 < Qmin x 1 <= 1.
Proof.
  intros H. destruct (Q.min_spec x 1) as [[? E]|[? E]]; rewrite E; lra.
Qed.

(** X7.  Whatever the three component signals, the consensus has a
    confidence between 0 and 1, and it holds exactly when that
    confidence is 0: a BUY or SELL consensus always has a positive
    confidence. *)
Theorem combineSignals_confidence (s1 s2 s3 : Signal) :
  let c := combineSignals s1 s2 s3 in
  0 <= c_confidence c <= 1
  /\ (c_signal c = hold <-> c_confidence c == 0).
Proof.
  intros c. subst c.
  destruct (combineSignals_by_votes s1 s2 s3)
    as [(Hlen & Hs & Hc)|[(Hlen & Hs & Hc)|(_ & Hs & Hc)]].
  - assert (Hn : (0 < length (votes buy [s1; s2; s3]))%nat) by lia.
    pose proof (Qmin_one_range _ (mean_positive _ Hn
                  (votes_positive buy [s1; s2; s3]))) as Hr.
    rewrite <- Hc in Hr. split; [lra|]. rewrite Hs.
    split; [discriminate|intros; lra].
  - assert (Hn : (0 < length (votes sell [s1; s2; s3]))%nat) by lia.
    pose proof (Qmin_one_range _ (mean_positive _ Hn
                  (votes_positive sell [s1; s2; s3]))) as Hr.
    rewrite <- Hc in Hr. split; [lra|]. rewrite Hs.
    split; [discriminate|intros; lra].
  - split; [lra|]. split; [intros _; exact Hc|intros _; exact Hs].
Qed.

Lemma votes_Permutation (s : Side) (l l' : list Signal) :
  Permutation l l' -> Permutation (votes s l) (votes s l').
Proof.
  induction 1 as [|x l l' _ IH|x y l|l l' l'' _ IH1 _ IH2].
  - constructor.
  - cbn [votes]. destruct (Qlt_le_dec 0 (confidence x)); [|exact IH].
    destruct (Side_eqb (signal x) s); [|exact IH]. now constructor.
  - cbn [votes].
    destruct (Qlt_le_dec 0 (confidence y)), (Qlt_le_dec 0 (confidence x));
      destruct (Side_eqb (signal y) s), (Side_eqb (signal x) s);
      try reflexivity; apply perm_swap.
  - now transitivity (votes s l').
Qed.

Lemma sum_Permutation (l l' : list Q) : Permutation l l' -> sum l == sum l'.
Proof.
  induction 1 as [|x l l' _ IH|x y l|l l' l'' _ IH1 _ IH2].
  - reflexivity.
  - rewrite !sum_cons, IH. reflexivity.
  - rewrite !sum_cons. lra.
  - now rewrite IH1.
Qed.

Lemma mean_Permutation (l l' : list Q) : Permutation l l' -> mean l == mean l'.
Proof.
  intros H. unfold mean.
  rewrite (sum_Permutation _ _ H), (Permutation_length H). reflexivity.
Qed.

(** X8.  The consensus does not depend on the order in which the three
    strategies are taken: any permutation of the component signals gives
    the same signal and the same confidence. *)
Theorem combineSignals_order (s1 s2 s3 t1 t2 t3 : Signal) :
  Permutation [s1; s2; s3] [t1; t2; t3] ->
  c_signal (combineSignals s1 s2 s3) = c_signal (combineSignals t1 t2 t3)
  /\ c_confidence (combineSignals s1 s2 s3)
     == c_confidence (combineSignals t1 t2 t3).
Proof.
  intros HP.
  pose proof (votes_Permutation buy _ _ HP) as HB.
  pose proof (votes_Permutation sell _ _ HP) as HS.
  pose proof (Permutation_length HB) as HBl.
  pose proof (Permutation_length HS) as HSl.
  pose proof (mean_Permutation _ _ HB) as HBm.
  pose proof (mean_Permutation _ _ HS) as HSm.
  destruct (combineSignals_by_votes s1 s2 s3)
    as [(L1 & S1 & C1)|[(L1 & S1 & C1)|(L1 & S1 & C1)]];
    destruct (combineSignals_by_votes t1 t2 t3)
      as [(L2 & S2 & C2)|[(L2 & S2 & C2)|(L2 & S2 & C2)]];
    try lia; rewrite S1, S2, C1, C2; split; try reflexivity.
  - now rewrite HBm.
  - now rewrite HSm.
Qed.

Lemma combineSignals_order_witness :
  let s1 := mkSignal buy 0.8 "golden_cross" ExNone in
  let s2 := mkSignal sell 0.3 "overbought" ExRSINull in
  let s3 := mkSignal buy 0.6 "below_lower_band" ExBBNull in
  Permutation [s1; s2; s3] [s2; s3; s1]
  /\ c_signal (combineSignals s1 s2 s3) = c_signal (combineSignals s2 s3 s1)
  /\ c_confidence (combineSignals s1 s2 s3)
     == c_confidence (combineSignals s2 s3 s1).
Proof.
  intros s1 s2 s3.
  assert (HP : Permutation [s1; s2; s3] [s2; s3; s1]).
  { apply perm_trans with [s2; s1; s3]; [apply perm_swap|].
    apply perm_skip, perm_swap. }
  split; [exact HP|]. exact (combineSignals_order s1 s2 s3 s2 s3 s1 HP).
Defined.

(** ** Sizing and the risk checks *)

(** X9.  Position sizing.  For a positive mid price the size is the
    larger of [defaultPositionSize * confidence] and [1000 / mid], so
    the order is worth at least 1,000 at mid. *)
Theorem calculatePositionSize_floor (e : TradingEngine) (p : PriceData) (c : Q) :
  0 < mid p ->
  let size := calculatePositionSize e p c in
  defaultPositionSize e * c <= size
  /\ 1000 / mid p <= size
  /\ (size = defaultPositionSize e * c \/ size = 1000 / mid p)
  /\ 1000 <= size * mid p.
Proof.
  intros Hmid size. subst size. unfold calculatePositionSize.
  assert (Hmin : (1000 / mid p) * mid p == 1000) by (field; lra).
  destruct (max_spec (defaultPositionSize e * c) (1000 / mid p)) as [[H ->]|[H ->]].
  - repeat split; try lra; auto.
  - repeat split; try lra; auto. nra.
Qed.

Lemma calculatePositionSize_floor_witness :
  let p := mkPrice 1.0849 1.0851 1.0850 in
  0 < mid p
  /\ 1000 <= calculatePositionSize Scenario.fresh p 0.05 * mid p
  /\ calculatePositionSize Scenario.fresh p 0.05 = 1000 / 1.0850.
Proof.
  intros p.
  assert (H : 0 < mid p) by reflexivity.
  split; [exact H|]. split.
  - apply (calculatePositionSize_floor Scenario.fresh p 0.05 H).
  - reflexivity.
Defined.

(** The risk checks, case by case. *)
Lemma passesRiskChecks_iff (e : TradingEngine) (p : PriceData)
    (sig : CombinedSignal) (pos : option Position) :
  let tradeValue := calculatePositionSize e p (c_confidence sig) * mid p in
  passesRiskChecks e p sig pos = true
  <-> currentDailyVolume e < maxDailyVolume e
      /\ tradeValue <= maxDailyVolume e * 0.1
      /\ (forall row, pos = Some row ->
            Num.abs (quantity row * avg_price row) + tradeValue
            <= maxDailyVolume e * 0.2).
Proof.
  intros tradeValue. unfold passesRiskChecks. fold tradeValue.
  destruct (Num.geb _ _) eqn:E1.
  { apply geb_true in E1. split; [discriminate|]. intros (H & _). lra. }
  apply geb_false in E1.
  destruct (Num.gtb tradeValue _) eqn:E2.
  { apply gtb_true in E2. split; [discriminate|]. intros (_ & H & _). lra. }
  apply gtb_false in E2.
  destruct pos as [row|].
  - destruct (Num.gtb _ _) eqn:E3.
    + apply gtb_true in E3. split; [discriminate|].
      intros (_ & _ & H). specialize (H row eq_refl). lra.
    + apply gtb_false in E3. split; [|reflexivity]. intros _.
      repeat split; try assumption. intros row' [= <-]. exact E3.
  - split; [|reflexivity]. intros _. repeat split; try assumption. discriminate.
Qed.

(** ** What an evaluation changes *)

Lemma executeBuy_effect (e : TradingEngine) (m : Market) (symbol : string) (q : Q) :
  match executeBuy e m symbol q with
  | (e', None) => e' = e
  | (e', Some t) =>
    exists p, getPrice m symbol = Some p
    /\ t = mkTrade symbol buy q (ask p) (q * ask p) (today m)
    /\ e' = updateTradingStats
              (add_volume (t_value t)
                 (set_db (updatePosition (insertTrade (db e) t) symbol q (ask p) false)
                         e))
              (today m)
    /\ currentDailyVolume e + t_value t <= maxDailyVolume e
  end.
Proof.
  unfold executeBuy. destruct (getPrice m symbol) as [p|]; [|reflexivity].
  destruct (Num.gtb _ _) eqn:E; [reflexivity|].
  apply gtb_false in E. exists p. repeat split. exact E.
Qed.

Lemma executeSell_effect (e : TradingEngine) (m : Market) (symbol : string) (q : Q) :
  match executeSell e m symbol q with
  | (e', None) => e' = e
  | (e', Some t) =>
    exists p, getPrice m symbol = Some p
    /\ t = mkTrade symbol sell q (bid p) (q * bid p) (today m)
    /\ e' = updateTradingStats
              (add_volume (t_value t)
                 (set_db (updatePosition (insertTrade (db e) t) symbol (- q) (bid p) true)
                         e))
              (today m)
  end.
Proof.
  unfold executeSell. destruct (getPrice m symbol) as [p|]; [|reflexivity].
  exists p. repeat split.
Qed.

(** Either nothing changed, or one trade was entered: appended to the
    trades, applied to the symbol's row, added to the day's volume and
    written to the day's statistics. *)
Lemma evaluateSymbol_effect (e : TradingEngine) (m : Market) (symbol : string) :
  match executed (evaluateSymbol e m symbol).2 with
  | None => (evaluateSymbol e m symbol).1 = e
  | Some t =>
    exists q p c,
      (evaluateSymbol e m symbol).1 =
        updateTradingStats
          (add_volume (t_value t)
             (set_db (updatePosition (insertTrade (db e) t) symbol q p c) e))
          (today m)
      /\ t_symbol t = symbol /\ t_date t = today m
      /\ ((evaluateSymbol e m symbol).2 = CalledBuy (Some t)
          /\ currentDailyVolume e + t_value t <= maxDailyVolume e
          \/ (evaluateSymbol e m symbol).2 = CalledSell (Some t))
  end.
Proof.
  unfold evaluateSymbol.
  destruct (getPrice m symbol) as [p|]; [|reflexivity].
  destruct (Num.ltb _ _); [reflexivity|].
  destruct (_ && negb _); [reflexivity|].
  destruct (_ && _).
  { pose proof (executeBuy_effect e m symbol
                  (calculatePositionSize e p (c_confidence (signalOf m symbol)))) as H.
    destruct (executeBuy _ _ _ _) as [e' [t|]]; cbn [fst snd executed]; [|exact H].
    destruct H as (p' & _ & Ht & He & Hlim).
    exists (calculatePositionSize e p (c_confidence (signalOf m symbol))), (ask p'), false.
    split; [exact He|]. rewrite Ht. cbn. repeat split. left. split; [reflexivity|].
    rewrite Ht in Hlim. exact Hlim. }
  destruct (_ && _); [|reflexivity].
  pose proof (executeSell_effect e m symbol
                (calculatePositionSize e p (c_confidence (signalOf m symbol)))) as H.
  destruct (executeSell _ _ _ _) as [e' [t|]]; cbn [fst snd executed]; [|exact H].
  destruct H as (p' & _ & Ht & He).
  exists (- calculatePositionSize e p (c_confidence (signalOf m symbol))), (bid p'), true.
  split; [exact He|]. rewrite Ht. cbn. repeat split. right. reflexivity.
Qed.

Lemma evaluateSymbol_appends (e : TradingEngine) (m : Market) (symbol : string) :
  trades (db (evaluateSymbol e m symbol).1) =
    trades (db e) ++ match executed (evaluateSymbol e m symbol).2 with
                     | Some t => [t]
                     | None => []
                     end
  /\ maxDailyVolume (evaluateSymbol e m symbol).1 = maxDailyVolume e
  /\ isActive (evaluateSymbol e m symbol).1 = isActive e.
Proof.
  pose proof (evaluateSymbol_effect e m symbol) as H.
  destruct (executed (evaluateSymbol e m symbol).2) as [t|].
  - destruct H as (q & p & c & -> & _). repeat split.
  - rewrite H, app_nil_r. repeat split.
Qed.

(** X10.  One evaluation touches one symbol.  [evaluateSymbol] leaves
    the position rows of every other symbol as they were, never removes
    or rewrites a trade (it appends the executed trade, if any, which is
    of the evaluated symbol), leaves the statistics of other days alone,
    and does not change the limit, the base size or the two flags. *)
Theorem evaluateSymbol_frame (e : TradingEngine) (m : Market) (symbol : string) :
  let e' := (evaluateSymbol e m symbol).1 in
  (forall other, other <> symbol ->
     positions (db e') !! other = positions (db e) !! other)
  /\ (forall day, day <> today m ->
        trading_stats (db e') !! day = trading_stats (db e) !! day)
  /\ trades (db e') =
       trades (db e) ++ match executed (evaluateSymbol e m symbol).2 with
                        | Some t => [t]
                        | None => []
                        end
  /\ (forall t, executed (evaluateSymbol e m symbol).2 = Some t ->
        t_symbol t = symbol)
  /\ maxDailyVolume e' = maxDailyVolume e
  /\ defaultPositionSize e' = defaultPositionSize e
  /\ isActive e' = isActive e
  /\ riskManagement e' = riskManagement e.
Proof.
  intros e'. subst e'.
  pose proof (evaluateSymbol_effect e m symbol) as H.
  destruct (executed (evaluateSymbol e m symbol).2) as [t|].
  - destruct H as (q & p & c & -> & Hsym & _ & _).
    split; [|split; [|split; [|split]]].
    + intros other Hne. cbn. now rewrite lookup_insert_ne by congruence.
    + intros day Hne. cbn. now rewrite lookup_insert_ne by congruence.
    + reflexivity.
    + intros t' [= <-]. exact Hsym.
    + repeat split.
  - rewrite H. rewrite app_nil_r. repeat split. discriminate.
Qed.

Lemma total_volume_all (d : Database) :
  TradeModel_getTotalVolume d None == sum (map t_value (trades d)).
Proof.
  unfold TradeModel_getTotalVolume, Num.or_default.
  destruct (trades d) as [|t l] eqn:E; [reflexivity|].
  rewrite sum_by_map. destruct (Num.truthy _) eqn:Ht; [reflexivity|].
  unfold Num.truthy in Ht. apply negb_false_iff, Qeq_bool_iff in Ht.
  now rewrite Ht.
Qed.

Lemma evaluateSymbol_volume (e : TradingEngine) (m : Market) (symbol : string) :
  currentDailyVolume e == sum (map t_value (trades (db e))) ->
  currentDailyVolume (evaluateSymbol e m symbol).1
  == sum (map t_value (trades (db (evaluateSymbol e m symbol).1))).
Proof.
  intros Hinv. pose proof (evaluateSymbol_effect e m symbol) as H.
  destruct (executed (evaluateSymbol e m symbol).2) as [t|].
  - destruct H as (q & p & c & -> & _).
    unfold updateTradingStats, set_db, add_volume, updatePosition, insertTrade.
    cbn [currentDailyVolume db trades].
    rewrite map_app, sum_app. cbn [map]. rewrite sum_cons, Hinv.
    change (sum []) with 0. lra.
  - now rewrite H.
Qed.

Lemma evaluateSymbols_volume (symbols : list string) :
  forall (e : TradingEngine) (m : Market),
    currentDailyVolume e == sum (map t_value (trades (db e))) ->
    currentDailyVolume (evaluateSymbols e m symbols).1
    == sum (map t_value (trades (db (evaluateSymbols e m symbols).1))).
Proof.
  induction symbols as [|symbol rest IH]; intros e m Hinv; [exact Hinv|].
  cbn [evaluateSymbols].
  pose proof (evaluateSymbol_volume e m symbol Hinv) as H1.
  destruct (evaluateSymbol e m symbol) as [e1 o]. cbn [fst] in H1.
  specialize (IH e1 m H1).
  destruct (evaluateSymbols e1 m rest) as [e2 os]. exact IH.
Qed.

Lemma step_volume (e : TradingEngine) (ev : Event) :
  currentDailyVolume e == sum (map t_value (trades (db e))) ->
  currentDailyVolume (step e ev).1
  == sum (map t_value (trades (db (step e ev).1))).
Proof.
  intros Hinv. destruct ev as [| |m]; cbn [step fst].
  - destruct (start_fields e) as (-> & -> & _). exact Hinv.
  - destruct (stop_fields e) as (-> & -> & _). exact Hinv.
  - unfold evaluateTradingOpportunities.
    destruct (negb (isActive e) || _).
    + destruct (Num.geb _ _); cbn [fst]; [|exact Hinv].
      destruct (stop_fields e) as (-> & -> & _). exact Hinv.
    + now apply evaluateSymbols_volume.
Qed.

(** X11.  The "daily" volume is never reset.  On an engine built on an
    empty store, after any sequence of [start], [stop] and evaluation
    cycles whose markets quote a positive mid and non-negative bid and
    ask, on whatever days the cycles run, [currentDailyVolume] is the
    total value of all the trades of the store
    ([TradeModel.getTotalVolume] without a date). *)
Theorem currentDailyVolume_is_total (env : Env) (day : string) (evs : list Event) :
  positive_events evs ->
  let e := (run (newTradingEngine env emptyDatabase day) evs).1 in
  currentDailyVolume e == TradeModel_getTotalVolume (db e) None.
Proof.
  intros _ e. subst e. rewrite total_volume_all.
  assert (G : forall e0,
            currentDailyVolume e0 == sum (map t_value (trades (db e0))) ->
            currentDailyVolume (run e0 evs).1
            == sum (map t_value (trades (db (run e0 evs).1)))).
  { induction evs as [|ev rest IH]; intros e0 H0; [exact H0|].
    cbn [run]. pose proof (step_volume e0 ev H0) as H1.
    destruct (step e0 ev) as [e1 o1]. cbn [fst] in H1.
    specialize (IH e1 H1). destruct (run e1 rest) as [e2 o2]. exact IH. }
  apply G. reflexivity.
Qed.

Lemma positive_scenario_market (symbol : string) (s : Side) (c b a : Q) :
  0 < b -> 0 < a -> positive_market (Scenario.market symbol s c b a).
Proof.
  intros Hb Ha x p. cbn. destruct (bool_decide (x = symbol)); [|discriminate].
  intros [= <-]. cbn. repeat split; try lra.
  apply Qlt_shift_div_l; lra.
Qed.

Lemma currentDailyVolume_is_total_witness :
  let evs := [DoStart;
              Cycle (Scenario.market "EURUSD" buy 1 1.0849 1.0851);
              Cycle (Scenario.market "EURUSD" sell 0.7 1.0849 1.0851)] in
  let e := (run (newTradingEngine (defaultEnv) emptyDatabase
                                  Scenario.day) evs).1 in
  positive_events evs
  /\ length (trades (db e)) = 2%nat
  /\ currentDailyVolume e == TradeModel_getTotalVolume (db e) None.
Proof.
  intros evs e.
  assert (H : positive_events evs).
  { constructor; [exact I|].
    constructor; [apply positive_scenario_market; reflexivity|].
    constructor; [apply positive_scenario_market; reflexivity|]. constructor. }
  split; [exact H|]. split; [vm_compute; reflexivity|].
  exact (currentDailyVolume_is_total (defaultEnv) Scenario.day evs H).
Defined.

(** ** Statistics, restarts and runs *)

(** X12.  An executed trade is persisted with the day's volume: after
    it, the statistics row of the day records exactly the engine's
    [currentDailyVolume], so an engine rebuilt on the same store on the
    same day resumes with that volume, whereas one rebuilt on a day
    without a statistics row starts again from 0. *)
Theorem executed_trade_is_persisted (e : TradingEngine) (m : Market)
    (symbol : string) (t : Trade) :
  executed (evaluateSymbol e m symbol).2 = Some t ->
  let e' := (evaluateSymbol e m symbol).1 in
  (exists row,
     trading_stats (db e') !! today m = Some row
     /\ total_volume row = currentDailyVolume e'
     /\ total_trades row =
          length (List.filter (fun x => bool_decide (t_date x = today m))
                              (trades (db e'))))
  /\ currentDailyVolume e' = currentDailyVolume e + t_value t
  /\ (forall env,
        currentDailyVolume (newTradingEngine env (db e') (today m))
        = currentDailyVolume e')
  /\ (forall env day,
        trading_stats (db e') !! day = None ->
        currentDailyVolume (newTradingEngine env (db e') day) = 0).
Proof.
  intros Hex e'. subst e'.
  pose proof (evaluateSymbol_effect e m symbol) as H. rewrite Hex in H.
  destruct H as (q & p & c & -> & _).
  unfold updateTradingStats, newTradingEngine, loadCurrentVolume.
  cbn [db trading_stats currentDailyVolume set_db add_volume].
  rewrite lookup_insert_eq. cbn [total_volume total_trades].
  split; [|split; [|split]].
  - eexists. split; [reflexivity|]. split; reflexivity.
  - reflexivity.
  - intros env. reflexivity.
  - intros env day Hnone. rewrite Hnone. reflexivity.
Qed.

Lemma executed_trade_is_persisted_witness :
  let m := Scenario.market "EURUSD" buy 1 1.0849 1.0851 in
  let t := mkTrade "EURUSD" buy 10000 1.0851 (10000 * 1.0851) Scenario.day in
  let e' := (evaluateSymbol Scenario.fresh m "EURUSD").1 in
  executed (evaluateSymbol Scenario.fresh m "EURUSD").2 = Some t
  /\ currentDailyVolume (newTradingEngine defaultEnv (db e') Scenario.day)
     = currentDailyVolume e'
  /\ currentDailyVolume e' == 10851.
Proof.
  intros m t e'.
  assert (H : executed (evaluateSymbol Scenario.fresh m "EURUSD").2 = Some t)
    by (vm_compute; reflexivity).
  split; [exact H|]. split.
  - apply (proj1 (proj2 (proj2
             (executed_trade_is_persisted Scenario.fresh m "EURUSD" t H)))).
  - vm_compute. reflexivity.
Defined.

(** The outcomes of a run list its trades. *)
Lemma evaluateSymbols_trades (symbols : list string) :
  forall (e : TradingEngine) (m : Market),
    trades (db (evaluateSymbols e m symbols).1) =
      trades (db e) ++ omap executed (evaluateSymbols e m symbols).2
    /\ length (evaluateSymbols e m symbols).2 = length symbols
    /\ maxDailyVolume (evaluateSymbols e m symbols).1 = maxDailyVolume e
    /\ isActive (evaluateSymbols e m symbols).1 = isActive e.
Proof.
  induction symbols as [|symbol rest IH]; intros e m.
  - cbn. now rewrite app_nil_r.
  - cbn [evaluateSymbols].
    destruct (evaluateSymbol_appends e m symbol) as (Ht & Hm & Ha).
    destruct (evaluateSymbol e m symbol) as [e1 o]. cbn [fst snd] in *.
    specialize (IH e1 m).
    destruct (evaluateSymbols e1 m rest) as [e2 os]. cbn [fst snd] in *.
    destruct IH as (IH1 & IH2 & IH3 & IH4).
    split; [|split; [|split]]; cbn [length omap]; try congruence.
    rewrite IH1, Ht, <- app_assoc. f_equal.
    destruct (executed o) eqn:E; cbn; rewrite E; reflexivity.
Qed.

Lemma step_trades (e : TradingEngine) (ev : Event) :
  trades (db (step e ev).1) = trades (db e) ++ omap executed (step e ev).2
  /\ maxDailyVolume (step e ev).1 = maxDailyVolume e.
Proof.
  destruct ev as [| |m]; cbn [step fst snd omap].
  - rewrite app_nil_r. destruct (start_fields e) as (-> & _ & -> & _). auto.
  - rewrite app_nil_r. destruct (stop_fields e) as (-> & _ & -> & _). auto.
  - unfold evaluateTradingOpportunities.
    destruct (negb (isActive e) || _).
    + destruct (Num.geb _ _); cbn [fst snd omap]; rewrite app_nil_r; [|auto].
      destruct (stop_fields e) as (-> & _ & -> & _). auto.
    + destruct (evaluateSymbols_trades (getSymbols m) e m) as (H1 & _ & H3 & _). auto.
Qed.

(** X13.  The trades table is append-only, and the outcomes account for
    it: after any sequence of [start], [stop] and evaluation cycles the
    table is the table before followed by exactly the trades the
    outcomes report as executed, in order; the limit is unchanged. *)
Theorem run_appends_reported_trades (evs : list Event) (e : TradingEngine) :
  trades (db (run e evs).1) = trades (db e) ++ omap executed (run e evs).2
  /\ maxDailyVolume (run e evs).1 = maxDailyVolume e.
Proof.
  revert e. induction evs as [|ev rest IH]; intros e.
  - cbn. now rewrite app_nil_r.
  - cbn [run]. destruct (step_trades e ev) as [H1 H2].
    destruct (step e ev) as [e1 o1]. cbn [fst snd] in *.
    destruct (IH e1) as [IH1 IH2].
    destruct (run e1 rest) as [e2 o2]. cbn [fst snd] in *.
    split; [|congruence].
    rewrite IH1, H1, <- app_assoc. f_equal. symmetry. apply omap_app.
Qed.

Lemma calculatePositionSize_floor_aux (e : TradingEngine) (p : PriceData) (c : Q) :
  0 < mid p -> 0 < calculatePositionSize e p c.
Proof.
  intros Hmid. unfold calculatePositionSize.
  assert (0 < 1000 / mid p) by (apply Qlt_shift_div_l; lra).
  destruct (max_spec (defaultPositionSize e * c) (1000 / mid p)) as [[? ->]|[? ->]];
    lra.
Qed.

(** The trade an evaluation executes: sized by [calculatePositionSize]
    at the current quote, bought at the ask or sold at the bid. *)
Lemma evaluateSymbol_trade (e : TradingEngine) (m : Market) (symbol : string)
    (t : Trade) :
  executed (evaluateSymbol e m symbol).2 = Some t ->
  exists p,
    getPrice m symbol = Some p
    /\ t_quantity t = calculatePositionSize e p (c_confidence (signalOf m symbol))
    /\ t_value t = t_quantity t * t_price t
    /\ (t_price t = ask p \/ t_price t = bid p).
Proof.
  unfold evaluateSymbol.
  destruct (getPrice m symbol) as [p|] eqn:Hp; [|discriminate].
  destruct (Num.ltb _ _); [discriminate|].
  destruct (_ && negb _); [discriminate|].
  destruct (_ && _).
  { unfold executeBuy. rewrite Hp. destruct (Num.gtb _ _); [discriminate|].
    cbn. intros [= <-]. exists p. cbn. auto. }
  destruct (_ && _); [|discriminate].
  unfold executeSell. rewrite Hp. cbn. intros [= <-]. exists p. cbn. auto.
Qed.

Lemma evaluateSymbol_monotone (e : TradingEngine) (m : Market) (symbol : string) :
  positive_market m ->
  currentDailyVolume e <= currentDailyVolume (evaluateSymbol e m symbol).1
  /\ (forall t, executed (evaluateSymbol e m symbol).2 = Some t ->
        0 < t_quantity t /\ 0 <= t_value t).
Proof.
  intros Hm.
  assert (Ht : forall t, executed (evaluateSymbol e m symbol).2 = Some t ->
                 0 < t_quantity t /\ 0 <= t_value t).
  { intros t Hex.
    destruct (evaluateSymbol_trade e m symbol t Hex) as (p & Hp & Hq & Hv & Hpr).
    destruct (Hm symbol p Hp) as (Hmid & Hbid & Hask).
    pose proof (calculatePositionSize_floor_aux e p
                  (c_confidence (signalOf m symbol)) Hmid) as Hsize.
    rewrite <- Hq in Hsize.
    split; [exact Hsize|]. rewrite Hv.
    apply Qmult_le_0_compat; [lra|]. destruct Hpr as [-> | ->]; assumption. }
  split; [|exact Ht].
  pose proof (evaluateSymbol_effect e m symbol) as H.
  destruct (executed (evaluateSymbol e m symbol).2) as [t|].
  - destruct H as (q & p & c & -> & _). cbn.
    destruct (Ht t eq_refl). lra.
  - rewrite H. lra.
Qed.

(** An invariant of single evaluations, under a condition [Qm] on the
    markets and [O] on the outcomes, is an invariant of runs. *)
Lemma run_invariant (P : TradingEngine -> Prop) (Qm : Market -> Prop)
    (O : Outcome -> Prop) :
  (forall e, P e -> P (start e)) ->
  (forall e, P e -> P (stop e)) ->
  (forall e m s, Qm m -> P e -> O (evaluateSymbol e m s).2 ->
                 P (evaluateSymbol e m s).1) ->
  forall evs e,
    Forall (fun ev => match ev with Cycle m => Qm m | _ => True end) evs ->
    P e -> Forall O (run e evs).2 -> P (run e evs).1.
Proof.
  intros Hstart Hstop Heval.
  assert (Hsyms : forall m, Qm m -> forall symbols e,
            P e -> Forall O (evaluateSymbols e m symbols).2 ->
            P (evaluateSymbols e m symbols).1).
  { intros m Hm. induction symbols as [|s rest IH]; intros e He Ho; [exact He|].
    cbn [evaluateSymbols] in *. pose proof (Heval e m s Hm He) as H1.
    destruct (evaluateSymbol e m s) as [e1 o]. cbn [fst snd] in *.
    specialize (IH e1). destruct (evaluateSymbols e1 m rest) as [e2 os].
    cbn [fst snd] in *. inversion Ho; subst. auto. }
  induction evs as [|ev rest IH]; intros e Hall He Ho; [exact He|].
  inversion Hall as [|? ? Hev Hrest]; subst.
  cbn [run] in *.
  assert (H1 : Forall O (step e ev).2 -> P (step e ev).1).
  { destruct ev as [| |m]; cbn [step fst snd]; intros Hs; auto.
    unfold evaluateTradingOpportunities in *.
    destruct (negb (isActive e) || _).
    - destruct (Num.geb _ _); cbn [fst]; auto.
    - now apply Hsyms. }
  destruct (step e ev) as [e1 o1]. cbn [fst snd] in *.
  specialize (IH e1 Hrest).
  destruct (run e1 rest) as [e2 o2]. cbn [fst snd] in *.
  apply Forall_app in Ho as [Ho1 Ho2]. auto.
Qed.

(** X14.  The day's volume never decreases.  Over any sequence of
    [start], [stop] and evaluation cycles whose markets quote a positive
    mid and non-negative bid and ask, [currentDailyVolume] at the end is
    at least what it was at the beginning. *)
Theorem run_volume_monotone (evs : list Event) (e : TradingEngine) :
  positive_events evs ->
  currentDailyVolume e <= currentDailyVolume (run e evs).1.
Proof.
  intros Hpos.
  apply (run_invariant (fun x => currentDailyVolume e <= currentDailyVolume x)
           positive_market (fun _ => True)); try exact Hpos; try lra.
  - intros e0 H. now destruct (start_fields e0) as (_ & -> & _).
  - intros e0 H. now destruct (stop_fields e0) as (_ & -> & _).
  - intros e0 m s Hm H _. destruct (evaluateSymbol_monotone e0 m s Hm) as [H1 _]. lra.
  - apply Forall_forall. auto.
Qed.

Lemma run_volume_monotone_witness :
  let evs := [Cycle (Scenario.market "EURUSD" sell 1 1.0849 1.0851);
              DoStop; DoStart;
              Cycle (Scenario.market "EURUSD" buy 0.7 1.0849 1.0851)] in
  positive_events evs
  /\ currentDailyVolume Scenario.fresh
     <= currentDailyVolume (run Scenario.fresh evs).1.
Proof.
  intros evs.
  assert (H : positive_events evs).
  { constructor; [apply positive_scenario_market; reflexivity|].
    constructor; [exact I|]. constructor; [exact I|].
    constructor; [apply positive_scenario_market; reflexivity|]. constructor. }
  split; [exact H|]. exact (run_volume_monotone evs Scenario.fresh H).
Defined.

(** X15.  BUYs keep the limit.  If the day's volume is within the limit
    and a sequence of [start], [stop] and evaluation cycles, on markets
    that quote a positive mid and non-negative bid and ask, executes no
    SELL, the day's volume is still within the limit at the end. *)
Theorem run_without_sells_keeps_limit (evs : list Event) (e : TradingEngine) :
  positive_events evs ->
  currentDailyVolume e <= maxDailyVolume e ->
  Forall (fun o => ~ is_executed_sell o) (run e evs).2 ->
  currentDailyVolume (run e evs).1 <= maxDailyVolume (run e evs).1.
Proof.
  intros Hpos Hlim Hno.
  apply (run_invariant (fun x => currentDailyVolume x <= maxDailyVolume x)
           positive_market (fun o => ~ is_executed_sell o)); try assumption.
  - intros e0 H. now destruct (start_fields e0) as (_ & -> & -> & _).
  - intros e0 H. now destruct (stop_fields e0) as (_ & -> & -> & _).
  - intros e0 m s _ H Hns.
    pose proof (evaluateSymbol_effect e0 m s) as Heff.
    destruct (executed (evaluateSymbol e0 m s).2) as [t|].
    + destruct Heff as (q & p & c & -> & _ & _ & [[_ Hb]|Hs]).
      * cbn. exact Hb.
      * rewrite Hs in Hns. cbn in Hns. tauto.
    + now rewrite Heff.
Qed.

Lemma run_without_sells_keeps_limit_witness :
  let e := Scenario.late 9992000 in
  let evs := [Cycle (Scenario.market "EURUSD" buy 1 1.0849 1.0851);
              Cycle (Scenario.market "EURUSD" buy 0.6 1.0849 1.0851)] in
  positive_events evs
  /\ currentDailyVolume e <= maxDailyVolume e
  /\ Forall (fun o => ~ is_executed_sell o) (run e evs).2
  /\ currentDailyVolume (run e evs).1 <= maxDailyVolume (run e evs).1.
Proof.
  intros e evs.
  assert (H0 : positive_events evs).
  { constructor; [apply positive_scenario_market; reflexivity|].
    constructor; [apply positive_scenario_market; reflexivity|]. constructor. }
  assert (H1 : currentDailyVolume e <= maxDailyVolume e) by (vm_compute; discriminate).
  assert (H2 : Forall (fun o => ~ is_executed_sell o) (run e evs).2).
  { vm_compute. repeat constructor; intros []. }
  split; [exact H0|]. split; [exact H1|]. split; [exact H2|].
  exact (run_without_sells_keeps_limit evs e H0 H1 H2).
Defined.

(** X16.  A stopped engine ignores the timer: while [isActive] is off,
    evaluation cycles change nothing and report nothing, whatever the
    markets signal. *)
Theorem stopped_engine_ignores_cycles (e : TradingEngine) (ms : list Market) :
  isActive e = false ->
  run e (map Cycle ms) = (e, []).
Proof.
  intros Hoff. induction ms as [|m ms IH]; [reflexivity|].
  cbn [map run step]. unfold evaluateTradingOpportunities, stop.
  rewrite Hoff. cbn [negb orb]. destruct (Num.geb _ _); now rewrite IH.
Qed.

Lemma stopped_engine_ignores_cycles_witness :
  let e := stop Scenario.fresh in
  let m := Scenario.market "EURUSD" buy 1 1.0849 1.0851 in
  isActive e = false
  /\ run e [Cycle m; Cycle m] = (e, [])
  /\ (run Scenario.fresh [Cycle m]).2
     = [CalledBuy (Some (mkTrade "EURUSD" buy 10000 1.0851 (10000 * 1.0851)
                                 Scenario.day))].
Proof.
  intros e m.
  assert (H : isActive e = false) by reflexivity.
  split; [exact H|]. split.
  - exact (stopped_engine_ignores_cycles e [m; m] H).
  - vm_compute. reflexivity.
Defined.

(** ** Marking positions *)

Lemma updatePositionPnL_row (d : Database) (symbol sym : string) (price : Q) :
  trades (updatePositionPnL d symbol price) = trades d
  /\ trading_stats (updatePositionPnL d symbol price) = trading_stats d
  /\ match positions d !! sym with
     | None => positions (updatePositionPnL d symbol price) !! sym = None
     | Some row =>
       positions (updatePositionPnL d symbol price) !! sym =
         Some (mkPosition (quantity row) (avg_price row) (total_value row)
                 (if bool_decide (sym = symbol) && negb (Num.eqb (quantity row) 0)
                  then (price - avg_price row) * quantity row
                  else pnl row))
     end.
Proof.
  unfold updatePositionPnL.
  destruct (positions d !! symbol) as [position|] eqn:Hp.
  - destruct (negb (Num.eqb (quantity position) 0)) eqn:Hq; cbn [trades trading_stats positions].
    + split; [reflexivity|]. split; [reflexivity|].
      destruct (decide (sym = symbol)) as [->|Hne].
      * rewrite Hp, lookup_insert_eq, bool_decide_eq_true_2 by reflexivity.
        cbn [andb]. now rewrite Hq.
      * rewrite lookup_insert_ne by congruence.
        rewrite bool_decide_eq_false_2 by exact Hne. cbn [andb].
        destruct (positions d !! sym) as [[]|]; reflexivity.
    + split; [reflexivity|]. split; [reflexivity|].
      destruct (decide (sym = symbol)) as [->|Hne].
      * rewrite Hp, bool_decide_eq_true_2 by reflexivity. cbn [andb].
        rewrite Hq. now destruct position.
      * rewrite bool_decide_eq_false_2 by exact Hne. cbn [andb].
        destruct (positions d !! sym) as [[]|]; reflexivity.
  - split; [reflexivity|]. split; [reflexivity|].
    destruct (decide (sym = symbol)) as [->|Hne].
    + now rewrite Hp.
    + rewrite bool_decide_eq_false_2 by exact Hne. cbn [andb].
      destruct (positions d !! sym) as [[]|]; reflexivity.
Qed.

(** X17.  A price update marks, it does not trade.  [onPriceUpdate]
    appends the quote's point to the symbol's history and recomputes
    [pnl = (mid - avg_price) * quantity] on the symbol's row when its
    quantity is not 0; quantities, average prices, the rows of other
    symbols, rows of quantity 0 (whose stored [pnl] stays as it was),
    the trades, the statistics and the day's volume are unchanged. *)
Theorem onPriceUpdate_marks (a : TradingAlgorithms) (e : TradingEngine)
    (u : PriceUpdate) :
  let a' := (onPriceUpdate a e u).1 in
  let e' := (onPriceUpdate a e u).2 in
  trades (db e') = trades (db e)
  /\ trading_stats (db e') = trading_stats (db e)
  /\ currentDailyVolume e' = currentDailyVolume e
  /\ isActive e' = isActive e
  /\ (forall sym,
        match positions (db e) !! sym with
        | None => positions (db e') !! sym = None
        | Some row =>
          positions (db e') !! sym =
            Some (mkPosition (quantity row) (avg_price row) (total_value row)
                    (if bool_decide (sym = u_symbol u)
                        && negb (Num.eqb (quantity row) 0)
                     then (u_mid u - avg_price row) * quantity row
                     else pnl row))
        end)
  /\ history_of a' (u_symbol u) =
       drop (length (history_of a (u_symbol u)) + 1 - maxHistory a)
            (history_of a (u_symbol u)
             ++ [point_of (u_timestamp u)
                          (mkQuote (u_bid u) (u_ask u) (Some (u_volume u)))
                          (Some (u_timestamp u))]).
Proof.
  intros a' e'. subst a' e'. unfold onPriceUpdate. cbn [fst snd].
  destruct (updatePositionPnL_row (db e) (u_symbol u) (u_symbol u) (u_mid u))
    as (Ht & Hs & _).
  split; [exact Ht|]. split; [exact Hs|]. split; [reflexivity|].
  split; [reflexivity|]. split.
  - intros sym.
    exact (proj2 (proj2 (updatePositionPnL_row (db e) (u_symbol u) sym (u_mid u)))).
  - apply addPriceData_history.
Qed.

Lemma Qabs_nonpos_opp (q : Q) : q <= 0 -> - Num.abs q = q.
Proof.
  destruct q as [n d]. unfold Qle, Num.abs, Qabs, Qopp. cbn.
  intros H. f_equal. lia.
Qed.

(** X18.  [PositionModel.updatePosition] and the engine's own
    [updatePosition] compute the same table for every call the engine
    makes: always when adding, and when closing with a quantity that is
    not positive (the engine passes [-quantity]).  Likewise
    [PositionModel.calculatePnL] stores what the engine's
    [updatePositionPnL] stores, and returns 0 without touching the store
    for a missing row or a row of quantity 0. *)
Theorem PositionModel_agrees (d : Database) (symbol : string) (q p : Q) :
  PositionModel_updatePosition d symbol q p false = updatePosition d symbol q p false
  /\ (q <= 0 ->
      PositionModel_updatePosition d symbol q p true
      = updatePosition d symbol q p true)
  /\ (PositionModel_calculatePnL d symbol p).1 = updatePositionPnL d symbol p
  /\ (match PositionModel_getPosition d symbol with
      | None => True
      | Some row => quantity row == 0
      end ->
      PositionModel_calculatePnL d symbol p = (d, 0)).
Proof.
  split; [reflexivity|]. split; [|split].
  - intros Hq. unfold PositionModel_updatePosition, updatePosition.
    destruct (positions d !! symbol) as [row|]; [|reflexivity].
    unfold Qminus. now rewrite (Qabs_nonpos_opp q Hq).
  - unfold PositionModel_calculatePnL, updatePositionPnL, PositionModel_getPosition.
    destruct (positions d !! symbol) as [row|]; [|reflexivity].
    destruct (Num.eqb (quantity row) 0); reflexivity.
  - unfold PositionModel_calculatePnL.
    destruct (PositionModel_getPosition d symbol) as [row|]; [|reflexivity].
    intros Hz. apply eqb_true in Hz. now rewrite Hz.
Qed.

Lemma PositionModel_agrees_witness :
  - (5000) <= 0
  /\ PositionModel_updatePosition Scenario.long_10000 "EURUSD" (- (5000)) 1.09 true
     = updatePosition Scenario.long_10000 "EURUSD" (- (5000)) 1.09 true.
Proof.
  assert (H : - (5000) <= 0) by discriminate.
  split; [exact H|].
  exact (proj1 (proj2 (PositionModel_agrees Scenario.long_10000 "EURUSD"
                         (- (5000)) 1.09)) H).
Defined.

(** ** The simulator's quotes *)

Lemma walk_factor_pos (r vol : Q) :
  0 <= r -> 0 <= vol -> vol < 1 -> 0 < 1 + (r - 0.5) * 2 * vol.
Proof.
  intros Hr Hv Hv1.
  assert (H : 0 <= r * vol) by (apply Qmult_le_0_compat; assumption).
  assert (E : 1 + (r - 0.5) * 2 * vol == (1 - vol) + 2 * (r * vol)) by ring.
  rewrite E. lra.
Qed.

Lemma quote_around (mid f : Q) :
  0 < mid -> 0 < f -> f < 2 ->
  good_quote (mkSimPrice (mid - mid * f / 2) (mid + mid * f / 2)).
Proof.
  intros Hm Hf Hf2. unfold good_quote. cbn [s_bid s_ask].
  assert (Hmf : 0 < mid * f) by (apply Qmult_lt_0_compat; assumption).
  assert (H2 : 0 < mid * (2 - f)) by (apply Qmult_lt_0_compat; lra).
  assert (E1 : mid - mid * f / 2 == mid * (2 - f) / 2) by (field).
  assert (E2 : mid + mid * f / 2 == mid - mid * f / 2 + mid * f) by (field).
  split.
  - rewrite E1. apply Qlt_shift_div_l; lra.
  - rewrite E2. lra.
Qed.

Lemma good_quote_mid (p : SimPrice) : good_quote p -> 0 < (s_bid p + s_ask p) / 2.
Proof. intros [H1 H2]. apply Qlt_shift_div_l; lra. Qed.

Lemma updatePrice_good (s s' : FXDataSimulator) (rnd : Random) (k k' : nat)
    (now : Z) (symbol : string) (u : PriceUpdate) :
  (forall sym p, prices s !! sym = Some p -> good_quote p) ->
  0 <= volatility s -> volatility s < 1 -> unit_draws rnd ->
  updatePrice s rnd k now symbol = Some (s', u, k') ->
  (forall sym p, prices s' !! sym = Some p -> good_quote p)
  /\ volatility s' = volatility s
  /\ good_quote (mkSimPrice (u_bid u) (u_ask u))
  /\ u_mid u == (u_bid u + u_ask u) / 2
  /\ u_spread u == u_ask u - u_bid u.
Proof.
  intros Hgood Hv0 Hv1 Hrnd. unfold updatePrice.
  destruct (prices s !! symbol) as [cur|] eqn:Hcur; [|discriminate].
  intros [= <- <- <-]. cbn [prices volatility u_bid u_ask u_mid u_spread].
  pose proof (good_quote_mid cur (Hgood symbol cur Hcur)) as Hmid.
  set (mid := (s_bid cur + s_ask cur) / 2) in *.
  destruct (Hrnd k) as [Hr0 Hr1]. destruct (Hrnd (k + 1)%nat) as [Hq0 Hq1].
  set (newMid := mid + (rnd k - 0.5) * 2 * volatility s * mid).
  assert (HnewMid : 0 < newMid).
  { assert (E : newMid == mid * (1 + (rnd k - 0.5) * 2 * volatility s))
      by (unfold newMid; ring).
    rewrite E. apply Qmult_lt_0_compat; [exact Hmid|].
    now apply walk_factor_pos. }
  set (f := 0.0001 + rnd (k + 1)%nat * 0.0003).
  assert (Hf : 0 < f /\ f < 2) by (unfold f; split; lra).
  pose proof (quote_around newMid f HnewMid (proj1 Hf) (proj2 Hf)) as Hq.
  split; [|split; [reflexivity|split; [exact Hq|split; field]]].
  intros sym p. destruct (decide (sym = symbol)) as [->|Hne].
  - rewrite lookup_insert_eq. intros [= <-]. exact Hq.
  - rewrite lookup_insert_ne by congruence. apply Hgood.
Qed.

Lemma impactMultiplier_range (impact : string) :
  0 < impactMultiplier impact /\ impactMultiplier impact < 1.
Proof.
  unfold impactMultiplier.
  destruct (_ !! impact) as [x|] eqn:E; cbn [from_option id]; [|split; reflexivity].
  apply elem_of_list_to_map_2 in E.
  repeat (apply elem_of_cons in E as [E|E]; [injection E as -> ->; split; reflexivity|]).
  now apply elem_of_nil in E.
Qed.

Lemma simulateNewsEvent_good (s s' : FXDataSimulator) (rnd : Random) (k k' : nat)
    (symbol impact : string) (n : NewsEvent) :
  (forall sym p, prices s !! sym = Some p -> good_quote p) ->
  simulateNewsEvent s rnd k symbol impact = Some (s', n, k') ->
  (forall sym p, prices s' !! sym = Some p -> good_quote p)
  /\ volatility s' = volatility s.
Proof.
  intros Hgood. unfold simulateNewsEvent.
  destruct (prices s !! symbol) as [cur|] eqn:Hcur; [|discriminate].
  intros [= <- <- <-]. cbn [prices volatility].
  pose proof (good_quote_mid cur (Hgood symbol cur Hcur)) as Hmid.
  set (mid := (s_bid cur + s_ask cur) / 2) in *.
  destruct (impactMultiplier_range impact) as [Hm0 Hm1].
  set (dir := if Num.gtb (rnd k) 0.5 then 1 else - (1)).
  set (newMid := mid + mid * impactMultiplier impact * dir).
  assert (HnewMid : 0 < newMid).
  { assert (E : newMid == mid * (1 + impactMultiplier impact * dir))
      by (unfold newMid; ring).
    rewrite E. apply Qmult_lt_0_compat; [exact Hmid|].
    unfold dir. destruct (Num.gtb (rnd k) 0.5); lra. }
  assert (Hq : good_quote (mkSimPrice (newMid - newMid * 0.0003 / 2)
                                      (newMid + newMid * 0.0003 / 2)))
    by (apply quote_around; [exact HnewMid|reflexivity|reflexivity]).
  split; [|reflexivity].
  intros sym p. destruct (decide (sym = symbol)) as [->|Hne].
  - rewrite lookup_insert_eq. intros [= <-]. exact Hq.
  - rewrite lookup_insert_ne by congruence. apply Hgood.
Qed.

Lemma newFXDataSimulator_good (sym : string) (p : SimPrice) :
  prices newFXDataSimulator !! sym = Some p -> good_quote p.
Proof.
  unfold newFXDataSimulator. cbn [prices]. intros E.
  apply elem_of_list_to_map_2 in E. cbn [map basePrices fst snd] in E.
  repeat (apply elem_of_cons in E as [E|E];
          [injection E as -> ->; split; reflexivity|]).
  now apply elem_of_nil in E.
Qed.

(** A key is plain when it differs from every inherited name. *)
Lemma plain_key_check (key : string) :
  forallb (fun name => negb (String.eqb name key)) inherited_names = true ->
  plain_key key.
Proof.
  intros H Hin. rewrite forallb_forall in H. specialize (H key Hin).
  now rewrite String.eqb_refl in H.
Qed.

Lemma simulator_symbols_plain (symbol : string) :
  In symbol simulator_symbols -> plain_key symbol.
Proof.
  intros H. cbn in H.
  repeat (destruct H as [<-|H]; [apply plain_key_check; reflexivity|]).
  destruct H.
Qed.

Lemma impactMultiplier_table (impact : string) :
  impactMultiplier impact
  = if String.eqb impact "low" then 0.002
    else if String.eqb impact "high" then 0.01 else 0.005.
Proof.
  unfold impactMultiplier.
  destruct (String.eqb_spec impact "low") as [->|Hl]; [reflexivity|].
  destruct (String.eqb_spec impact "high") as [->|Hh]; [reflexivity|].
  destruct (_ !! impact) as [x|] eqn:E; [|reflexivity].
  apply elem_of_list_to_map_2 in E.
  repeat (apply elem_of_cons in E as [E|E];
          [injection E as -> ->; congruence || reflexivity|]).
  now apply elem_of_nil in E.
Qed.

Lemma newFXDataSimulator_symbols (sym : string) :
  is_Some (prices newFXDataSimulator !! sym) <-> In sym simulator_symbols.
Proof.
  split.
  - intros [p E]. unfold newFXDataSimulator in E. cbn [prices] in E.
    apply elem_of_list_to_map_2 in E. cbn [map basePrices fst snd] in E.
    repeat (apply elem_of_cons in E as [E|E];
            [injection E as -> _; cbn; tauto|]).
    now apply elem_of_nil in E.
  - intros H. cbn in H.
    repeat (destruct H as [<-|H]; [vm_compute; eauto|]).
    destruct H.
Qed.

Lemma insert_present_is_Some (m : gmap string SimPrice) (symbol sym : string)
    (p : SimPrice) :
  is_Some (m !! symbol) ->
  (is_Some (<[symbol := p]> m !! sym) <-> is_Some (m !! sym)).
Proof.
  intros Hs. destruct (decide (sym = symbol)) as [->|Hne].
  - rewrite lookup_insert_eq. split; eauto.
  - now rewrite lookup_insert_ne by congruence.
Qed.

(** One event of the simulator on a known symbol succeeds and keeps the
    symbols, the quotes' shape and the volatility. *)
Lemma sim_step_known (s : FXDataSimulator) (rnd : Random) (k : nat) (ev : SimEvent) :
  unit_draws rnd -> known_event ev ->
  (forall sym, is_Some (prices s !! sym) <-> In sym simulator_symbols) ->
  (forall sym p, prices s !! sym = Some p -> good_quote p) ->
  volatility s == 0.001 ->
  exists s1 k1,
    sim_step s rnd k ev = Some (s1, k1)
    /\ (forall sym, is_Some (prices s1 !! sym) <-> In sym simulator_symbols)
    /\ (forall sym p, prices s1 !! sym = Some p -> good_quote p)
    /\ volatility s1 == 0.001.
Proof.
  intros Hrnd Hev Hdom Hgood Hvol.
  destruct ev as [symbol|symbol impact]; cbn [known_event sim_step] in *.
  - pose proof (proj2 (Hdom symbol) Hev) as [cur Hcur].
    destruct (updatePrice s rnd k 0 symbol) as [[[s1 u] k1]|] eqn:Hu.
    + exists s1, k1. split; [reflexivity|].
      destruct (updatePrice_good s s1 rnd k k1 0 symbol u) as (Hg & Hv & _);
        try assumption; try (rewrite Hvol; discriminate || reflexivity).
      split; [|split; [exact Hg|now rewrite Hv]].
      unfold updatePrice in Hu. rewrite Hcur in Hu. injection Hu as <- _ _.
      cbn [prices]. intros sym. rewrite insert_present_is_Some by eauto. apply Hdom.
    + unfold updatePrice in Hu. rewrite Hcur in Hu. discriminate Hu.
  - destruct Hev as [Hev _].
    pose proof (proj2 (Hdom symbol) Hev) as [cur Hcur].
    destruct (simulateNewsEvent s rnd k symbol impact) as [[[s1 n] k1]|] eqn:Hn.
    + exists s1, k1. split; [reflexivity|].
      destruct (simulateNewsEvent_good s s1 rnd k k1 symbol impact n) as (Hg & Hv);
        try assumption.
      split; [|split; [exact Hg|now rewrite Hv]].
      unfold simulateNewsEvent in Hn. rewrite Hcur in Hn. injection Hn as <- _ _.
      cbn [prices]. intros sym. rewrite insert_present_is_Some by eauto. apply Hdom.
    + unfold simulateNewsEvent in Hn. rewrite Hcur in Hn. discriminate Hn.
Qed.

(** X19.  The simulator never produces a crossed or non-positive quote.
    Starting from its constructor, any sequence of price updates and
    news events on its six symbols, with draws of [Math.random] in
    [0, 1), runs without failing; afterwards the stored prices are still
    those of the six symbols, every one has [0 < bid < ask], and the
    volatility is still 0.001. *)
Theorem simulator_quotes_stay_good (rnd : Random) (evs : list SimEvent) (k : nat) :
  unit_draws rnd ->
  Forall known_event evs ->
  exists s' k',
    sim_run newFXDataSimulator rnd k evs = Some (s', k')
    /\ (forall sym, is_Some (prices s' !! sym) <-> In sym simulator_symbols)
    /\ (forall sym p, prices s' !! sym = Some p -> good_quote p)
    /\ volatility s' == 0.001.
Proof.
  intros Hrnd Hevs.
  assert (G : forall s k,
            (forall sym, is_Some (prices s !! sym) <-> In sym simulator_symbols) ->
            (forall sym p, prices s !! sym = Some p -> good_quote p) ->
            volatility s == 0.001 ->
            exists s' k',
              sim_run s rnd k evs = Some (s', k')
              /\ (forall sym, is_Some (prices s' !! sym) <-> In sym simulator_symbols)
              /\ (forall sym p, prices s' !! sym = Some p -> good_quote p)
              /\ volatility s' == 0.001).
  { induction Hevs as [|ev rest Hev Hrest IH]; intros s k0 Hdom Hgood Hvol.
    - exists s, k0. cbn. auto.
    - destruct (sim_step_known s rnd k0 ev Hrnd Hev Hdom Hgood Hvol)
        as (s1 & k1 & Hstep & Hdom1 & Hgood1 & Hvol1).
      cbn [sim_run]. rewrite Hstep. now apply IH. }
  apply G; [exact newFXDataSimulator_symbols|exact newFXDataSimulator_good|reflexivity].
Qed.

Lemma simulator_quotes_stay_good_witness :
  let rnd : Random := fun j => if Nat.even j then 0.9 else 0.1 in
  let evs := [Tick "EURUSD"; News "EURUSD" "high"] in
  unit_draws rnd
  /\ Forall known_event evs
  /\ exists s' k',
       sim_run newFXDataSimulator rnd 0 evs = Some (s', k')
       /\ (forall sym, is_Some (prices s' !! sym) <-> In sym simulator_symbols)
       /\ (forall sym p, prices s' !! sym = Some p -> good_quote p)
       /\ volatility s' == 0.001.
Proof.
  intros rnd evs.
  assert (H : unit_draws rnd).
  { intros j. unfold rnd. destruct (Nat.even j); split; discriminate || reflexivity. }
  assert (H' : Forall known_event evs).
  { constructor; [cbn; tauto|]. constructor; [|constructor].
    split; [cbn; tauto|apply plain_key_check; reflexivity]. }
  split; [exact H|]. split; [exact H'|].
  exact (simulator_quotes_stay_good rnd evs 0 H H').
Defined.

(** X20.  A news event moves the mid by exactly the impact's fraction:
    0.2% for [low], 1% for [high] and 0.5% for [medium] and for any
    other plain impact.  For a plain symbol with a stored price, the new
    mid is the old one times [1 + fraction] when the draw is above 0.5
    and times [1 - fraction] otherwise, the spread is 0.03% of the new
    mid, and two draws are consumed; a plain symbol without a price
    makes the call fail. *)
Theorem simulateNewsEvent_move (s : FXDataSimulator) (rnd : Random) (k : nat)
    (symbol impact : string) :
  plain_key symbol -> plain_key impact ->
  let fraction :=
    if String.eqb impact "low" then 0.002
    else if String.eqb impact "high" then 0.01 else 0.005 in
  match prices s !! symbol with
  | None => simulateNewsEvent s rnd k symbol impact = None
  | Some cur =>
    let mid := (s_bid cur + s_ask cur) / 2 in
    exists s' n,
      simulateNewsEvent s rnd k symbol impact = Some (s', n, (k + 2)%nat)
      /\ prices s' !! symbol = Some (n_price n)
      /\ (s_bid (n_price n) + s_ask (n_price n)) / 2
         == mid * (1 + (if Num.gtb (rnd k) 0.5 then 1 else - (1)) * fraction)
      /\ s_ask (n_price n) - s_bid (n_price n)
         == 0.0003 * ((s_bid (n_price n) + s_ask (n_price n)) / 2)
      /\ n_movement n == (s_bid (n_price n) + s_ask (n_price n)) / 2 - mid
  end.
Proof.
  intros _ _ fraction. subst fraction. rewrite <- impactMultiplier_table.
  unfold simulateNewsEvent.
  destruct (prices s !! symbol) as [cur|]; [|reflexivity].
  cbn zeta. do 2 eexists. split; [reflexivity|].
  cbn [prices n_price n_movement s_bid s_ask]. rewrite lookup_insert_eq.
  split; [reflexivity|]. repeat split; field.
Qed.

Lemma simulateNewsEvent_move_witness :
  let rnd : Random := fun _ => 0.75 in
  plain_key "EURUSD" /\ plain_key "high"
  /\ exists s' n,
       simulateNewsEvent newFXDataSimulator rnd 0 "EURUSD" "high"
       = Some (s', n, 2%nat)
       /\ (s_bid (n_price n) + s_ask (n_price n)) / 2 == 1.0850 * 1.01.
Proof.
  intros rnd.
  assert (H1 : plain_key "EURUSD") by (apply plain_key_check; reflexivity).
  assert (H2 : plain_key "high") by (apply plain_key_check; reflexivity).
  split; [exact H1|]. split; [exact H2|].
  pose proof (simulateNewsEvent_move newFXDataSimulator rnd 0 "EURUSD" "high" H1 H2)
    as H.
  cbv zeta in H.
  destruct (prices newFXDataSimulator !! "EURUSD") as [cur|] eqn:E;
    [|vm_compute in E; discriminate E].
  destruct H as (s' & n & Hrun & _ & Hmid & _).
  exists s', n. split; [exact Hrun|]. rewrite Hmid.
  vm_compute in E. injection E as <-. vm_compute. reflexivity.
Defined.

(** ** The generated bars *)

Lemma chained_cons (ms : Z) (b : Bar) (rest : list Bar) :
  chained ms (b :: rest) <->
  match rest with
  | [] => True
  | b' :: _ =>
    b_open b' = b_close b /\ b_timestamp b' = (b_timestamp b + ms)%Z
    /\ chained ms rest
  end.
Proof. destruct rest; reflexivity. Qed.

Lemma historical_fuel_step (current end_ ms : Z) :
  (0 < ms)%Z -> (current <= end_)%Z ->
  historical_fuel current end_ ms = S (historical_fuel (current + ms) end_ ms).
Proof.
  intros Hms Hle. unfold historical_fuel.
  replace (end_ - current)%Z with ((end_ - (current + ms)) + 1 * ms)%Z by lia.
  rewrite Z.div_add by lia.
  assert (-1 <= (end_ - (current + ms)) / ms)%Z.
  { apply Z.div_le_lower_bound; lia. }
  lia.
Qed.

Lemma historical_fuel_done (current end_ ms : Z) :
  (0 < ms)%Z -> (end_ < current)%Z -> historical_fuel current end_ ms = 0%nat.
Proof.
  intros Hms Hlt. unfold historical_fuel.
  assert ((end_ - current) / ms < 0)%Z by (apply Z.div_lt_upper_bound; lia).
  lia.
Qed.

(** What the loop appends: the bars from [current] on, chained from
    [price], four draws each. *)
Lemma historical_loop_bars (fuel : nat) :
  forall (rnd : Random) (k : nat) (vol : Q) (symbol : string)
         (current end_ ms : Z) (price : Q) (data res : list Bar) (k' : nat),
    (0 < ms)%Z ->
    historical_loop fuel rnd k vol symbol current end_ ms price data
      = Some (res, k') ->
    exists new,
      res = data ++ new
      /\ length new = historical_fuel current end_ ms
      /\ k' = (k + 4 * length new)%nat
      /\ chained ms new
      /\ match new with
         | [] => (end_ < current)%Z
         | b :: _ => b_open b = price /\ b_timestamp b = current
         end
      /\ Forall (fun b => (current <= b_timestamp b <= end_)%Z
                          /\ b_symbol b = symbol) new.
Proof.
  induction fuel as [|fuel IH];
    intros rnd k vol symbol current end_ ms price data res k' Hms;
    cbn [historical_loop]; destruct (current <=? end_)%Z eqn:E;
    try discriminate.
  - apply Z.leb_gt in E. intros [= <- <-]. exists [].
    rewrite app_nil_r, historical_fuel_done by lia. cbn.
    repeat split; try lia. constructor.
  - apply Z.leb_le in E. intros H.
    destruct (IH _ _ _ _ _ _ _ _ _ _ _ Hms H) as (new & -> & Hlen & -> & Hch & Hhd & Hall).
    eexists (_ :: new). rewrite <- app_assoc. split; [reflexivity|].
    split; [cbn [length]; rewrite Hlen; symmetry; now apply historical_fuel_step|].
    split; [cbn [length]; lia|].
    split.
    { apply chained_cons. destruct new as [|b' new']; [exact I|].
      destruct Hhd as [Ho Ht]. cbn [b_close b_timestamp]. auto. }
    split; [cbn; auto|].
    constructor; [cbn; split; [lia|reflexivity]|].
    eapply Forall_impl; [exact Hall|]. cbn. intros b [Hb Hs]. split; [lia|exact Hs].
  - apply Z.leb_gt in E. intros [= <- <-]. exists [].
    rewrite app_nil_r, historical_fuel_done by lia. cbn.
    repeat split; try lia. constructor.
Qed.

(** X21.  The shape of the generated bars.  For a plain symbol and a
    plain interval name, [generateHistoricalData] always returns; it
    yields one bar per interval from the start date while the date is
    not after the end date, that is [(end - start) / interval + 1] bars
    when [start <= end] and none otherwise; the first bar opens at the
    mid of the symbol's stored price (at 1 for a symbol without one),
    every bar opens where the previous one closed, one interval later,
    within the two dates, and the call consumes four draws per bar. *)
Theorem generateHistoricalData_shape (s : FXDataSimulator) (rnd : Random)
    (k : nat) (symbol : string) (start end_ : Z) (interval : string) :
  plain_key symbol -> plain_key interval ->
  let ms := getIntervalMilliseconds interval in
  exists bars,
    generateHistoricalData s rnd k symbol start end_ interval
      = Some (bars, (k + 4 * length bars)%nat)
    /\ length bars = Z.to_nat ((end_ - start) / ms + 1)
    /\ ((end_ < start)%Z <-> bars = [])
    /\ chained ms bars
    /\ (forall b, head bars = Some b ->
          b_timestamp b = start
          /\ b_open b = match prices s !! symbol with
                        | Some p => (s_bid p + s_ask p) / 2
                        | None => 1
                        end)
    /\ Forall (fun b => (start <= b_timestamp b <= end_)%Z /\ b_symbol b = symbol)
              bars.
Proof.
  intros _ _ ms.
  destruct (generateHistoricalData_total s rnd k symbol start end_ interval)
    as [[res k'] Hres].
  pose proof (getIntervalMilliseconds_pos interval) as Hms.
  pose proof Hres as Hloop. unfold generateHistoricalData in Hloop.
  destruct (historical_loop_bars _ _ _ _ _ _ _ _ _ _ _ _ Hms Hloop)
    as (new & Hnew & Hlen & -> & Hch & Hhd & Hall).
  cbn [app] in Hnew. subst res. exists new.
  split; [exact Hres|]. split; [exact Hlen|]. split; [|split; [exact Hch|split]].
  - split.
    + intros Hlt. apply length_zero_iff_nil.
      rewrite Hlen. now apply historical_fuel_done.
    + intros ->. exact Hhd.
  - intros b Hb. destruct new as [|b0 new']; [discriminate|].
    injection Hb as ->. destruct Hhd as [Ho Ht]. split; [exact Ht|exact Ho].
  - exact Hall.
Qed.

Lemma generateHistoricalData_shape_witness :
  let rnd : Random := fun _ => 0.25 in
  plain_key "XAUUSD" /\ plain_key "30min"
  /\ exists bars,
       generateHistoricalData newFXDataSimulator rnd 0 "XAUUSD"
         Scenario.first_hour Scenario.last_hour "30min"
       = Some (bars, (0 + 4 * length bars)%nat)
       /\ length bars = 5%nat
       /\ (forall b, head bars = Some b -> b_open b = 1).
Proof.
  intros rnd.
  assert (H1 : plain_key "XAUUSD") by (apply plain_key_check; reflexivity).
  assert (H2 : plain_key "30min") by (apply plain_key_check; reflexivity).
  split; [exact H1|]. split; [exact H2|].
  destruct (generateHistoricalData_shape newFXDataSimulator rnd 0 "XAUUSD"
              Scenario.first_hour Scenario.last_hour "30min" H1 H2)
    as (bars & Hrun & Hlen & _ & _ & Hhd & _).
  exists bars. split; [exact Hrun|]. split; [exact Hlen|].
  intros b Hb. exact (proj2 (Hhd b Hb)).
Defined.

Lemma historical_loop_positive (fuel : nat) :
  forall (rnd : Random) (k : nat) (vol : Q) (symbol : string)
         (current end_ ms : Z) (price : Q) (data res : list Bar) (k' : nat),
    unit_draws rnd -> 0 <= vol -> vol < 1 -> 0 < price ->
    let ok b :=
      0 < b_open b /\ 0 < b_close b
      /\ b_low b <= b_open b /\ b_low b <= b_close b
      /\ b_open b <= b_high b /\ b_close b <= b_high b
      /\ 100000 <= b_volume b /\ b_volume b < 1100000 in
    Forall ok data ->
    historical_loop fuel rnd k vol symbol current end_ ms price data
      = Some (res, k') ->
    Forall ok res.
Proof.
  induction fuel as [|fuel IH];
    intros rnd k vol symbol current end_ ms price data res k' Hrnd Hv0 Hv1 Hp ok Hdata;
    cbn [historical_loop]; destruct (current <=? end_)%Z; try discriminate.
  - intros [= <- <-]. exact Hdata.
  - set (change := (rnd k - 0.5) * 2 * vol * price).
    assert (Hclose : 0 < price + change).
    { assert (E : price + change == price * (1 + (rnd k - 0.5) * 2 * vol))
        by (unfold change; ring).
      rewrite E. apply Qmult_lt_0_compat; [exact Hp|].
      apply walk_factor_pos; try assumption. apply Hrnd. }
    apply IH; try assumption.
    apply Forall_app. split; [exact Hdata|]. constructor; [|constructor].
    unfold ok. cbn [b_open b_close b_low b_high b_volume].
    destruct (Hrnd (k + 1)%nat) as [Ha0 _]. destruct (Hrnd (k + 2)%nat) as [Hb0 _].
    destruct (Hrnd (k + 3)%nat) as [Hc0 Hc1].
    pose proof (Qabs_nonneg change) as Habs. fold (Num.abs change) in Habs.
    assert (Hja : 0 <= rnd (k + 1)%nat * Num.abs change * 0.5)
      by (apply Qmult_le_0_compat; [apply Qmult_le_0_compat; assumption|discriminate]).
    assert (Hjb : 0 <= rnd (k + 2)%nat * Num.abs change * 0.5)
      by (apply Qmult_le_0_compat; [apply Qmult_le_0_compat; assumption|discriminate]).
    destruct (max_spec price (price + change)) as [[? ->]|[? ->]];
      destruct (min_spec price (price + change)) as [[? ->]|[? ->]];
      repeat split; lra.
  - intros [= <- <-]. exact Hdata.
Qed.

(** X22.  Well-formed bars.  For a plain symbol and interval name, from
    a positive stored price (or none), with volatility in [0, 1) and
    draws in [0, 1), every generated bar has positive open and close, a
    low not above them, a high not below them, and a volume in
    [100,000, 1,100,000). *)
Theorem generateHistoricalData_bars_ok (s : FXDataSimulator) (rnd : Random)
    (k k' : nat) (symbol : string) (start end_ : Z) (interval : string)
    (bars : list Bar) :
  plain_key symbol -> plain_key interval ->
  unit_draws rnd -> 0 <= volatility s -> volatility s < 1 ->
  (forall p, prices s !! symbol = Some p -> good_quote p) ->
  generateHistoricalData s rnd k symbol start end_ interval = Some (bars, k') ->
  Forall (fun b =>
            0 < b_open b /\ 0 < b_close b
            /\ b_low b <= b_open b /\ b_low b <= b_close b
            /\ b_open b <= b_high b /\ b_close b <= b_high b
            /\ 100000 <= b_volume b /\ b_volume b < 1100000) bars.
Proof.
  intros _ _ Hrnd Hv0 Hv1 Hgood. unfold generateHistoricalData.
  apply historical_loop_positive; try assumption; [|constructor].
  destruct (prices s !! symbol) as [p|]; [|reflexivity].
  now apply good_quote_mid, Hgood.
Qed.

Lemma generateHistoricalData_bars_ok_witness :
  let rnd : Random := fun _ => 0.25 in
  plain_key "EURUSD" /\ plain_key "1hour"
  /\ unit_draws rnd /\ 0 <= volatility newFXDataSimulator
  /\ volatility newFXDataSimulator < 1
  /\ exists bars,
       generateHistoricalData newFXDataSimulator rnd 0 "EURUSD"
         Scenario.first_hour Scenario.last_hour "1hour" = Some (bars, 12%nat)
       /\ length bars = 3%nat
       /\ Forall (fun b => 0 < b_close b /\ b_low b <= b_close b <= b_high b) bars.
Proof.
  intros rnd.
  assert (P1 : plain_key "EURUSD") by (apply plain_key_check; reflexivity).
  assert (P2 : plain_key "1hour") by (apply plain_key_check; reflexivity).
  assert (H : unit_draws rnd) by (intros j; split; discriminate || reflexivity).
  assert (H0 : 0 <= volatility newFXDataSimulator) by discriminate.
  assert (H1 : volatility newFXDataSimulator < 1) by reflexivity.
  split; [exact P1|]. split; [exact P2|].
  split; [exact H|]. split; [exact H0|]. split; [exact H1|].
  destruct (generateHistoricalData newFXDataSimulator rnd 0 "EURUSD"
              Scenario.first_hour Scenario.last_hour "1hour")
    as [[bars k']|] eqn:E; [|vm_compute in E; discriminate E].
  assert (Hk : k' = 12%nat /\ length bars = 3%nat).
  { vm_compute in E. injection E as <- <-. split; reflexivity. }
  destruct Hk as [-> Hlen]. exists bars. split; [reflexivity|]. split; [exact Hlen|].
  pose proof (generateHistoricalData_bars_ok newFXDataSimulator rnd 0 12 "EURUSD"
                Scenario.first_hour Scenario.last_hour "1hour" bars P1 P2 H H0 H1
                (newFXDataSimulator_good "EURUSD") E) as Hall.
  eapply Forall_impl; [exact Hall|]. cbn. intros b Hb. tauto.
Defined.

(** ** The books of the backtest *)

Lemma bt_buys_snoc (l : list BacktestTrade) (t : BacktestTrade) :
  bt_buys (l ++ [t]) = (bt_buys l + if Side_eqb (bt_side t) buy then 1 else 0)%nat.
Proof.
  unfold bt_buys. rewrite List.filter_app, length_app. cbn [List.filter].
  destruct (Side_eqb (bt_side t) buy); reflexivity.
Qed.

Lemma bt_sells_snoc (l : list BacktestTrade) (t : BacktestTrade) :
  bt_sells (l ++ [t]) = (bt_sells l + if Side_eqb (bt_side t) sell then 1 else 0)%nat.
Proof.
  unfold bt_sells. rewrite List.filter_app, length_app. cbn [List.filter].
  destruct (Side_eqb (bt_side t) sell); reflexivity.
Qed.

Lemma pnl_or_zero_some (t : BacktestTrade) (p : Q) :
  bt_pnl t = Some p -> pnl_or_zero t == p.
Proof.
  intros H. unfold pnl_or_zero, Num.or_default. rewrite H.
  destruct (Num.truthy p) eqn:E; [reflexivity|].
  unfold Num.truthy in E. apply negb_false_iff, Qeq_bool_iff in E. now rewrite E.
Qed.

Lemma sum_snoc (l : list Q) (x : Q) : sum (l ++ [x]) == sum l + x.
Proof. rewrite sum_app, sum_cons. change (sum []) with 0. lra. Qed.

Lemma floor_le (x : Q) : Num.floor x <= x.
Proof. apply Qfloor_le. Qed.

(** One bar keeps the books sound, whatever the signal. *)
Lemma replay_bar_sound (Math_sqrt : Q -> Q) (symbol : string) (parameters : Options)
    (st : Replay) (data : Bar) :
  sound_replay st ->
  sound_replay (replay_bar Math_sqrt symbol parameters st data)
  /\ (0 < b_close data -> 0 <= balance st ->
      0 <= balance (replay_bar Math_sqrt symbol parameters st data)).
Proof.
  intros (Hpos & Hacc & Hcount & Hall). unfold replay_bar.
  set (alg := addPriceData _ _ _ _ _).
  set (sig := getCombinedSignal _ _ _ _).
  cbn [bt_trades balance bt_position positionPrice].
  assert (Hsame : sound_replay
            (mkReplay alg (bt_trades st) (balance st) (bt_position st)
                      (positionPrice st))) by (repeat split; assumption).
  destruct (Num.gtb (c_confidence sig) 0.6); [|split; [exact Hsame|auto]].
  destruct (Side_eqb (c_signal sig) buy && Num.leb (bt_position st) 0) eqn:Hb.
  { apply andb_true_iff in Hb as [_ Hle]. apply leb_true in Hle.
    assert (Hz : bt_position st == 0) by lra.
    set (qty := Num.floor (balance st * 0.1 / b_close data)).
    destruct (Num.gtb qty 0) eqn:Hq; [|split; [exact Hsame|auto]].
    apply gtb_true in Hq. split.
    - unfold sound_replay. cbn [bt_trades balance bt_position positionPrice].
      split; [lra|]. split; [|split].
      + rewrite map_app. cbn [map]. rewrite sum_snoc. unfold pnl_or_zero at 2.
        cbn [bt_pnl Num.or_default].
        assert (Hzz : bt_position st * positionPrice st == 0) by (rewrite Hz; ring).
        lra.
      + right. split; [exact Hq|]. rewrite bt_buys_snoc, bt_sells_snoc.
        cbn [bt_side Side_eqb]. destruct Hcount as [[_ ->]|[? _]]; [lia|lra].
      + apply Forall_app. split; [exact Hall|]. repeat constructor.
    - intros Hc Hbal. cbn [balance].
      assert (Hfl : qty <= balance st * 0.1 / b_close data) by apply floor_le.
      assert (E : balance st * 0.1 == (balance st * 0.1 / b_close data) * b_close data)
        by (field; lra).
      assert (qty * b_close data <= balance st * 0.1).
      { rewrite E. apply Qmult_le_compat_r; lra. }
      lra. }
  destruct (Side_eqb (c_signal sig) sell && Num.gtb (bt_position st) 0) eqn:Hs;
    [|split; [exact Hsame|auto]].
  apply andb_true_iff in Hs as [_ Hgt]. apply gtb_true in Hgt. split.
  - unfold sound_replay. cbn [bt_trades balance bt_position positionPrice].
    split; [lra|]. split; [|split].
    + rewrite map_app. cbn [map]. rewrite sum_snoc.
      match goal with
      | |- context [pnl_or_zero ?t] => rewrite (pnl_or_zero_some t _ eq_refl)
      end.
      lra.
    + left. split; [reflexivity|]. rewrite bt_buys_snoc, bt_sells_snoc.
      cbn [bt_side Side_eqb]. destruct Hcount as [[Hz _]|[_ ->]]; [lra|lia].
    + apply Forall_app. split; [exact Hall|]. constructor; [|constructor].
      right. split; [reflexivity|]. eexists. reflexivity.
  - intros Hc Hbal. cbn [balance].
    assert (0 <= bt_position st * b_close data)
      by (apply Qmult_le_0_compat; lra).
    lra.
Qed.

Lemma fold_left_invariant {A B} (f : A -> B -> A) (P : A -> Prop) (R : B -> Prop) :
  (forall a b, R b -> P a -> P (f a b)) ->
  forall l a, Forall R l -> P a -> P (fold_left f l a).
Proof.
  intros Hf. induction l as [|b l IH]; intros a Hall Ha; [exact Ha|].
  inversion Hall; subst. cbn [fold_left]. apply IH; auto.
Qed.

Lemma initial_replay_sound :
  sound_replay (mkReplay newTradingAlgorithms [] 100000 0 0).
Proof.
  unfold sound_replay. cbn [bt_trades balance bt_position positionPrice map].
  split; [discriminate|]. split; [reflexivity|]. split; [|constructor].
  left. split; reflexivity.
Qed.

Lemma replay_sound (Math_sqrt : Q -> Q) (symbol : string) (parameters : Options)
    (bars : list Bar) :
  sound_replay (replay Math_sqrt symbol parameters bars)
  /\ (Forall (fun b => 0 < b_close b) bars ->
      0 <= balance (replay Math_sqrt symbol parameters bars)).
Proof.
  unfold replay. split.
  - apply (fold_left_invariant _ sound_replay (fun _ => True)).
    + intros st b _ Hst. now apply replay_bar_sound.
    + apply Forall_forall. auto.
    + exact initial_replay_sound.
  - intros Hall.
    apply (fold_left_invariant _ (fun st => sound_replay st /\ 0 <= balance st)
             (fun b => 0 < b_close b)); [|exact Hall|].
    + intros st b Hb [Hst Hbal].
      destruct (replay_bar_sound Math_sqrt symbol parameters st b Hst) as [H1 H2].
      split; [exact H1|]. now apply H2.
    + split; [exact initial_replay_sound|discriminate].
Qed.

Lemma generated_bars_empty (s : FXDataSimulator) (rnd : Random) (k k' : nat)
    (symbol : string) (start end_ : Z) (interval : string) (bars : list Bar) :
  generateHistoricalData s rnd k symbol start end_ interval = Some (bars, k') ->
  (bars = [] <-> (end_ < start)%Z).
Proof.
  intros H. unfold generateHistoricalData in H.
  pose proof (getIntervalMilliseconds_pos interval) as Hms.
  destruct (historical_loop_bars _ _ _ _ _ _ _ _ _ _ _ _ Hms H)
    as (new & Hnew & Hlen & _ & _ & Hhd & _).
  cbn [app] in Hnew. subst new. split.
  - intros ->. exact Hhd.
  - intros Hlt. apply length_zero_iff_nil. rewrite Hlen.
    now apply historical_fuel_done.
Qed.

Lemma runBacktest_result (Math_sqrt : Q -> Q) (s : FXDataSimulator) (rnd : Random)
    (k : nat) (symbol : string) (startDate endDate : Z) (algorithm : string)
    (parameters : Options) (r : BacktestResult) :
  runBacktest Math_sqrt s rnd k symbol startDate endDate algorithm parameters
    = Some r ->
  exists bars k' lastBar,
    generateHistoricalData s rnd k symbol startDate endDate "1hour"
      = Some (bars, k')
    /\ last bars = Some lastBar
    /\ r_trades r = bt_trades (replay Math_sqrt symbol parameters bars)
    /\ r_stats r = backtestStats (replay Math_sqrt symbol parameters bars)
                                 (b_close lastBar).
Proof.
  unfold runBacktest.
  destruct (generateHistoricalData _ _ _ _ _ _ _) as [[bars k']|]; [|discriminate].
  destruct (last bars) as [lastBar|] eqn:El; [|discriminate].
  intros [= <-]. exists bars, k', lastBar. repeat split. exact El.
Qed.

(** The simulator's bars close above zero. *)
Lemma generated_closes_positive (s : FXDataSimulator) (rnd : Random) (k k' : nat)
    (symbol : string) (start end_ : Z) (interval : string) (bars : list Bar) :
  unit_draws rnd -> 0 <= volatility s -> volatility s < 1 ->
  (forall p, prices s !! symbol = Some p -> good_quote p) ->
  generateHistoricalData s rnd k symbol start end_ interval = Some (bars, k') ->
  Forall (fun b => 0 < b_close b) bars.
Proof.
  intros Hrnd Hv0 Hv1 Hgood Hg.
  assert (Hp : 0 < match prices s !! symbol with
                   | Some p => (s_bid p + s_ask p) / 2
                   | None => 1
                   end).
  { destruct (prices s !! symbol) as [p|]; [|reflexivity].
    now apply good_quote_mid, Hgood. }
  unfold generateHistoricalData in Hg.
  pose proof (historical_loop_positive _ _ _ _ _ _ _ _ _ _ _ _ Hrnd Hv0 Hv1 Hp
                (List.Forall_nil _) Hg) as Hall.
  eapply Forall_impl; [exact Hall|]. cbn. tauto.
Qed.

(** X23.  The books of a backtest balance.  For a plain symbol, draws in
    [0, 1), a volatility in [0, 1) and a positive stored price (or
    none): the cash balance never goes below zero, and the final balance
    is the starting 100,000 plus the total PnL of the trades plus the
    open position valued at the last close against its cost; when the
    run ends with as many SELLs as BUYs there is no open position and
    the final balance is exactly 100,000 plus the total PnL.  The return
    percent is the gain over 100,000 divided by 1,000. *)
Theorem backtest_accounting (Math_sqrt : Q -> Q) (s : FXDataSimulator)
    (rnd : Random) (k : nat) (symbol : string) (startDate endDate : Z)
    (algorithm : string) (parameters : Options) (r : BacktestResult) :
  plain_key symbol ->
  unit_draws rnd -> 0 <= volatility s -> volatility s < 1 ->
  (forall p, prices s !! symbol = Some p -> good_quote p) ->
  runBacktest Math_sqrt s rnd k symbol startDate endDate algorithm parameters
    = Some r ->
  exists bars k' lastBar,
    generateHistoricalData s rnd k symbol startDate endDate "1hour"
      = Some (bars, k')
    /\ last bars = Some lastBar
    /\ let st := replay Math_sqrt symbol parameters bars in
       0 <= balance st
       /\ finalBalance (r_stats r)
          == 100000 + totalPnL (r_stats r)
             + bt_position st * (b_close lastBar - positionPrice st)
       /\ (bt_buys (r_trades r) = bt_sells (r_trades r) ->
           finalBalance (r_stats r) == 100000 + totalPnL (r_stats r))
       /\ returnPercent (r_stats r) == (finalBalance (r_stats r) - 100000) / 1000
       /\ startingBalance (r_stats r) = 100000.
Proof.
  intros _ Hrnd Hv0 Hv1 Hgood H.
  destruct (runBacktest_result _ _ _ _ _ _ _ _ _ _ H)
    as (bars & k' & lastBar & Hg & Hl & Ht & Hs).
  exists bars, k', lastBar. split; [exact Hg|]. split; [exact Hl|]. cbn zeta.
  destruct (replay_sound Math_sqrt symbol parameters bars)
    as [(Hpos & Hacc & Hcount & _) Hbal].
  split.
  { apply Hbal. exact (generated_closes_positive _ _ _ _ _ _ _ _ _ Hrnd Hv0 Hv1 Hgood Hg). }
  rewrite Hs, Ht. unfold backtestStats.
  cbn [finalBalance totalPnL returnPercent startingBalance].
  rewrite sum_by_map.
  set (st := replay Math_sqrt symbol parameters bars) in *.
  split; [|split; [|split]].
  - lra.
  - intros Heq. destruct Hcount as [[Hz _]|[_ Hne]]; [|lia].
    assert (E1 : bt_position st * positionPrice st == 0) by (rewrite Hz; ring).
    assert (E2 : bt_position st * b_close lastBar == 0) by (rewrite Hz; ring).
    lra.
  - field.
  - reflexivity.
Qed.

Lemma backtest_accounting_witness :
  let rnd : Random := fun _ => 0.25 in
  plain_key "EURUSD" /\ unit_draws rnd
  /\ 0 <= volatility newFXDataSimulator /\ volatility newFXDataSimulator < 1
  /\ exists r,
       runBacktest Scenario.sqrt9 newFXDataSimulator rnd 0 "EURUSD"
         Scenario.first_hour Scenario.last_hour "combined" Scenario.quick_rsi
       = Some r
       /\ returnPercent (r_stats r) == (finalBalance (r_stats r) - 100000) / 1000.
Proof.
  intros rnd.
  assert (P : plain_key "EURUSD") by (apply plain_key_check; reflexivity).
  assert (H : unit_draws rnd) by (intros j; split; discriminate || reflexivity).
  assert (H0 : 0 <= volatility newFXDataSimulator) by discriminate.
  assert (H1 : volatility newFXDataSimulator < 1) by reflexivity.
  split; [exact P|]. split; [exact H|]. split; [exact H0|]. split; [exact H1|].
  destruct (runBacktest Scenario.sqrt9 newFXDataSimulator rnd 0 "EURUSD"
              Scenario.first_hour Scenario.last_hour "combined" Scenario.quick_rsi)
    as [r|] eqn:E; [|vm_compute in E; discriminate E].
  exists r. split; [reflexivity|].
  destruct (backtest_accounting _ _ _ _ _ _ _ _ _ _ P H H0 H1
              (newFXDataSimulator_good "EURUSD") E)
    as (bars & k' & lastBar & _ & _ & _ & _ & _ & Hret & _).
  exact Hret.
Defined.

(** X24.  The replay never goes short and never overdraws.  After any
    bars with positive closes the position is not negative, the SELLs
    are as many as the BUYs or one fewer, as many exactly when no
    position is open, and the cash balance is not negative. *)
Theorem replay_never_short (Math_sqrt : Q -> Q) (symbol : string)
    (parameters : Options) (bars : list Bar) :
  Forall (fun b => 0 < b_close b) bars ->
  let st := replay Math_sqrt symbol parameters bars in
  0 <= bt_position st
  /\ (bt_sells (bt_trades st) <= bt_buys (bt_trades st)
      <= S (bt_sells (bt_trades st)))%nat
  /\ (bt_buys (bt_trades st) = bt_sells (bt_trades st) <-> bt_position st == 0)
  /\ 0 <= balance st.
Proof.
  intros Hall st. subst st.
  destruct (replay_sound Math_sqrt symbol parameters bars)
    as [(Hpos & _ & Hcount & _) Hbal].
  split; [exact Hpos|]. split; [|split; [|exact (Hbal Hall)]].
  - destruct Hcount as [[_ ->]|[_ ->]]; lia.
  - destruct Hcount as [[Hz He]|[Hp He]]; split; intros; try assumption; try lia.
    lra.
Qed.

Lemma replay_never_short_witness :
  let bars := [mkBar 0 "EURUSD" 1 1.2 0.9 1.1 100000;
               mkBar 3600000 "EURUSD" 1.1 1.3 1 1.2 100000] in
  let st := replay Scenario.sqrt9 "EURUSD" Scenario.quick_rsi bars in
  Forall (fun b => 0 < b_close b) bars
  /\ 0 <= bt_position st /\ 0 <= balance st.
Proof.
  intros bars st.
  assert (H : Forall (fun b => 0 < b_close b) bars).
  { constructor; [reflexivity|]. constructor; [reflexivity|]. constructor. }
  split; [exact H|].
  pose proof (replay_never_short Scenario.sqrt9 "EURUSD" Scenario.quick_rsi bars H)
    as (H1 & _ & _ & H2).
  split; [exact H1|exact H2].
Defined.

Lemma filter_length_le {A} (f g : A -> bool) (l : list A) :
  Forall (fun x => f x = true -> g x = true) l ->
  (length (List.filter f l) <= length (List.filter g l))%nat.
Proof.
  induction 1 as [|x l Hx _ IH]; [reflexivity|]. cbn [List.filter].
  destruct (f x) eqn:Ef.
  - rewrite (Hx eq_refl). cbn [length]. lia.
  - destruct (g x); cbn [length]; lia.
Qed.

Lemma buys_plus_sells (l : list BacktestTrade) :
  Forall (fun t => bt_side t = buy \/ bt_side t = sell) l ->
  length l = (bt_buys l + bt_sells l)%nat.
Proof.
  unfold bt_buys, bt_sells.
  induction 1 as [|t l Ht _ IH]; [reflexivity|]. cbn [List.filter length].
  destruct Ht as [-> | ->]; cbn [Side_eqb length]; lia.
Qed.

(** X25.  The reported win rate never exceeds 50%.  [totalTrades]
    counts BUYs and SELLs, [profitableTrades] only SELLs with a positive
    PnL, and every SELL closes an earlier BUY; so for a plain symbol,
    draws in [0, 1), a volatility in [0, 1) and a positive stored price
    (or none), [0 <= winRate <= 50]. *)
Theorem backtest_win_rate (Math_sqrt : Q -> Q) (s : FXDataSimulator)
    (rnd : Random) (k : nat) (symbol : string) (startDate endDate : Z)
    (algorithm : string) (parameters : Options) (r : BacktestResult) :
  plain_key symbol ->
  unit_draws rnd -> 0 <= volatility s -> volatility s < 1 ->
  (forall p, prices s !! symbol = Some p -> good_quote p) ->
  runBacktest Math_sqrt s rnd k symbol startDate endDate algorithm parameters
    = Some r ->
  totalTrades (r_stats r) = length (r_trades r)
  /\ totalTrades (r_stats r)
     = (bt_buys (r_trades r) + bt_sells (r_trades r))%nat
  /\ (profitableTrades (r_stats r) <= bt_sells (r_trades r)
      <= bt_buys (r_trades r))%nat
  /\ 0 <= winRate (r_stats r) <= 50.
Proof.
  intros _ _ _ _ _ H.
  destruct (runBacktest_result _ _ _ _ _ _ _ _ _ _ H)
    as (bars & k' & lastBar & _ & _ & Ht & Hs).
  destruct (replay_sound Math_sqrt symbol parameters bars)
    as [(_ & _ & Hcount & Hall) _].
  rewrite Hs, Ht. unfold backtestStats.
  cbn [totalTrades profitableTrades winRate].
  set (l := bt_trades (replay Math_sqrt symbol parameters bars)) in *.
  assert (Htot : length l = (bt_buys l + bt_sells l)%nat).
  { apply buys_plus_sells. eapply Forall_impl; [exact Hall|].
    cbn. intros t [[? _]|[? _]]; auto. }
  assert (Hprof : (length (List.filter is_profitable l) <= bt_sells l)%nat).
  { apply filter_length_le. eapply Forall_impl; [exact Hall|].
    cbn. intros t [[_ Hn]|[Hsell _]] Hp.
    - unfold is_profitable in Hp. rewrite Hn in Hp. discriminate.
    - now rewrite Hsell. }
  assert (Hsb : (bt_sells l <= bt_buys l)%nat)
    by (destruct Hcount as [[_ ->]|[_ ->]]; lia).
  split; [reflexivity|]. split; [exact Htot|]. split; [lia|].
  destruct (0 <? length l)%nat eqn:E; [|split; discriminate].
  apply Nat.ltb_lt in E.
  pose proof (of_nat_pos _ E) as Hpos.
  assert (H2 : Num.of_nat (length (List.filter is_profitable l)) * 2
               <= Num.of_nat (length l)).
  { unfold Num.of_nat. change 2 with (inject_Z 2).
    rewrite <- inject_Z_mult, <- Zle_Qle. lia. }
  assert (H0 : 0 <= Num.of_nat (length (List.filter is_profitable l))).
  { unfold Num.of_nat. change 0 with (inject_Z 0). rewrite <- Zle_Qle. lia. }
  assert (Hq : 0 <= Num.of_nat (length (List.filter is_profitable l))
                    / Num.of_nat (length l) <= (1 # 2)).
  { split.
    - apply Qle_shift_div_l; lra.
    - apply Qle_shift_div_r; lra. }
  lra.
Qed.

Lemma backtest_win_rate_witness :
  let rnd : Random := fun _ => 0.25 in
  plain_key "EURUSD" /\ unit_draws rnd
  /\ 0 <= volatility newFXDataSimulator /\ volatility newFXDataSimulator < 1
  /\ exists r,
       runBacktest Scenario.sqrt9 newFXDataSimulator rnd 0 "EURUSD"
         Scenario.first_hour Scenario.last_hour "combined" Scenario.quick_rsi
       = Some r
       /\ 0 <= winRate (r_stats r) <= 50.
Proof.
  intros rnd.
  assert (P : plain_key "EURUSD") by (apply plain_key_check; reflexivity).
  assert (H : unit_draws rnd) by (intros j; split; discriminate || reflexivity).
  assert (H0 : 0 <= volatility newFXDataSimulator) by discriminate.
  assert (H1 : volatility newFXDataSimulator < 1) by reflexivity.
  split; [exact P|]. split; [exact H|]. split; [exact H0|]. split; [exact H1|].
  destruct (runBacktest Scenario.sqrt9 newFXDataSimulator rnd 0 "EURUSD"
              Scenario.first_hour Scenario.last_hour "combined" Scenario.quick_rsi)
    as [r|] eqn:E; [|vm_compute in E; discriminate E].
  exists r. split; [reflexivity|].
  exact (proj2 (proj2 (proj2 (backtest_win_rate _ _ _ _ _ _ _ _ _ _ P H H0 H1
                                 (newFXDataSimulator_good "EURUSD") E)))).
Defined.

(** X26.  [runBacktest] fails exactly when the end date is before the
    start date: then no bar is generated and reading the close of the
    last bar throws; in every other case it returns a result. *)
Theorem runBacktest_fails_iff (Math_sqrt : Q -> Q) (s : FXDataSimulator)
    (rnd : Random) (k : nat) (symbol : string) (startDate endDate : Z)
    (algorithm : string) (parameters : Options) :
  runBacktest Math_sqrt s rnd k symbol startDate endDate algorithm parameters = None
  <-> (endDate < startDate)%Z.
Proof.
  unfold runBacktest.
  destruct (generateHistoricalData_total s rnd k symbol startDate endDate "1hour")
    as [[bars k'] Hg].
  rewrite Hg. pose proof (generated_bars_empty _ _ _ _ _ _ _ _ _ Hg) as He.
  destruct (last bars) as [lastBar|] eqn:El.
  - split; [discriminate|]. intros Hlt. apply He in Hlt. subst bars. discriminate.
  - split; [|reflexivity]. intros _. apply He. now apply last_None.
Qed.
